(** * ai-customer-agent: the OAuth handshake and the customer export

    A shallow embedding of the two Express servers of the repository,
    [src/server.js] (module [Server]) and the larger server with shop
    validation, CSV export and the dashboard (module [App]), together with
    the parts of the Node.js runtime they call (module [Node]), the
    JavaScript values they handle (module [Js]) and what a handler receives
    and produces (module [Http]).  Module [Spec] holds the notions the
    properties are stated with, and sample requests.

    Conventions.
    - A JavaScript string is a [string]: a sequence of code units in the
      range 0..255.  [Node.utf8] gives the bytes that [Buffer.from(s, "utf8")]
      and [hmac.update(s)] see.
    - A byte is an [N] below 256; a 32-bit word is an [N] below 2^32 with the
      wrap-around written out.
    - The configuration ([SHOPIFY_API_KEY], [SHOPIFY_API_SECRET],
      [SHOPIFY_SCOPES], [SHOPIFY_APP_URL]) is required configuration and a
      [Config] has it present: strings supplied at process start.  The one
      place where an unset variable makes a call throw, [crypto.createHmac]
      with the secret, is embedded for an unset secret as well
      ([verifyHmacWith], [App.callbackWith]).
    - Conversion to string ([String(v)], a template literal, [join], the
      method call [v.toString()]) throws for an object that has a property
      named [toString] of its own: [Js.converts] tells whether it returns
      and [Js.toString] is the text it returns.  Where a handler converts a
      query parameter before validating it ([verifyHmac], [/auth],
      [/exitiframe]) or converts data of the resource API ([formatAddresses],
      [toCSV]), the throw is embedded.  The data routes, and [/auth] and
      [/customers] of [src/server.js], are embedded for requests that name a
      tenant: a [shop] and a [first] parameter that convert. *)

From Stdlib Require Import NArith ZArith Ascii Lia.
From stdpp Require Import base gmap strings list sorting.

(* ===================================================================== *)
(** ** The Node.js runtime: buffers, hex, SHA-256, HMAC                  *)
(* ===================================================================== *)

Module Node.

(** What a JavaScript call does: it returns a value or throws an error
    (name and message). *)
Inductive Completion (A : Type) : Type :=
| Return (a : A)
| Throw (name message : string).
Arguments Return {A} a.
Arguments Throw {A} name message.

#[export] Instance Completion_ret : MRet Completion := fun A a => Return a.
#[export] Instance Completion_bind : MBind Completion := fun A B k c =>
  match c with
  | Return a => k a
  | Throw n m => Throw n m
  end.

(** A buffer is a list of bytes. *)
Definition Buffer := list N.

Definition code (c : ascii) : N := N_of_ascii c.

(** UTF-8 encoding of one code unit below 256. *)
Definition utf8_unit (c : ascii) : list N :=
  let n := code c in
  if (n <? 128)%N then [n]
  else [(192 + n / 64)%N; (128 + n mod 64)%N].

(** [Buffer.from(s, "utf8")], also the bytes [update(s)] hashes. *)
Fixpoint utf8 (s : string) : Buffer :=
  match s with
  | EmptyString => []
  | String c s' => utf8_unit c ++ utf8 s'
  end.

(** *** Hexadecimal *)

Definition hexdigit (n : N) : ascii :=
  if (n <? 10)%N then ascii_of_N (48 + n) else ascii_of_N (87 + n).

(** [unhex] of the runtime: the value of a hexadecimal digit in either case,
    nothing for any other character. *)
Definition unhex (c : ascii) : option N :=
  let n := code c in
  if ((48 <=? n) && (n <=? 57))%N then Some (n - 48)%N
  else if ((97 <=? n) && (n <=? 102))%N then Some (n - 87)%N
  else if ((65 <=? n) && (n <=? 70))%N then Some (n - 55)%N
  else None.

(** [buf.toString("hex")] and [digest("hex")]: two lowercase digits a byte. *)
Fixpoint toHex (b : Buffer) : string :=
  match b with
  | [] => EmptyString
  | x :: b' => String (hexdigit (x / 16)) (String (hexdigit (x mod 16)) (toHex b'))
  end.

(** [Buffer.from(s, "hex")]: pairs of digits are decoded from the left; the
    decoding stops at the first pair that holds a character that is no
    hexadecimal digit, and a single trailing character is dropped. *)
Fixpoint fromHex (s : string) : Buffer :=
  match s with
  | String c1 (String c2 s') =>
      match unhex c1, unhex c2 with
      | Some a, Some b => (16 * a + b)%N :: fromHex s'
      | _, _ => []
      end
  | _ => []
  end.

Fixpoint bytes_eqb (a b : Buffer) : bool :=
  match a, b with
  | [], [] => true
  | x :: a', y :: b' => (x =? y)%N && bytes_eqb a' b'
  | _, _ => false
  end.

(** [crypto.timingSafeEqual(a, b)]: throws a RangeError unless the two
    buffers have the same byte length. *)
Definition timingSafeEqual (a b : Buffer) : Completion bool :=
  if (length a =? length b)%nat then Return (bytes_eqb a b)
  else Throw "RangeError" "Input buffers must have the same byte length".

(** *** SHA-256 (FIPS 180-4) on 32-bit words *)

Definition w32 (x : N) : N := (x mod 4294967296)%N.
Definition add32 (x y : N) : N := w32 (x + y).
Definition rotr (n x : N) : N :=
  w32 (N.lor (N.shiftr x n) (N.shiftl x (32 - n))).
Definition not32 (x : N) : N := N.lxor x 4294967295%N.

Definition Ch (x y z : N) : N := N.lxor (N.land x y) (N.land (not32 x) z).
Definition Maj (x y z : N) : N :=
  N.lxor (N.lxor (N.land x y) (N.land x z)) (N.land y z).
Definition bsig0 (x : N) : N := N.lxor (N.lxor (rotr 2 x) (rotr 13 x)) (rotr 22 x).
Definition bsig1 (x : N) : N := N.lxor (N.lxor (rotr 6 x) (rotr 11 x)) (rotr 25 x).
Definition ssig0 (x : N) : N := N.lxor (N.lxor (rotr 7 x) (rotr 18 x)) (N.shiftr x 3).
Definition ssig1 (x : N) : N := N.lxor (N.lxor (rotr 17 x) (rotr 19 x)) (N.shiftr x 10).

(** The constants of FIPS 180-4 are the first 32 bits of the fractional
    parts of the cube roots (round constants) and of the square roots
    (initial hash value) of the first primes. *)
Definition isPrime (n : nat) : bool :=
  forallb (fun d => negb (n mod d =? 0)%nat) (seq 2 (n - 2)).

Definition primes : list N := map N.of_nat (filter (fun n => Is_true (isPrime n)) (seq 2 310)).

(** The integer cube root of [n], found bit by bit from bit [i] down. *)
Fixpoint cbrt (i : nat) (n x : N) : N :=
  match i with
  | O => x
  | S i' =>
      let y := (x + 2 ^ N.of_nat i')%N in
      cbrt i' n (if (y * y * y <=? n)%N then y else x)
  end.

Definition fracCbrt (p : N) : N := w32 (cbrt 36 (p * 2 ^ 96) 0).
Definition fracSqrt (p : N) : N := w32 (N.sqrt (p * 2 ^ 64)).

Definition K256 : list N := Eval vm_compute in map fracCbrt primes.

(** The eight working variables, also the running hash value. *)
Record Regs := mkRegs { ra : N; rb : N; rc : N; rd : N; re : N; rf : N; rg : N; rh : N }.

Definition H0 : Regs :=
  Eval vm_compute in
  match map fracSqrt (firstn 8 primes) with
  | [a; b; c; d; e; f; g; h] => mkRegs a b c d e f g h
  | _ => mkRegs 0 0 0 0 0 0 0 0
  end.

(** Padding: the bit 1, zeros up to 56 modulo 64, the bit length on 8 bytes. *)
Definition be_bytes (k : nat) (x : N) : list N :=
  map (fun i => (N.shiftr x (8 * N.of_nat i) mod 256)%N) (rev (seq 0 k)).

Definition pad (msg : Buffer) : Buffer :=
  let len := length msg in
  let zeros := ((64 - (len + 9) mod 64) mod 64)%nat in
  msg ++ [128%N] ++ repeat 0%N zeros ++ be_bytes 8 (8 * N.of_nat len).

Definition be32 (b0 b1 b2 b3 : N) : N :=
  (16777216 * b0 + 65536 * b1 + 256 * b2 + b3)%N.

Fixpoint words (b : Buffer) : list N :=
  match b with
  | b0 :: b1 :: b2 :: b3 :: b' => be32 b0 b1 b2 b3 :: words b'
  | _ => []
  end.

(** The message schedule: [w] holds W(0..t-1); each step appends W(t). *)
Fixpoint schedule (n : nat) (w : list N) : list N :=
  match n with
  | O => w
  | S n' =>
      let t := length w in
      let at_ i := nth (t - i) w 0%N in
      schedule n' (w ++ [add32 (add32 (ssig1 (at_ 2%nat)) (at_ 7%nat))
                               (add32 (ssig0 (at_ 15%nat)) (at_ 16%nat))])
  end.

Definition round (r : Regs) (kw : N * N) : Regs :=
  let t1 := add32 (add32 (add32 (rh r) (bsig1 (re r)))
                         (add32 (Ch (re r) (rf r) (rg r)) (fst kw))) (snd kw) in
  let t2 := add32 (bsig0 (ra r)) (Maj (ra r) (rb r) (rc r)) in
  mkRegs (add32 t1 t2) (ra r) (rb r) (rc r) (add32 (rd r) t1) (re r) (rf r) (rg r).

Definition compress (h : Regs) (block : list N) : Regs :=
  let r := fold_left round (combine K256 (schedule 48 block)) h in
  mkRegs (add32 (ra h) (ra r)) (add32 (rb h) (rb r)) (add32 (rc h) (rc r))
         (add32 (rd h) (rd r)) (add32 (re h) (re r)) (add32 (rf h) (rf r))
         (add32 (rg h) (rg r)) (add32 (rh h) (rh r)).

Fixpoint blocks (fuel : nat) (ws : list N) (h : Regs) : Regs :=
  match fuel with
  | O => h
  | S fuel' =>
      match ws with
      | [] => h
      | _ => blocks fuel' (skipn 16 ws) (compress h (firstn 16 ws))
      end
  end.

Definition regs_bytes (r : Regs) : Buffer :=
  be_bytes 4 (ra r) ++ be_bytes 4 (rb r) ++ be_bytes 4 (rc r) ++ be_bytes 4 (rd r) ++
  be_bytes 4 (re r) ++ be_bytes 4 (rf r) ++ be_bytes 4 (rg r) ++ be_bytes 4 (rh r).

Definition sha256 (msg : Buffer) : Buffer :=
  let ws := words (pad msg) in
  regs_bytes (blocks (length ws) ws H0).

(** *** HMAC (RFC 2104) with SHA-256, block size 64 *)

Definition hmac_key (key : Buffer) : Buffer :=
  let k := if (64 <? length key)%nat then sha256 key else key in
  k ++ repeat 0%N (64 - length k).

Definition hmac_sha256 (key msg : Buffer) : Buffer :=
  let k := hmac_key key in
  sha256 (map (N.lxor 92) k ++ sha256 (map (N.lxor 54) k ++ msg)).

(** [crypto.createHmac("sha256", key).update(message).digest("hex")]. *)
Definition createHmac_sha256_hex (key message : string) : string :=
  toHex (hmac_sha256 (utf8 key) (utf8 message)).

(** The key argument of [crypto.createHmac] when it is the value of an
    environment variable: a string, or [undefined] for a variable that is not
    set, which [createHmac] refuses with a TypeError. *)
Definition createHmacKey (key : option string) : Completion string :=
  match key with
  | Some k => Return k
  | None =>
      Throw "TypeError"
            ("The " +:+ String (ascii_of_N 34) "key" +:+ String (ascii_of_N 34) "" +:+
             " argument must be of type string or an instance of ArrayBuffer, Buffer, TypedArray, DataView, KeyObject, or CryptoKey. Received undefined")
  end.

End Node.

(* ===================================================================== *)
(** ** JavaScript values                                                  *)
(* ===================================================================== *)

Module Js.
Import Node.

(** The values the servers handle: what the query-string parser, the cookie
    parser and [JSON.parse] produce, and [undefined].  A number is carried as
    the text JavaScript prints for it ([String(n)]); the servers do no
    arithmetic on numbers. *)
#[warnings="-register-all"]
Inductive value : Type :=
| VUndef
| VNull
| VBool (b : bool)
| VNum (repr : string)
| VStr (s : string)
| VArr (xs : list value)
| VObj (fields : list (string * value)).

(** [!!v] *)
Definition truthy (v : value) : bool :=
  match v with
  | VUndef | VNull => false
  | VBool b => b
  | VNum r => negb (String.eqb r "0" || String.eqb r "NaN")
  | VStr s => negb (String.eqb s "")
  | VArr _ | VObj _ => true
  end.

(** [a || b] *)
Definition or (a b : value) : value := if truthy a then a else b.

(** [a === b] for two values that are not one and the same object: two
    arrays or objects parsed from different places are never identical. *)
Definition strictEq (a b : value) : bool :=
  match a, b with
  | VUndef, VUndef | VNull, VNull => true
  | VBool x, VBool y => Bool.eqb x y
  | VNum x, VNum y => String.eqb x y && negb (String.eqb x "NaN")
  | VStr x, VStr y => String.eqb x y
  | _, _ => false
  end.

(** *** Strings *)

Definition dquote : ascii := ascii_of_N 34.
Definition LF : ascii := ascii_of_N 10.

(** [parts.join(sep)] on strings: the separator between the elements, none
    after the last. *)
Fixpoint join (sep : string) (l : list string) : string :=
  match l with
  | [] => ""
  | [x] => x
  | x :: l' => x +:+ sep +:+ join sep l'
  end.

(** [s.includes(c)] for a one-character needle. *)
Fixpoint includes (c : ascii) (s : string) : bool :=
  match s with
  | EmptyString => false
  | String d s' => Ascii.eqb d c || includes c s'
  end.

(** [s.replace(/c/g, by)] for a one-character pattern. *)
Fixpoint replaceAll (c : ascii) (by_ : string) (s : string) : string :=
  match s with
  | EmptyString => ""
  | String d s' =>
      if Ascii.eqb d c then by_ +:+ replaceAll c by_ s'
      else String d (replaceAll c by_ s')
  end.

(** White space as [trim] sees it, among the code units below 256: TAB, LF,
    VT, FF, CR, SPACE and NO-BREAK SPACE. *)
Definition isSpace (c : ascii) : bool :=
  let n := code c in
  ((9 <=? n) && (n <=? 13) || (n =? 32) || (n =? 160))%N.

Fixpoint trimStart (s : string) : string :=
  match s with
  | EmptyString => ""
  | String c s' => if isSpace c then trimStart s' else s
  end.

Fixpoint trimEnd (s : string) : string :=
  match s with
  | EmptyString => ""
  | String c s' =>
      match trimEnd s' with
      | EmptyString => if isSpace c then "" else String c ""
      | t => String c t
      end
  end.

(** [s.trim()] *)
Definition trim (s : string) : string := trimEnd (trimStart s).

(** [s.startsWith(p)] *)
Definition startsWith (p s : string) : bool := String.prefix p s.

(** [s.replace(/\/$/, "")]: one slash at the very end is removed. *)
Fixpoint dropTrailingSlash (s : string) : string :=
  match s with
  | EmptyString => ""
  | String c EmptyString => if Ascii.eqb c "/" then "" else s
  | String c s' => String c (dropTrailingSlash s')
  end.

Definition HEXDIGIT (n : N) : ascii :=
  if (n <? 10)%N then ascii_of_N (48 + n) else ascii_of_N (55 + n).

Definition percent (b : N) : string :=
  String "%" (String (HEXDIGIT (b / 16)) (String (HEXDIGIT (b mod 16)) "")).

(** The characters [encodeURIComponent] leaves as they are. *)
Definition unreserved (c : ascii) : bool :=
  let n := code c in
  ((65 <=? n) && (n <=? 90) || (97 <=? n) && (n <=? 122) || (48 <=? n) && (n <=? 57))%N
  || includes c "-_.!~*'()".

Fixpoint encodeURIComponent (s : string) : string :=
  match s with
  | EmptyString => ""
  | String c s' =>
      (if unreserved c then String c ""
       else fold_right (fun b acc => percent b +:+ acc) "" (utf8_unit c))
      +:+ encodeURIComponent s'
  end.

(** *** Conversion to string *)

(** The text that [String(v)], [v.toString()] and a template literal give
    where the conversion returns ([converts], below).  An array prints its
    elements joined by commas, [null] and [undefined] elements as nothing; an
    object prints as [[object Object]]. *)
Fixpoint toString (v : value) : string :=
  match v with
  | VUndef => "undefined"
  | VNull => "null"
  | VBool true => "true"
  | VBool false => "false"
  | VNum r => r
  | VStr s => s
  | VArr xs =>
      join "," ((fix elems (l : list value) : list string :=
                   match l with
                   | [] => []
                   | x :: l' =>
                       match x with
                       | VUndef | VNull => ""
                       | _ => toString x
                       end :: elems l'
                   end) xs)
  | VObj _ => "[object Object]"
  end.

(** The string an element contributes to [Array.prototype.join]. *)
Definition elemString (v : value) : string :=
  match v with
  | VUndef | VNull => ""
  | _ => toString v
  end.

(** The text of [xs.join(sep)] on an array of values. *)
Definition joinValues (sep : string) (xs : list value) : string :=
  join sep (map elemString xs).

(** Whether the conversion of [v] to a string returns.  A parsed object is
    converted by [Object.prototype.toString] unless it has a property named
    [toString] of its own; a parsed value is never a function, so with such a
    property the conversion finds nothing to call and throws a TypeError.  An
    array converts its elements. *)
Fixpoint converts (v : value) : bool :=
  match v with
  | VArr xs => forallb converts xs
  | VObj fields => negb (existsb (fun kv => String.eqb kv.1 "toString") fields)
  | _ => true
  end.

Definition noPrimitive : string := "Cannot convert object to primitive value".

(** [String(v)] and the conversion of a template literal. *)
Definition ToString (v : value) : Completion string :=
  if converts v then Return (toString v) else Throw "TypeError" noPrimitive.

(** [xs.join(sep)] *)
Definition Join (sep : string) (xs : list value) : Completion string :=
  if forallb converts xs then Return (joinValues sep xs) else Throw "TypeError" noPrimitive.

(** [v.toString()], the method call, [what] being the text of the
    expression called on: on an object with a [toString] of its own the call
    finds no function; an array converts its elements. *)
Definition callToString (what : string) (v : value) : Completion string :=
  match v with
  | VUndef => Throw "TypeError" "Cannot read properties of undefined (reading 'toString')"
  | VNull => Throw "TypeError" "Cannot read properties of null (reading 'toString')"
  | VObj fields =>
      if existsb (fun kv => String.eqb kv.1 "toString") fields
      then Throw "TypeError" (what +:+ ".toString is not a function")
      else Return (toString v)
  | _ => ToString v
  end.

(** *** Objects *)

(** An object used as a record of named properties, as [req.cookies] is:
    property names are unique. *)
Abbreviation object := (gmap string value).

(** [o[k]] and [o.k]: a missing property reads as [undefined]. *)
Definition get (o : object) (k : string) : value := default VUndef (o !! k).

(** What the query-string parser makes of a parameter: a string, an array
    (a repeated parameter, or [k[]=]) or an object ([k[x]=]) of such. *)
#[warnings="-register-all"]
Inductive param : Type :=
| PStr (s : string)
| PArr (xs : list param)
| PObj (fields : list (string * param)).

(** A parameter as a value. *)
Fixpoint val (p : param) : value :=
  match p with
  | PStr s => VStr s
  | PArr xs => VArr (map val xs)
  | PObj fields => VObj (map (fun kp => (kp.1, val kp.2)) fields)
  end.

(** [req.query]: the parsed query string. *)
Abbreviation params := (gmap string param).

(** [query[k]] and the destructuring [const { k } = query]. *)
Definition getParam (q : params) (k : string) : value :=
  from_option val VUndef (q !! k).

(** The order of [Array.prototype.sort()] on strings: by code units. *)
Definition str_le (x y : string) : Prop := String.leb x y = true.
Definition str_lt (x y : string) : Prop := String.ltb x y = true.

#[export] Instance str_le_dec : RelDecision str_le.
Proof. intros x y. unfold str_le. apply _. Defined.

(** [Object.keys(o).sort()] *)
Definition sortedKeys {A} (o : gmap string A) : list string :=
  merge_sort str_le (map_to_list o).*1.

(** The properties of a parsed JSON object or of an object literal, in
    property order. *)
Fixpoint lookupField (k : string) (fields : list (string * value)) : value :=
  match fields with
  | [] => VUndef
  | (k', v) :: fields' => if String.eqb k' k then v else lookupField k fields'
  end.

(** [Object.hasOwn(o, k)] on the properties of an object. *)
Definition hasOwn (k : string) (fields : list (string * value)) : bool :=
  existsb (fun kv => String.eqb kv.1 k) fields.

(** The text of [String(Object.prototype[k])]: what an object without a
    property [k] of its own gives for [k] when [k] names a member of
    [Object.prototype] (a built-in function, [Object] for [constructor], or
    the prototype itself for [__proto__]). *)
Definition inheritedText (k : string) : option string :=
  if String.eqb k "constructor" then Some "function Object() { [native code] }"
  else if String.eqb k "__proto__" then Some "[object Object]"
  else if existsb (String.eqb k)
            ["__defineGetter__"; "__defineSetter__"; "hasOwnProperty";
             "__lookupGetter__"; "__lookupSetter__"; "isPrototypeOf";
             "propertyIsEnumerable"; "toString"; "valueOf"; "toLocaleString"]
  then Some ("function " +:+ k +:+ "() { [native code] }")
  else None.

(** [o[k]] on an object literal or a parsed object, as the test against
    [null] and [undefined] and the conversion to a string see it: the
    property of its own, else the member of [Object.prototype] of that name
    (which is neither [null] nor [undefined] and converts to its text), else
    [undefined]. *)
Definition member (k : string) (fields : list (string * value)) : value :=
  if hasOwn k fields then lookupField k fields
  else match inheritedText k with
       | Some text => VStr text
       | None => VUndef
       end.

(** [v.k] for a value that is neither [null] nor [undefined] and a property
    name [k] that is no index, not [length] and not inherited from a
    prototype (the names the servers read are of that kind): strings,
    numbers, booleans and arrays have no such property. *)
Definition field (v : value) (k : string) : value :=
  match v with
  | VObj fields => lookupField k fields
  | _ => VUndef
  end.

(** [v.k]: reading a property of [null] or [undefined] throws. *)
Definition getProp (v : value) (k : string) : Completion value :=
  match v with
  | VUndef => Throw "TypeError" ("Cannot read properties of undefined (reading '" +:+ k +:+ "')")
  | VNull => Throw "TypeError" ("Cannot read properties of null (reading '" +:+ k +:+ "')")
  | _ => Return (field v k)
  end.

(** [v?.k] *)
Definition optProp (v : value) (k : string) : value :=
  match v with
  | VUndef | VNull => VUndef
  | _ => field v k
  end.

(** [err?.message || String(err)] for a thrown error. *)
Definition errorText (name message : string) : string :=
  if String.eqb message "" then name else message.

(** *** JSON.stringify *)

Definition stringifyChar (c : ascii) : string :=
  let n := code c in
  if (n =? 34)%N then "\" +:+ String dquote ""
  else if (n =? 92)%N then "\\"
  else if (n =? 8)%N then "\b"
  else if (n =? 12)%N then "\f"
  else if (n =? 10)%N then "\n"
  else if (n =? 13)%N then "\r"
  else if (n =? 9)%N then "\t"
  else if (n <? 32)%N then
    "\u00" +:+ String (hexdigit (n / 16)) (String (hexdigit (n mod 16)) "")
  else String c "".

Fixpoint stringifyChars (s : string) : string :=
  match s with
  | EmptyString => ""
  | String c s' => stringifyChar c +:+ stringifyChars s'
  end.

Definition quote (s : string) : string :=
  String dquote (stringifyChars s +:+ String dquote "").

(** [JSON.stringify(v)]; [None] is the result [undefined]. *)
Fixpoint stringify (v : value) : option string :=
  match v with
  | VUndef => None
  | VNull => Some "null"
  | VBool true => Some "true"
  | VBool false => Some "false"
  | VNum r =>
      if String.eqb r "NaN" || String.eqb r "Infinity" || String.eqb r "-Infinity"
      then Some "null" else Some r
  | VStr s => Some (quote s)
  | VArr xs =>
      Some ("[" +:+
            join "," ((fix elems (l : list value) : list string :=
                         match l with
                         | [] => []
                         | x :: l' => default "null" (stringify x) :: elems l'
                         end) xs) +:+ "]")
  | VObj fields =>
      Some ("{" +:+
            join "," ((fix props (l : list (string * value)) : list string :=
                         match l with
                         | [] => []
                         | (k, x) :: l' =>
                             match stringify x with
                             | Some t => (quote k +:+ ":" +:+ t) :: props l'
                             | None => props l'
                             end
                         end) fields) +:+ "}")
  end.

(** [JSON.stringify(v)] placed in a template literal or added to a string. *)
Definition stringifyText (v : value) : string := default "undefined" (stringify v).

(** *** Map *)

(** A [Map]: its entries in insertion order. *)
Definition Map := list (value * value).

(** Key equality (SameValueZero) against a key that is not the same object:
    an array or object of one request is never the key of another. *)
Definition sameKey (a b : value) : bool :=
  match a, b with
  | VUndef, VUndef | VNull, VNull => true
  | VBool x, VBool y => Bool.eqb x y
  | VNum x, VNum y => String.eqb x y
  | VStr x, VStr y => String.eqb x y
  | _, _ => false
  end.

(** [m.get(k)] *)
Fixpoint Map_get (m : Map) (k : value) : value :=
  match m with
  | [] => VUndef
  | (k', v) :: m' => if sameKey k' k then v else Map_get m' k
  end.

(** [m.has(k)] *)
Fixpoint Map_has (m : Map) (k : value) : bool :=
  match m with
  | [] => false
  | (k', _) :: m' => sameKey k' k || Map_has m' k
  end.

(** [m.set(k, v)] *)
Fixpoint Map_set (m : Map) (k v : value) : Map :=
  match m with
  | [] => [(k, v)]
  | (k', v') :: m' =>
      if sameKey k' k then (k', v) :: m' else (k', v') :: Map_set m' k v
  end.

End Js.

(* ===================================================================== *)
(** ** Express: requests, replies, outbound calls                         *)
(* ===================================================================== *)

Module Http.
Import Node Js.

Record Request := mkRequest {
  query : params;      (* req.query *)
  cookies : object     (* req.cookies, from cookie-parser *)
}.

Inductive Body :=
| Text (s : string)    (* res.send(s) *)
| Json (v : value).    (* res.json(v) *)

(** How a handler ends: a response, a redirect, or an exception that leaves
    the handler (for an async handler, a rejected promise): then the handler
    has written no response.  What Express makes of the exception is outside
    the handler. *)
Inductive Reply :=
| Send (status : N) (headers : list (string * string)) (body : Body)
| Redirect (location : string)
| Rejected (name message : string).

(** What a handler does besides replying, in order. *)
Inductive Effect :=
| SetCookie (name val : string) (httpOnly secure : bool) (sameSite : option string)
| Fetch (method url : string) (headers : list (string * string)) (body : option string).

(** What the remote party does with the one [fetch] of a handler: the call
    fails, or a response arrives with a status and a body that parses as JSON
    or makes [json()] throw. *)
Inductive Remote :=
| FetchFails (name message : string)
| Responds (status : N) (json : Completion value).

(** [response.ok] *)
Definition ok (status : N) : bool := ((200 <=? status) && (status <=? 299))%N.

(** What [res.setHeader(name, value)] takes in a value: TAB and the code
    units from 32 on other than DEL; for any other character it throws a
    TypeError ([ERR_INVALID_CHAR]). *)
Definition headerChar (c : ascii) : bool :=
  let n := code c in ((n =? 9) || (32 <=? n) && negb (n =? 127))%N.

Fixpoint validHeaderValue (s : string) : bool :=
  match s with
  | EmptyString => true
  | String c s' => headerChar c && validHeaderValue s'
  end.

Definition invalidHeader (name : string) : string :=
  "Invalid character in header content [" +:+ String dquote name +:+ String dquote "]".

Record Result := mkResult {
  effects : list Effect;
  reply : Reply;
  TOKENS : Map
}.

End Http.

(* ===================================================================== *)
(** ** Configuration                                                      *)
(* ===================================================================== *)

Record Config := mkConfig {
  SHOPIFY_API_KEY : string;
  SHOPIFY_API_SECRET : string;
  SHOPIFY_SCOPES : string;
  SHOPIFY_APP_URL : string
}.

(* ===================================================================== *)
(** ** src/server.js                                                      *)
(* ===================================================================== *)

Module Server.
Import Node Js Http.

Definition buildInstallUrl (cfg : Config) (shop : value) (state : string) : string :=
  let redirectUri := SHOPIFY_APP_URL cfg +:+ "/auth/callback" in
  "https://" +:+ toString shop +:+ "/admin/oauth/authorize" +:+
  "?client_id=" +:+ SHOPIFY_API_KEY cfg +:+
  "&scope=" +:+ encodeURIComponent (SHOPIFY_SCOPES cfg) +:+
  "&redirect_uri=" +:+ encodeURIComponent redirectUri +:+
  "&state=" +:+ state.

(** The message of the TypeError of [Buffer.from] for a value it does not
    take. *)
Definition invalidArg (v : value) : string :=
  "The first argument must be of type string or an instance of Buffer, ArrayBuffer, or Array or an Array-like Object. Received " +:+
  match v with
  | VUndef => "undefined"
  | VNull => "null"
  | VBool b => "type boolean (" +:+ toString v +:+ ")"
  | VNum r => "type number (" +:+ r +:+ ")"
  | _ => "an instance of Object"
  end.

(** The text of the constant [message] of [verifyHmac], lines 33-38: every
    parameter but [hmac], by sorted key. *)
Definition hmacMessage (query : params) : string :=
  let rest := delete "hmac" query in
  join "&" (map (fun key =>
                   key +:+ "=" +:+
                   match getParam rest key with
                   | VArr xs => joinValues "," xs
                   | v => toString v
                   end) (sortedKeys rest)).

(** Whether the conversions of lines 35-38 return: [join] on each array and
    the template literal on each other value. *)
Definition messageConverts (query : params) : bool :=
  let rest := delete "hmac" query in
  forallb (fun key => converts (getParam rest key)) (sortedKeys rest).

Section WithRuntime.

(** [Buffer.from(v)] on an array or an object converts array-like contents
    element by element through [ToNumber], which rounds through floating
    point; that conversion is left to the runtime. *)
Variable Buffer_from_object : value -> Completion Buffer.

(** [Buffer.from(v, "utf8")] on a value that need not be a string. *)
Definition Buffer_from_utf8 (v : value) : Completion Buffer :=
  match v with
  | VStr s => Return (utf8 s)
  | VArr _ | VObj _ => Buffer_from_object v
  | VUndef | VNull | VBool _ | VNum _ => Throw "TypeError" (invalidArg v)
  end.

(** [verifyHmac(query)], lines 32-46, with the module constant
    [SHOPIFY_API_SECRET] as an argument: [None] when the variable is not
    set. *)
Definition verifyHmacWith (secret : option string) (query : params) : Completion bool :=
  let hmac := getParam query "hmac" in
  message ← (if messageConverts query then Return (hmacMessage query)
             else Throw "TypeError" noPrimitive);
  key ← createHmacKey secret;
  let generated := createHmac_sha256_hex key message in
  b ← Buffer_from_utf8 hmac;
  timingSafeEqual (utf8 generated) b.

Definition verifyHmac (cfg : Config) (query : params) : Completion bool :=
  verifyHmacWith (Some (SHOPIFY_API_SECRET cfg)) query.

(** [app.get("/auth")], lines 56-67.  [random16] is what
    [crypto.randomBytes(16)] returns. *)
Definition auth (cfg : Config) (random16 : Buffer) (req : Request) (tokens : Map) : Result :=
  let shop := getParam (query req) "shop" in
  if negb (truthy shop) then
    mkResult [] (Send 400 [] (Text "Missing shop param. Example: /auth?shop=xxx.myshopify.com")) tokens
  else
    let state := toHex random16 in
    let installUrl := buildInstallUrl cfg shop state in
    mkResult [SetCookie "shopify_oauth_state" state true false None]
             (Redirect installUrl) tokens.

(** [app.get("/auth/callback")], lines 70-107. *)
Definition callback (cfg : Config) (remote : Remote) (req : Request) (tokens : Map) : Result :=
  let shop := getParam (query req) "shop" in
  let code := getParam (query req) "code" in
  let state := getParam (query req) "state" in
  if negb (truthy shop) || negb (truthy code) || negb (truthy state) then
    mkResult [] (Send 400 [] (Text "Missing shop/code/state")) tokens
  else
    let cookieState := get (cookies req) "shopify_oauth_state" in
    if negb (truthy cookieState) || negb (strictEq cookieState state) then
      mkResult [] (Send 400 [] (Text "Invalid state. Try /auth again.")) tokens
    else
      match verifyHmac cfg (query req) with
      | Throw n m => mkResult [] (Rejected n m) tokens
      | Return false => mkResult [] (Send 400 [] (Text "HMAC verification failed.")) tokens
      | Return true =>
          let exchange :=
            Fetch "POST" ("https://" +:+ toString shop +:+ "/admin/oauth/access_token")
                  [("Content-Type", "application/json")]
                  (Some (stringifyText
                           (VObj [("client_id", VStr (SHOPIFY_API_KEY cfg));
                                  ("client_secret", VStr (SHOPIFY_API_SECRET cfg));
                                  ("code", code)]))) in
          match remote with
          | FetchFails n m => mkResult [exchange] (Rejected n m) tokens
          | Responds status (Throw n m) => mkResult [exchange] (Rejected n m) tokens
          | Responds status (Return tokenJson) =>
              if negb (ok status) then
                mkResult [exchange]
                         (Send 500 [] (Text ("Token exchange failed: " +:+ stringifyText tokenJson)))
                         tokens
              else
                match getProp tokenJson "access_token" with
                | Throw n m => mkResult [exchange] (Rejected n m) tokens
                | Return accessToken =>
                    mkResult [exchange]
                             (Send 200 []
                                (Text ("Installed ✅ Token saved for " +:+ toString shop +:+
                                       ". You can now call /customers?shop=" +:+ toString shop)))
                             (Map_set tokens shop accessToken)
                end
          end
      end.

(** [app.get("/customers")], lines 110-131. *)
Definition customers (remote : Remote) (req : Request) (tokens : Map) : Result :=
  let shop := getParam (query req) "shop" in
  let first := or (getParam (query req) "first") (VNum "5") in
  if negb (truthy shop) then
    mkResult [] (Send 400 [] (Json (VObj [("error", VStr "Missing shop param")]))) tokens
  else
    let token := Map_get tokens shop in
    if negb (truthy token) then
      mkResult [] (Send 401 [] (Json (VObj [("error", VStr "No token found for this shop. Go to /auth?shop=...")]))) tokens
    else
      let apiVersion := "2026-01" in
      let url := "https://" +:+ toString shop +:+ "/admin/api/" +:+ apiVersion +:+
                 "/customers.json?limit=" +:+ toString first in
      let call := Fetch "GET" url [("X-Shopify-Access-Token", toString token);
                                   ("Content-Type", "application/json")] None in
      match remote with
      | FetchFails n m => mkResult [call] (Rejected n m) tokens
      | Responds status (Throw n m) => mkResult [call] (Rejected n m) tokens
      | Responds status (Return data) => mkResult [call] (Send status [] (Json data)) tokens
      end.

(** The server as a transition system on [TOKENS]: each handler touches the
    map at one point only. *)
Inductive Call :=
| GetAuth (random16 : Buffer) (req : Request)
| GetAuthCallback (remote : Remote) (req : Request)
| GetCustomers (remote : Remote) (req : Request).

Definition handle (cfg : Config) (c : Call) (tokens : Map) : Result :=
  match c with
  | GetAuth random16 req => auth cfg random16 req tokens
  | GetAuthCallback remote req => callback cfg remote req tokens
  | GetCustomers remote req => customers remote req tokens
  end.

(** The map after a history of calls, from the empty map of process start. *)
Definition serve (cfg : Config) (history : list Call) : Map :=
  fold_left (fun tokens c => TOKENS (handle cfg c tokens)) history [].

End WithRuntime.
End Server.

(* ===================================================================== *)
(** ** The server with shop validation, the dashboard and the CSV export  *)
(* ===================================================================== *)

Module App.
Import Node Js Http.

(** [APP_URL]: the configured URL without one trailing slash. *)
Definition APP_URL (cfg : Config) : string := dropTrailingSlash (SHOPIFY_APP_URL cfg).
Definition IS_HTTPS (cfg : Config) : bool := startsWith "https://" (APP_URL cfg).

(** *** helpers *)

Definition alnum (c : ascii) : bool :=
  let n := code c in
  ((97 <=? n) && (n <=? 122) || (65 <=? n) && (n <=? 90) || (48 <=? n) && (n <=? 57))%N.

Definition alnumDash (c : ascii) : bool := alnum c || (code c =? 45)%N.

(** The run of [[a-zA-Z0-9\-]*]: the class holds no dot, so the star ends
    exactly where the first character outside the class stands. *)
Fixpoint skipClass (s : string) : string :=
  match s with
  | EmptyString => ""
  | String c s' => if alnumDash c then skipClass s' else s
  end.

(** [/^[a-zA-Z0-9][a-zA-Z0-9\-]*\.myshopify\.com$/.test(s)] *)
Definition shopPattern (s : string) : bool :=
  match s with
  | EmptyString => false
  | String c s' => alnum c && String.eqb (skipClass s') ".myshopify.com"
  end.

(** [isValidShop(shop)], lines 48-53. *)
Definition isValidShop (shop : value) : bool :=
  match shop with
  | VStr s => shopPattern s
  | _ => false
  end.

(** The text of the constant [message] of [verifyHmac], lines 60-70: every
    parameter but [hmac] and [signature], by sorted key. *)
Definition hmacMessage (query : params) : string :=
  let rest := delete "signature" (delete "hmac" query) in
  join "&" (map (fun key =>
                   let val := getParam rest key in
                   match val with
                   | VArr xs => key +:+ "=" +:+ joinValues "," xs
                   | _ => key +:+ "=" +:+ toString val
                   end) (sortedKeys rest)).

(** Whether the conversions of lines 63-70 return: [join] on each array and
    the template literal on each other value. *)
Definition messageConverts (query : params) : bool :=
  let rest := delete "signature" (delete "hmac" query) in
  forallb (fun key => converts (getParam rest key)) (sortedKeys rest).

(** [verifyHmac(query)], lines 59-81, with the module constant
    [SHOPIFY_API_SECRET] as an argument: [None] when the variable is not
    set. *)
Definition verifyHmacWith (secret : option string) (query : params) : Completion bool :=
  let hmac := getParam query "hmac" in
  if negb (truthy hmac) then Return false else
  message ← (if messageConverts query then Return (hmacMessage query)
             else Throw "TypeError" noPrimitive);
  key ← createHmacKey secret;
  let generated := createHmac_sha256_hex key message in
  let a := fromHex generated in
  text ← ToString hmac;
  let b := fromHex text in
  if negb (length a =? length b)%nat then Return false else
  timingSafeEqual a b.

Definition verifyHmac (cfg : Config) (query : params) : Completion bool :=
  verifyHmacWith (Some (SHOPIFY_API_SECRET cfg)) query.

(** [getRedirectUri(req)], lines 92-101. *)
Definition getRedirectUri (cfg : Config) (req : Request) : string :=
  APP_URL cfg +:+ "/auth/callback".

(** [buildInstallUrl(req, shop, state)], lines 104-114. *)
Definition buildInstallUrl (cfg : Config) (req : Request) (shop state : string) : string :=
  let redirectUri := getRedirectUri cfg req in
  "https://" +:+ shop +:+ "/admin/oauth/authorize" +:+
  "?client_id=" +:+ SHOPIFY_API_KEY cfg +:+
  "&scope=" +:+ encodeURIComponent (SHOPIFY_SCOPES cfg) +:+
  "&redirect_uri=" +:+ encodeURIComponent redirectUri +:+
  "&state=" +:+ state.

Definition notAFunction (what : string) : string := what +:+ " is not a function".

(** [formatAddresses(addresses = [])], lines 117-131. *)
Definition formatAddresses (addresses : value) : Completion string :=
  let addresses := match addresses with VUndef => VArr [] | _ => addresses end in
  match or addresses (VArr []) with
  | VArr xs =>
      summaries ← mapM (fun a =>
                          let parts :=
                            filter (fun p => Is_true (truthy p))
                                   [optProp a "address1"; optProp a "address2";
                                    optProp a "city"; optProp a "province";
                                    optProp a "zip"; optProp a "country"] in
                          Join ", " parts) xs;
      Return (join " | " summaries)
  | _ => Throw "TypeError" (notAFunction "(addresses || []).map")
  end.

(** A row: an object with its own properties in the order [Object.keys]
    lists them (for an object literal with names that are no indices, the
    order they are written in). *)
Definition Row := list (string * value).

(** The inner [escape] of [toCSV], after [String(val)]. *)
Definition quoted (s : string) : string :=
  if includes "," s || includes dquote s || includes LF s then
    String dquote (replaceAll dquote (String dquote (String dquote "")) s +:+ String dquote "")
  else s.

(** The inner [escape] of [toCSV]. *)
Definition escape (val : value) : Completion string :=
  match val with
  | VNull | VUndef => Return ""
  | _ => s ← ToString val; Return (quoted s)
  end.

(** [toCSV(rows = [])], lines 134-152. *)
Definition toCSV (rows : list Row) : Completion string :=
  match rows with
  | [] => Return ""
  | row0 :: _ =>
      let headers := row0.*1 in
      lines ← mapM (fun row => cells ← mapM (fun h => escape (member h row)) headers;
                               Return (join "," cells)) rows;
      Return (join (String LF "") (join "," headers :: lines))
  end.

(** *** OAuth *)

(** The text of the expression [(req.query.shop || "")], as the message of
    the TypeError names it. *)
Definition shopOrEmpty : string :=
  "(req.query.shop || " +:+ String dquote (String dquote ")").

(** [app.get("/auth")], lines 364-382.  [random16] is what
    [crypto.randomBytes(16)] returns. *)
Definition auth (cfg : Config) (random16 : Buffer) (req : Request) (tokens : Map) : Result :=
  match callToString shopOrEmpty (or (getParam (query req) "shop") (VStr "")) with
  | Throw n m => mkResult [] (Rejected n m) tokens
  | Return text =>
      let shop := trim text in
      if negb (truthy (VStr shop)) then
        mkResult [] (Send 400 [] (Text "Missing shop param. Example: /auth?shop=xxx.myshopify.com")) tokens
      else if negb (isValidShop (VStr shop)) then
        mkResult [] (Send 400 [] (Text "Invalid shop domain. Must end with .myshopify.com")) tokens
      else
        let state := toHex random16 in
        mkResult [SetCookie "shopify_oauth_state" state true (IS_HTTPS cfg)
                            (Some (if IS_HTTPS cfg then "none" else "lax"))]
                 (Redirect (buildInstallUrl cfg req shop state)) tokens
  end.

(** [app.get("/auth/callback")], lines 384-426, with the module constant
    [SHOPIFY_API_SECRET] as an argument: [None] when the variable is not
    set ([JSON.stringify] leaves a property that is [undefined] out).
    [verifyHmac] is called before the [try]: what it throws ends the
    handler.  Where it returns [true] every parameter it signed converts to
    a string, [shop] among them, so the conversions of [shop] that follow
    return. *)
Definition callbackWith (secret : option string) (cfg : Config)
    (remote : Remote) (req : Request) (tokens : Map) : Result :=
  let shop := getParam (query req) "shop" in
  let code := getParam (query req) "code" in
  let state := getParam (query req) "state" in
  if negb (truthy shop) || negb (truthy code) || negb (truthy state) then
    mkResult []
             (Send 400 [] (Text "Missing shop/code/state (Don't open /auth/callback manually. Use Install/Auth.)"))
             tokens
  else
    let cookieState := get (cookies req) "shopify_oauth_state" in
    if negb (truthy cookieState) || negb (strictEq cookieState state) then
      mkResult [] (Send 400 [] (Text "Invalid state. Try /auth again.")) tokens
    else
      match verifyHmacWith secret (query req) with
      | Throw n m => mkResult [] (Rejected n m) tokens
      | Return false => mkResult [] (Send 400 [] (Text "HMAC verification failed.")) tokens
      | Return true =>
          (* try *)
          let exchange :=
            Fetch "POST" ("https://" +:+ toString shop +:+ "/admin/oauth/access_token")
                  [("Content-Type", "application/json")]
                  (Some (stringifyText
                           (VObj match secret with
                                 | Some client_secret =>
                                     [("client_id", VStr (SHOPIFY_API_KEY cfg));
                                      ("client_secret", VStr client_secret);
                                      ("code", code)]
                                 | None =>
                                     [("client_id", VStr (SHOPIFY_API_KEY cfg));
                                      ("code", code)]
                                 end))) in
          let catch n m :=
            mkResult [exchange] (Send 500 [] (Text ("Callback error: " +:+ errorText n m))) tokens in
          match remote with
          | FetchFails n m => catch n m
          | Responds status (Throw n m) => catch n m
          | Responds status (Return tokenJson) =>
              if negb (ok status) then
                mkResult [exchange]
                         (Send 500 [] (Text ("Token exchange failed: " +:+ stringifyText tokenJson)))
                         tokens
              else
                match getProp tokenJson "access_token" with
                | Throw n m => catch n m
                | Return accessToken =>
                    mkResult [exchange]
                             (Redirect ("/?shop=" +:+ encodeURIComponent (toString shop)))
                             (Map_set tokens shop accessToken)
                end
          end
      end.

(** The handler of a process started with its configuration. *)
Definition callback (cfg : Config) (remote : Remote) (req : Request) (tokens : Map) : Result :=
  callbackWith (Some (SHOPIFY_API_SECRET cfg)) cfg remote req tokens.

(** *** Data *)

(** The record projection of [app.get("/customers")], lines 454-470. *)
Definition projectJson (c : value) : Completion Row :=
  id ← getProp c "id";
  created_at ← getProp c "created_at";
  updated_at ← getProp c "updated_at";
  first_name ← getProp c "first_name";
  last_name ← getProp c "last_name";
  orders_count ← getProp c "orders_count";
  state ← getProp c "state";
  total_spent ← getProp c "total_spent";
  last_order_id ← getProp c "last_order_id";
  note ← getProp c "note";
  tags ← getProp c "tags";
  email ← getProp c "email";
  phone ← getProp c "phone";
  currency ← getProp c "currency";
  c_addresses ← getProp c "addresses";
  addresses ← formatAddresses c_addresses;
  Return [("id", id); ("created_at", created_at); ("updated_at", updated_at);
          ("first_name", first_name); ("last_name", last_name);
          ("orders_count", orders_count); ("state", state);
          ("total_spent", total_spent); ("last_order_id", last_order_id);
          ("note", note); ("tags", tags); ("email", email); ("phone", phone);
          ("currency", currency); ("addresses", VStr addresses)].

(** The record projection of [app.get("/customers.csv")], lines 500-516. *)
Definition projectCsv (c : value) : Completion Row :=
  id ← getProp c "id";
  created_at ← getProp c "created_at";
  updated_at ← getProp c "updated_at";
  first_name ← getProp c "first_name";
  last_name ← getProp c "last_name";
  orders_count ← getProp c "orders_count";
  state ← getProp c "state";
  total_spent ← getProp c "total_spent";
  last_order_id ← getProp c "last_order_id";
  note ← getProp c "note";
  tags ← getProp c "tags";
  email ← getProp c "email";
  phone ← getProp c "phone";
  currency ← getProp c "currency";
  c_addresses ← getProp c "addresses";
  addresses ← formatAddresses c_addresses;
  Return [("id", id); ("created_at", created_at); ("updated_at", updated_at);
          ("first_name", first_name); ("last_name", last_name);
          ("orders_count", orders_count); ("state", state);
          ("total_spent", total_spent); ("last_order_id", last_order_id);
          ("note", note); ("tags", tags); ("email", email); ("phone", phone);
          ("currency", currency); ("addresses", VStr addresses)].

(** [(data.customers || []).map(f)] *)
Definition mapCustomers (f : value -> Completion Row) (data : value) : Completion (list Row) :=
  customers ← getProp data "customers";
  match or customers (VArr []) with
  | VArr cs => mapM f cs
  | _ => Throw "TypeError" (notAFunction "(data.customers || []).map")
  end.

(** [await r.json().catch(() => ({}))] *)
Definition jsonOrEmpty (json : Completion value) : value :=
  match json with
  | Return data => data
  | Throw _ _ => VObj []
  end.

Definition customersUrl (shop : string) (first : value) : string :=
  let apiVersion := "2026-01" in
  "https://" +:+ shop +:+ "/admin/api/" +:+ apiVersion +:+
  "/customers.json?limit=" +:+ toString first.

(** [app.get("/customers")], lines 429-473, for a [shop] and a [first]
    parameter that convert to a string: a request that names a tenant.  The
    [fetch] is outside any [try]: what it rejects with, and what the
    projection throws, ends the handler. *)
Definition customers (remote : Remote) (req : Request) (tokens : Map) : Result :=
  let shop := trim (toString (or (getParam (query req) "shop") (VStr ""))) in
  let first := or (getParam (query req) "first") (VNum "5") in
  if negb (truthy (VStr shop)) then
    mkResult [] (Send 400 [] (Json (VObj [("error", VStr "Missing shop param")]))) tokens
  else
    let token := Map_get tokens (VStr shop) in
    if negb (truthy token) then
      mkResult []
               (Send 401 [] (Json (VObj [("error", VStr "No token found for this shop. Click Install/Auth first.")])))
               tokens
    else
      let call := Fetch "GET" (customersUrl shop first)
                        [("X-Shopify-Access-Token", toString token);
                         ("Content-Type", "application/json")] None in
      match remote with
      | FetchFails n m => mkResult [call] (Rejected n m) tokens
      | Responds status json =>
          let data := jsonOrEmpty json in
          if negb (ok status) then
            mkResult [call]
                     (Send status []
                        (Json (VObj [("error", or (optProp data "errors") (VStr "Shopify API error"));
                                     ("raw", data)])))
                     tokens
          else
            match mapCustomers projectJson data with
            | Throw n m => mkResult [call] (Rejected n m) tokens
            | Return rows =>
                mkResult [call]
                         (Send 200 [] (Json (VObj [("customers", VArr (map VObj rows))])))
                         tokens
            end
      end.

(** [app.get("/customers.csv")], lines 475-523, for a [shop] and a [first]
    parameter that convert to a string.  After the projection come [toCSV],
    which throws on a value that does not convert, and [res.setHeader], which
    throws on a value that holds a character a header may not hold: the shop
    is part of the file name. *)
Definition customersCsv (remote : Remote) (req : Request) (tokens : Map) : Result :=
  let shop := trim (toString (or (getParam (query req) "shop") (VStr ""))) in
  let first := or (getParam (query req) "first") (VNum "5") in
  if negb (truthy (VStr shop)) then
    mkResult [] (Send 400 [] (Text "Missing shop param")) tokens
  else
    let token := Map_get tokens (VStr shop) in
    if negb (truthy token) then
      mkResult [] (Send 401 [] (Text "No token found. Click Install/Auth first.")) tokens
    else
      let call := Fetch "GET" (customersUrl shop first)
                        [("X-Shopify-Access-Token", toString token);
                         ("Content-Type", "application/json")] None in
      match remote with
      | FetchFails n m => mkResult [call] (Rejected n m) tokens
      | Responds status json =>
          let data := jsonOrEmpty json in
          if negb (ok status) then
            mkResult [call]
                     (Send status [] (Text ("Shopify API error: " +:+ stringifyText data)))
                     tokens
          else
            match mapCustomers projectCsv data with
            | Throw n m => mkResult [call] (Rejected n m) tokens
            | Return rows =>
                match toCSV rows with
                | Throw n m => mkResult [call] (Rejected n m) tokens
                | Return csv =>
                    let disposition :=
                      "attachment; filename=" +:+ String dquote "" +:+
                      "customers-" +:+ shop +:+ ".csv" +:+ String dquote "" in
                    (* res.setHeader("Content-Disposition", ...) *)
                    if negb (validHeaderValue disposition) then
                      mkResult [call]
                               (Rejected "TypeError" (invalidHeader "Content-Disposition"))
                               tokens
                    else
                      mkResult [call]
                               (Send 200
                                     [("Content-Type", "text/csv");
                                      ("Content-Disposition", disposition)]
                                     (Text csv))
                               tokens
                end
            end
      end.

(** *** Pages *)

(** [app.get("/exitiframe")], lines 174-189: a page whose script sends the
    top window to [/auth]. *)
Definition exitiframe (req : Request) (tokens : Map) : Result :=
  match callToString shopOrEmpty (or (getParam (query req) "shop") (VStr "")) with
  | Throw n m => mkResult [] (Rejected n m) tokens
  | Return text =>
      let shop := trim text in
      if negb (truthy (VStr shop)) then
        mkResult [] (Send 400 [] (Text "Missing shop")) tokens
      else
        mkResult []
          (Send 200 [("Content-Type", "text/html")]
             (Text (join (String LF "")
                      [ "";
                        "    <script>";
                        "      var target = " +:+ String dquote "" +:+ "/auth?shop=" +:+
                          encodeURIComponent shop +:+ String dquote "" +:+ ";";
                        "      if (window.top === window.self) {";
                        "        window.location.href = target;";
                        "      } else {";
                        "        window.top.location.href = target;";
                        "      }";
                        "    </script>";
                        "  " ])))
          tokens
  end.

(** The constant [safeShop] of [uiHTML(shopDefault = "")], lines 192-193:
    the text the page puts between the double quotes of the shop input's
    [value] attribute. *)
Definition safeShop (shopDefault : value) : string :=
  let shopDefault := match shopDefault with VUndef => VStr "" | _ => shopDefault end in
  replaceAll dquote "&quot;" (toString shopDefault).

(** *** The server as a transition system on [TOKENS]

    A handler reads or writes [TOKENS] at one point only ([get] before the
    outbound call, [set] after it), so handling the requests one after the
    other at those points is what the interleaved handlers do.  The routes
    that never touch the map's contents (the pages and the health check) are
    left out. *)
Inductive Call :=
| GetAuth (random16 : Buffer) (req : Request)
| GetAuthCallback (remote : Remote) (req : Request)
| GetCustomers (remote : Remote) (req : Request)
| GetCustomersCsv (remote : Remote) (req : Request).

Definition handle (cfg : Config) (c : Call) (tokens : Map) : Result :=
  match c with
  | GetAuth random16 req => auth cfg random16 req tokens
  | GetAuthCallback remote req => callback cfg remote req tokens
  | GetCustomers remote req => customers remote req tokens
  | GetCustomersCsv remote req => customersCsv remote req tokens
  end.

(** The map after a history of calls, from the empty map of process start. *)
Definition serve (cfg : Config) (history : list Call) : Map :=
  fold_left (fun tokens c => TOKENS (handle cfg c tokens)) history [].

End App.

(* ===================================================================== *)
(** ** Reference notions and sample data                                  *)
(* ===================================================================== *)

Module Spec.
Import Node Js Http.

(** A well-formed signature: hexadecimal digits only. *)
Fixpoint isHex (s : string) : bool :=
  match s with
  | EmptyString => true
  | String c s' => bool_decide (is_Some (unhex c)) && isHex s'
  end.

(** The language of [^[A-Za-z0-9][A-Za-z0-9-]*\.myshopify\.com$]: one letter
    or digit, then letters, digits and dashes, then the suffix, then the end. *)
Definition matchesShop (s : string) : Prop :=
  exists c p,
    s = String c (p +:+ ".myshopify.com") /\
    App.alnum c = true /\
    Forall (fun d => App.alnumDash d = true) (String.list_ascii_of_string p).

(** The pair a key contributes to the canonical message. *)
Definition pairText (q : params) (key : string) : string :=
  key +:+ "=" +:+ toString (getParam q key).

(** The credential a reply of the token endpoint carries, if it is a
    success reply with a readable body. *)
Definition credential (remote : Remote) : option value :=
  match remote with
  | Responds status (Return tokenJson) =>
      if ok status then
        match getProp tokenJson "access_token" with
        | Return t => Some t
        | Throw _ _ => None
        end
      else None
  | _ => None
  end.

(** The token exchange: the POST a callback issues to the token endpoint. *)
Definition exchangeIssued (r : Result) : Prop :=
  exists url headers body, In (Fetch "POST" url headers body) (effects r).

(** A 400-class response. *)
Definition clientError (r : Reply) : Prop :=
  exists status headers body,
    r = Send status headers body /\ (400 <= status)%N /\ (status <= 499)%N.

(** The state test of the callback, lines 393-394 (src/server.js 75-76),
    read positively: the request passes when the test does not fire. *)
Definition stateValid (req : Request) : bool :=
  let cookieState := get (cookies req) "shopify_oauth_state" in
  let state := getParam (query req) "state" in
  negb (negb (truthy cookieState) || negb (strictEq cookieState state)).

(** The token exchange of a callback completed with a success response: the
    request passed both checks, the token endpoint answered with a 2xx status
    and a body holding the credential [v] for the tenant [k]. *)
Definition exchangedFor (verify : params -> Completion bool)
    (remote : Remote) (req : Request) (k v : value) : Prop :=
  exists status tokenJson,
    remote = Responds status (Return tokenJson) /\
    ok status = true /\
    getProp tokenJson "access_token" = Return v /\
    k = getParam (query req) "shop" /\
    stateValid req = true /\
    verify (query req) = Return true.

(** The exchange did not complete with a success response: the call failed,
    the status is not 2xx, or the body could not be read. *)
Definition failedExchange (remote : Remote) : Prop :=
  match remote with
  | FetchFails _ _ => True
  | Responds status json => ok status = false \/ exists n m, json = Throw n m
  end.

(** Sample configuration: the secret of the golden vector. *)
Definition cfg : Config :=
  mkConfig "key" "shhh" "read_customers" "https://agent.example".

(** The golden vector [{a: "1", b: "2"}] with a signature. *)
Definition golden (hmac : param) : params :=
  <["hmac" := hmac]> {[ "a" := PStr "1"; "b" := PStr "2" ]}.

Definition goldenDigest : string :=
  "6a963707870b020ac6cea4e67eb7d14a9f19782416f38bb6333a6eaf6be453c3".

(** A callback whose state matches its cookie, with the given signature
    parameter or none. *)
Definition callbackRequest (hmac : option param) : Request :=
  mkRequest
    (match hmac with
     | Some h =>
         {[ "shop" := PStr "foo.myshopify.com"; "code" := PStr "c0de";
            "state" := PStr "5ca1ab1e"; "hmac" := h ]}
     | None =>
         {[ "shop" := PStr "foo.myshopify.com"; "code" := PStr "c0de";
            "state" := PStr "5ca1ab1e" ]}
     end)
    {[ "shopify_oauth_state" := VStr "5ca1ab1e" ]}.

(** The query [{a: "1", signature: "x"}] signed over [a=1]. *)
Definition withSignature : params :=
  {[ "a" := PStr "1"; "signature" := PStr "x";
     "hmac" := PStr (createHmac_sha256_hex "shhh" "a=1") ]}.

(** The same callback signed with the digest of its canonical message. *)
Definition signedCallback : Request :=
  callbackRequest
    (Some (PStr (createHmac_sha256_hex
                   "shhh" "code=c0de&shop=foo.myshopify.com&state=5ca1ab1e"))).

(** A success reply of the token endpoint carrying the given token. *)
Definition grants (token : string) : Remote :=
  Responds 200 (Return (VObj [("access_token", VStr token); ("scope", VStr "read_customers")])).

(** The replies that tell the user to authorize first. *)
Definition authRequiredJson : Reply :=
  Send 401 [] (Json (VObj [("error", VStr "No token found for this shop. Click Install/Auth first.")])).

Definition authRequiredCsv : Reply :=
  Send 401 [] (Text "No token found. Click Install/Auth first.").

(** The headers of the CSV download. *)
Definition csvHeaders (shop : string) : list (string * string) :=
  [("Content-Type", "text/csv");
   ("Content-Disposition",
    "attachment; filename=" +:+ String dquote "" +:+
    "customers-" +:+ shop +:+ ".csv" +:+ String dquote "")].

(** Reading a CSV field back: a field that opens with a double quote runs to
    the closing quote that ends it, a doubled quote inside standing for one;
    any other field is itself. *)
Fixpoint unquote (s : string) : option string :=
  match s with
  | EmptyString => None
  | String c s' =>
      if Ascii.eqb c dquote then
        match s' with
        | EmptyString => Some ""
        | String d s'' =>
            if Ascii.eqb d dquote then String dquote <$> unquote s'' else None
        end
      else String c <$> unquote s'
  end.

Definition readField (s : string) : option string :=
  match s with
  | EmptyString => Some ""
  | String c s' => if Ascii.eqb c dquote then unquote s' else Some s
  end.

(** The text of a value in a CSV field: nothing for [null] and [undefined],
    [String(v)] otherwise. *)
Definition fieldText (v : value) : string :=
  match v with
  | VNull | VUndef => ""
  | _ => toString v
  end.

(** A text that needs no quoting: no comma, no double quote, no line feed. *)
Definition plainText (s : string) : bool :=
  negb (includes "," s || includes dquote s || includes LF s).

(** A reader of CSV text (RFC 4180, records separated by line feeds): the
    records of the text, each a list of fields.  A field that opens with a
    double quote runs to its closing quote, a doubled quote inside standing
    for one; commas separate fields and line feeds separate records outside
    quotes. *)
Inductive CsvMode := AtStart | InPlain | InQuoted | AfterQuote.

Definition pushChar (c : ascii) (records : list (list string)) : list (list string) :=
  match records with
  | (f :: fs) :: rs => (String c f :: fs) :: rs
  | _ => records
  end.

Definition newField (records : list (list string)) : list (list string) :=
  match records with
  | fs :: rs => ("" :: fs) :: rs
  | [] => []
  end.

Definition newRecord (records : list (list string)) : list (list string) :=
  [""] :: records.

Fixpoint readCsvFrom (m : CsvMode) (s : string) : option (list (list string)) :=
  match s with
  | EmptyString =>
      match m with
      | InQuoted => None
      | _ => Some [[""]]
      end
  | String c s' =>
      match m with
      | AtStart =>
          if Ascii.eqb c dquote then readCsvFrom InQuoted s'
          else if Ascii.eqb c "," then newField <$> readCsvFrom AtStart s'
          else if Ascii.eqb c LF then newRecord <$> readCsvFrom AtStart s'
          else pushChar c <$> readCsvFrom InPlain s'
      | InPlain =>
          if Ascii.eqb c dquote then None
          else if Ascii.eqb c "," then newField <$> readCsvFrom AtStart s'
          else if Ascii.eqb c LF then newRecord <$> readCsvFrom AtStart s'
          else pushChar c <$> readCsvFrom InPlain s'
      | InQuoted =>
          if Ascii.eqb c dquote then readCsvFrom AfterQuote s'
          else pushChar c <$> readCsvFrom InQuoted s'
      | AfterQuote =>
          if Ascii.eqb c dquote then pushChar c <$> readCsvFrom InQuoted s'
          else if Ascii.eqb c "," then newField <$> readCsvFrom AtStart s'
          else if Ascii.eqb c LF then newRecord <$> readCsvFrom AtStart s'
          else None
      end
  end.

Definition readCsv (s : string) : option (list (list string)) := readCsvFrom AtStart s.

(** A text put before the first field read, and a line of fields put before
    the records read after it. *)
Definition pushText (t : string) (records : list (list string)) : list (list string) :=
  match records with
  | (f :: fs) :: rs => ((t +:+ f) :: fs) :: rs
  | _ => records
  end.

Fixpoint addLine (ts : list string) (records : list (list string)) : list (list string) :=
  match ts with
  | [] => records
  | t :: ts' =>
      match ts' with
      | [] => pushText t records
      | _ => pushText t (newField (addLine ts' records))
      end
  end.

(** What follows a field: the end of the text, a comma or a line feed. *)
Definition delimited (rest : string) : bool :=
  match rest with
  | EmptyString => true
  | String c _ => Ascii.eqb c "," || Ascii.eqb c LF
  end.

(** The fifteen properties of a projected customer, in order. *)
Definition customerKeys : list string :=
  ["id"; "created_at"; "updated_at"; "first_name"; "last_name"; "orders_count";
   "state"; "total_spent"; "last_order_id"; "note"; "tags"; "email"; "phone";
   "currency"; "addresses"].

(** The status a client sees, if the handler answers at all. *)
Definition statusOf (r : Reply) : option N :=
  match r with
  | Send status _ _ => Some status
  | Redirect _ => Some 302%N
  | Rejected _ _ => None
  end.

(** The characters a URI component is made of once encoded: the unreserved
    ones and the percent sign of an escape (its two digits are unreserved). *)
Definition uriSafe (c : ascii) : bool := unreserved c || Ascii.eqb c "%".

Fixpoint allChars (p : ascii -> bool) (s : string) : bool :=
  match s with
  | EmptyString => true
  | String c s' => p c && allChars p s'
  end.

(** A customer record as the resource API returns it. *)
Definition customer1 : value :=
  VObj [("id", VNum "207119551"); ("email", VStr "bob@example.com");
        ("first_name", VStr "Bob"); ("last_name", VStr "Norman");
        ("orders_count", VNum "1"); ("state", VStr "disabled");
        ("total_spent", VStr "199.65"); ("note", VNull);
        ("tags", VStr "loyal, vip"); ("currency", VStr "USD");
        ("addresses",
         VArr [VObj [("address1", VStr "Chestnut Street 92"); ("address2", VStr "");
                     ("city", VStr "Louisville"); ("province", VStr "Kentucky");
                     ("zip", VStr "40202"); ("country", VStr "United States")]])].

(** [GET /customers?shop=...] and the CSV route. *)
Definition customersRequest (shop : string) : Request :=
  mkRequest {[ "shop" := PStr shop ]} ∅.

(** [GET /auth?shop=...] *)
Definition authRequest (shop : string) : Request :=
  mkRequest {[ "shop" := PStr shop ]} ∅.

(** Sixteen bytes as [crypto.randomBytes(16)] may return them. *)
Definition random16 : Buffer := map N.of_nat (seq 0 16).

(** A runtime for [Buffer.from] on arrays and objects, for sample runs. *)
Definition noObjects (v : value) : Completion Buffer :=
  Throw "TypeError" (Server.invalidArg v).


(** The projection of a customer record, field by field: fourteen
    properties copied from the record, then the summary of its addresses. *)
Definition copiedFields : list string :=
  ["id"; "created_at"; "updated_at"; "first_name"; "last_name"; "orders_count";
   "state"; "total_spent"; "last_order_id"; "note"; "tags"; "email"; "phone";
   "currency"].

Definition projection (c : value) (addresses : string) : App.Row :=
  map (fun k => (k, field c k)) copiedFields ++ [("addresses", VStr addresses)].

(** The records of a reply of the resource API: its [customers], none when
    that is missing or falsy. *)
Definition records (data : value) : Completion value :=
  customers ← getProp data "customers"; Return (or customers (VArr [])).

(** The CSV text of rows, in words: nothing for no rows; otherwise the names
    of the first row's properties joined by commas, then one line a row,
    each line one field a name, in the order of the names, joined by commas;
    a field is the text of the value ([fieldText]), put between double quotes
    with each double quote of the text written twice when the text holds a
    comma, a double quote or a line feed. *)
Fixpoint doubled (s : string) : string :=
  match s with
  | EmptyString => ""
  | String c s' =>
      if Ascii.eqb c dquote then String dquote (String dquote (doubled s'))
      else String c (doubled s')
  end.

Definition csvField (v : value) : string :=
  let s := fieldText v in
  if plainText s then s else String dquote (doubled s +:+ String dquote "").

Definition csvLine (names : list string) (row : App.Row) : string :=
  join "," (map (fun h => csvField (member h row)) names).

Definition csvText (rows : list App.Row) : string :=
  match rows with
  | [] => ""
  | row0 :: _ => join (String LF "") (join "," row0.*1 :: map (csvLine row0.*1) rows)
  end.

(** Every value a row holds under one of the names converts to a string. *)
Definition cellsConvert (names : list string) (rows : list App.Row) : bool :=
  forallb (fun row => forallb (fun h => converts (member h row)) names) rows.

(** A second customer record: a note with a double quote, a comma and a line
    feed, no addresses. *)
Definition customer2 : value :=
  VObj [("id", VNum "207119552"); ("first_name", VStr "Ann");
        ("note", VStr ("said " +:+ String dquote "hi" +:+ String dquote ", left" +:+
                       String LF "twice"));
        ("tags", VStr ""); ("orders_count", VNum "0")].

(** The [Content-Disposition] of the CSV download. *)
Definition disposition (shop : string) : string :=
  "attachment; filename=" +:+ String dquote "" +:+
  "customers-" +:+ shop +:+ ".csv" +:+ String dquote "".

End Spec.

(* ===================================================================== *)
(** * Properties                                                          *)
(* ===================================================================== *)

(** The callback of a configured process, opened up. *)
Ltac unfold_callback :=
  unfold App.callback, App.callbackWith;
  repeat match goal with
  | |- context [App.verifyHmacWith (Some (SHOPIFY_API_SECRET ?c)) ?q] =>
      change (App.verifyHmacWith (Some (SHOPIFY_API_SECRET c)) q) with (App.verifyHmac c q)
  end.

(** Case analysis along the branches of a handler. *)
Ltac branch :=
  match goal with
  | |- context [if ?b then _ else _] => destruct b eqn:?
  | |- context [match ?x with Node.Return _ => _ | Node.Throw _ _ => _ end] =>
      destruct x eqn:?
  | |- context [match ?x with Http.FetchFails _ _ => _ | Http.Responds _ _ => _ end] =>
      destruct x eqn:?
  end.

(** ** Buffers and hexadecimal *)

Section HexFacts.
Import Node.

(** The decoding of [Buffer.from(s, "hex")] on the examples of the Node.js
    documentation of buffer encodings: data is truncated at the first
    character that is no hexadecimal digit, and when the text ends in a
    single digit. *)
Example fromHex_stops_at_non_hex : fromHex "1ag123" = [26%N].
Proof. reflexivity. Qed.

Example fromHex_drops_single_digit : fromHex "1a7" = [26%N].
Proof. reflexivity. Qed.

Example fromHex_all_data : fromHex "1634" = [22%N; 52%N].
Proof. reflexivity. Qed.

Lemma nibble_cases (P : N -> Prop) :
  P 0%N -> P 1%N -> P 2%N -> P 3%N -> P 4%N -> P 5%N -> P 6%N -> P 7%N ->
  P 8%N -> P 9%N -> P 10%N -> P 11%N -> P 12%N -> P 13%N -> P 14%N -> P 15%N ->
  forall n, (n < 16)%N -> P n.
Proof.
  intros ? ? ? ? ? ? ? ? ? ? ? ? ? ? ? ? n Hn.
  rewrite <- (N2Nat.id n).
  assert (Hm : (N.to_nat n < 16)%nat) by lia.
  revert Hm. generalize (N.to_nat n) as m. intros m Hm.
  do 16 (destruct m as [|m]; [assumption|]). lia.
Qed.

Lemma unhex_hexdigit n : (n < 16)%N -> unhex (hexdigit n) = Some n.
Proof. revert n. apply nibble_cases; reflexivity. Qed.

(** Decoding the hexadecimal text of a buffer gives the buffer back. *)
Lemma fromHex_toHex (b : Buffer) :
  Forall (fun x => (x < 256)%N) b -> fromHex (toHex b) = b.
Proof.
  induction 1 as [|x b Hx _ IH]; [reflexivity|].
  cbn [toHex fromHex].
  rewrite !unhex_hexdigit, IH.
  - f_equal. symmetry. apply (N.div_mod x 16). lia.
  - apply N.mod_lt. lia.
  - apply N.Div0.div_lt_upper_bound. lia.
Qed.

Lemma be_bytes_small k x : Forall (fun y => (y < 256)%N) (be_bytes k x).
Proof.
  unfold be_bytes. apply Forall_forall. intros y Hy.
  apply list_elem_of_In, in_map_iff in Hy. destruct Hy as [i [<- _]].
  apply N.mod_lt. lia.
Qed.

Lemma be_bytes_length k x : length (be_bytes k x) = k.
Proof. unfold be_bytes. now rewrite length_map, length_rev, length_seq. Qed.

Lemma sha256_length msg : length (sha256 msg) = 32%nat.
Proof.
  unfold sha256, regs_bytes. rewrite !length_app, !be_bytes_length. reflexivity.
Qed.

Lemma sha256_small msg : Forall (fun y => (y < 256)%N) (sha256 msg).
Proof. unfold sha256, regs_bytes. repeat apply Forall_app_2; apply be_bytes_small. Qed.

Lemma hmac_sha256_length key msg : length (hmac_sha256 key msg) = 32%nat.
Proof. apply sha256_length. Qed.

Lemma hmac_sha256_small key msg : Forall (fun y => (y < 256)%N) (hmac_sha256 key msg).
Proof. apply sha256_small. Qed.

(** Known answers: FIPS 180-4 ("abc", the empty message, the two-block
    message) and RFC 4231, test case 2. *)
Example sha256_abc :
  toHex (sha256 (utf8 "abc")) =
  "ba7816bf8f01cfea414140de5dae2223b00361a396177a9cb410ff61f20015ad".
Proof. vm_compute. reflexivity. Qed.

Example sha256_empty :
  toHex (sha256 []) =
  "e3b0c44298fc1c149afbf4c8996fb92427ae41e4649b934ca495991b7852b855".
Proof. vm_compute. reflexivity. Qed.

Example sha256_two_blocks :
  toHex (sha256 (utf8 "abcdbcdecdefdefgefghfghighijhijkijkljklmklmnlmnomnopnopq")) =
  "248d6a61d20638b8e5c026930c3e6039a33ce45964ff2167f6ecedd419db06c1".
Proof. vm_compute. reflexivity. Qed.

Example hmac_sha256_rfc4231_2 :
  createHmac_sha256_hex "Jefe" "what do ya want for nothing?" =
  "5bdcc146bf60754e6a042426089575c75a003f089d2739839dec58b964ec3843".
Proof. vm_compute. reflexivity. Qed.

Lemma toHex_length b : String.length (toHex b) = (2 * length b)%nat.
Proof. induction b as [|x b IH]; cbn [toHex String.length length]; lia. Qed.

Lemma bytes_eqb_eq a b : bytes_eqb a b = true <-> a = b.
Proof.
  revert b. induction a as [|x a IH]; intros [|y b]; cbn; try easy.
  rewrite andb_true_iff, N.eqb_eq, IH. split; [intros [-> ->]|intros [= -> ->]]; easy.
Qed.

(** The digest read back from its hexadecimal text. *)
Lemma fromHex_digest key message :
  fromHex (createHmac_sha256_hex key message) = hmac_sha256 (utf8 key) (utf8 message).
Proof. apply fromHex_toHex, hmac_sha256_small. Qed.

Lemma Return_inj {A} (a b : A) : Return a = Return b -> a = b.
Proof. intros [= H]. exact H. Qed.

(** Where its arguments have one length, [timingSafeEqual] decides equality. *)
Lemma timingSafeEqual_same_length a b :
  length a = length b -> timingSafeEqual a b = Return (bool_decide (a = b)).
Proof.
  intros Hlen. unfold timingSafeEqual. rewrite Hlen, Nat.eqb_refl. f_equal.
  apply eq_true_iff_eq. rewrite bytes_eqb_eq, bool_decide_eq_true. reflexivity.
Qed.

End HexFacts.

(** ** The order of sorted keys *)

Section OrderFacts.
Import Js.

Lemma ascii_compare_refl c : Ascii.compare c c = Eq.
Proof. apply N.compare_refl. Qed.

Lemma string_compare_refl s : String.compare s s = Eq.
Proof. induction s as [|c s IH]; cbn; [reflexivity|]. now rewrite ascii_compare_refl. Qed.

(** Transitivity of the comparison, for each of its three outcomes. *)
Lemma string_compare_trans r x : forall y z,
  String.compare x y = r -> String.compare y z = r -> String.compare x z = r.
Proof.
  induction x as [|a x IH]; intros [|b y] [|c z]; cbn; try congruence.
  unfold Ascii.compare.
  destruct (N.compare_spec (N_of_ascii a) (N_of_ascii b)) as [Hab|Hab|Hab];
    destruct (N.compare_spec (N_of_ascii b) (N_of_ascii c)) as [Hbc|Hbc|Hbc];
    destruct (N.compare_spec (N_of_ascii a) (N_of_ascii c)) as [Hac|Hac|Hac];
    try lia; try congruence; eauto.
Qed.

Lemma string_compare_eq x y : String.compare x y = Eq -> x = y.
Proof. apply String.compare_eq_iff. Qed.

#[local] Instance str_le_total : Total str_le.
Proof. intros x y. apply String.leb_total. Qed.

#[local] Instance str_le_trans : Transitive str_le.
Proof.
  intros x y z. unfold str_le, String.leb.
  destruct (String.compare x y) eqn:Hxy; try discriminate;
    destruct (String.compare y z) eqn:Hyz; try discriminate; intros _ _.
  - apply string_compare_eq in Hxy, Hyz. subst. now rewrite string_compare_refl.
  - apply string_compare_eq in Hxy. subst. now rewrite Hyz.
  - apply string_compare_eq in Hyz. subst. now rewrite Hxy.
  - now rewrite (string_compare_trans Lt x y z Hxy Hyz).
Qed.

Lemma str_le_lt x y : str_le x y -> x <> y -> str_lt x y.
Proof.
  unfold str_le, str_lt, String.leb, String.ltb.
  destruct (String.compare x y) eqn:H; try easy.
  apply string_compare_eq in H. congruence.
Qed.

Lemma str_lt_irrefl x : ~ str_lt x x.
Proof. unfold str_lt, String.ltb. now rewrite string_compare_refl. Qed.

Lemma StronglySorted_strict (l : list string) :
  StronglySorted str_le l -> NoDup l -> StronglySorted str_lt l.
Proof.
  induction 1 as [|x l Hl IH Hx]; intros Hnd; [constructor|].
  apply NoDup_cons in Hnd as [Hnotin Hnd].
  constructor; [auto|].
  apply Forall_forall. intros y Hy.
  apply str_le_lt; [exact (proj1 (Forall_forall _ _) Hx y Hy)|].
  intros ->. contradiction.
Qed.

Context {A : Type}.

(** [Object.keys(o).sort()] lists exactly the property names of [o]. *)
Lemma sortedKeys_elem (o : gmap string A) k :
  k ∈ sortedKeys o <-> is_Some (o !! k).
Proof.
  unfold sortedKeys. rewrite (merge_sort_Permutation str_le).
  rewrite list_elem_of_fmap. split.
  - intros [[k' v] [-> Hin]]. apply elem_of_map_to_list in Hin. eauto.
  - intros [v Hv]. exists (k, v). split; [reflexivity|]. now apply elem_of_map_to_list.
Qed.

(** ... in strictly ascending order. *)
Lemma sortedKeys_sorted (o : gmap string A) : StronglySorted str_lt (sortedKeys o).
Proof.
  apply StronglySorted_strict.
  - apply StronglySorted_merge_sort; apply _.
  - unfold sortedKeys. rewrite (merge_sort_Permutation str_le).
    apply NoDup_fst_map_to_list.
Qed.

End OrderFacts.

(** ** Strings *)

Section StringFacts.
Import Js.

Lemma toString_array xs : toString (VArr xs) = joinValues "," xs.
Proof.
  (* the element loop of [toString] is [map elemString] *)
  reflexivity.
Qed.

Lemma append_cons x (a b : string) : String x a +:+ b = String x (a +:+ b).
Proof. reflexivity. Qed.

Lemma append_nil_l (a : string) : "" +:+ a = a.
Proof. reflexivity. Qed.

Lemma append_assoc (a b c : string) : (a +:+ b) +:+ c = a +:+ (b +:+ c).
Proof.
  induction a as [|x a IH]; [reflexivity|].
  rewrite !append_cons. f_equal. exact IH.
Qed.

Lemma append_nil_r (a : string) : a +:+ "" = a.
Proof.
  induction a as [|x a IH]; [reflexivity|].
  rewrite append_cons. f_equal. exact IH.
Qed.

(** The joined text ends with its last element: no separator follows it. *)
Lemma join_snoc sep l x :
  join sep (l ++ [x]) = match l with [] => x | _ => join sep l +:+ sep +:+ x end.
Proof.
  induction l as [|y l IH]; [reflexivity|].
  destruct l as [|z l]; [reflexivity|].
  change (join sep ((y :: z :: l) ++ [x])) with (y +:+ sep +:+ join sep ((z :: l) ++ [x])).
  rewrite IH. change (join sep (y :: z :: l)) with (y +:+ sep +:+ join sep (z :: l)).
  now rewrite !append_assoc.
Qed.

End StringFacts.

(** ** verifyHmac of the validating server *)

Section VerifyFacts.
Import Node Js Http.

(** What [verifyHmac] computes, step by step: nothing for a signature that
    is absent or empty; then the conversions of the message, the key, the
    conversion of the signature, and the comparison of the decoded bytes,
    which does not throw. *)
Lemma App_verifyHmacWith_spec secret q :
  App.verifyHmacWith secret q =
  if negb (truthy (getParam q "hmac")) then Return false
  else if negb (App.messageConverts q) then Throw "TypeError" noPrimitive
  else key ← createHmacKey secret;
       if negb (converts (getParam q "hmac")) then Throw "TypeError" noPrimitive
       else Return (bool_decide (fromHex (toString (getParam q "hmac")) =
                                 hmac_sha256 (utf8 key) (utf8 (App.hmacMessage q)))).
Proof.
  unfold App.verifyHmacWith.
  destruct (truthy (getParam q "hmac")); cbn [negb]; [|reflexivity].
  destruct (App.messageConverts q); cbn [negb mbind Completion_bind]; [|reflexivity].
  destruct secret as [key|]; cbn [createHmacKey mbind Completion_bind]; [|reflexivity].
  unfold ToString.
  destruct (converts (getParam q "hmac")); cbn [negb mbind Completion_bind]; [|reflexivity].
  rewrite fromHex_digest.
  destruct (Nat.eqb_spec
              (length (hmac_sha256 (utf8 key) (utf8 (App.hmacMessage q))))
              (length (fromHex (toString (getParam q "hmac"))))) as [Hlen|Hlen]; cbn [negb].
  - rewrite (timingSafeEqual_same_length _ _ Hlen). f_equal.
    apply eq_true_iff_eq. rewrite !bool_decide_eq_true. split; congruence.
  - f_equal. symmetry. apply bool_decide_eq_false. intros Heq. apply Hlen. now rewrite Heq.
Qed.

(** With the secret set and a query that converts, [verifyHmac] accepts
    exactly the signatures that are non-empty and decode to the digest of the
    canonical message. *)
Lemma App_verifyHmac_spec cfg q :
  App.messageConverts q = true ->
  converts (getParam q "hmac") = true ->
  App.verifyHmac cfg q =
  Return (truthy (getParam q "hmac") &&
          bool_decide (fromHex (toString (getParam q "hmac")) =
                       hmac_sha256 (utf8 (SHOPIFY_API_SECRET cfg)) (utf8 (App.hmacMessage q)))).
Proof.
  intros Hm Hh. unfold App.verifyHmac. rewrite App_verifyHmacWith_spec, Hm, Hh.
  destruct (truthy (getParam q "hmac")); reflexivity.
Qed.

(** What an accepted signature tells. *)
Lemma App_verifyHmac_true cfg q :
  App.verifyHmac cfg q = Return true <->
  truthy (getParam q "hmac") = true /\
  App.messageConverts q = true /\
  converts (getParam q "hmac") = true /\
  fromHex (toString (getParam q "hmac")) =
    hmac_sha256 (utf8 (SHOPIFY_API_SECRET cfg)) (utf8 (App.hmacMessage q)).
Proof.
  unfold App.verifyHmac. rewrite App_verifyHmacWith_spec.
  destruct (truthy (getParam q "hmac")); cbn [negb];
    [|split; [discriminate|intros [[=] _]]].
  destruct (App.messageConverts q); cbn [negb];
    [|split; [discriminate|intros (_ & [=] & _)]].
  cbn [createHmacKey mbind Completion_bind].
  destruct (converts (getParam q "hmac")); cbn [negb];
    [|split; [discriminate|intros (_ & _ & [=] & _)]].
  split.
  - intros H. apply Return_inj, bool_decide_eq_true in H. auto.
  - intros (_ & _ & _ & H). f_equal. now apply bool_decide_eq_true.
Qed.

(** A falsy signature is refused before anything is computed. *)
Lemma App_verifyHmacWith_falsy secret q :
  truthy (getParam q "hmac") = false -> App.verifyHmacWith secret q = Return false.
Proof. intros H. unfold App.verifyHmacWith. now rewrite H. Qed.

Lemma hmacMessage_golden h : App.hmacMessage (Spec.golden h) = "a=1&b=2".
Proof.
  unfold App.hmacMessage, Spec.golden. rewrite delete_insert_eq. reflexivity.
Qed.

(** A buffer of [n] bytes or more is decoded only from [2n] leading
    hexadecimal digits. *)
Lemma fromHex_long n : forall s,
  (n <= length (fromHex s))%nat ->
  (2 * n <= String.length s)%nat /\ Spec.isHex (String.substring 0 (2 * n) s) = true.
Proof.
  induction n as [|n IH]; intros s Hn.
  - split; [lia|]. destruct s; reflexivity.
  - destruct s as [|c1 [|c2 s]]; cbn [fromHex length] in Hn; try lia.
    destruct (unhex c1) as [a|] eqn:H1; [|cbn in Hn; lia].
    destruct (unhex c2) as [b|] eqn:H2; [|cbn in Hn; lia].
    cbn [length] in Hn. destruct (IH s) as [Hlen Hhex]; [lia|].
    replace (2 * S n)%nat with (S (S (2 * n))) by lia.
    cbn [String.length String.substring Spec.isHex].
    split; [lia|].
    rewrite H1, H2, Hhex.
    rewrite !bool_decide_eq_true_2 by eauto. reflexivity.
Qed.

(** A signature that is short, or has a character that is no hexadecimal
    digit among its first 64, decodes to fewer than 32 bytes. *)
Lemma fromHex_malformed s :
  (String.length s < 64)%nat \/ Spec.isHex (String.substring 0 64 s) = false ->
  (length (fromHex s) < 32)%nat.
Proof.
  intros H. destruct (le_lt_dec 32 (length (fromHex s))) as [Hge|]; [|assumption].
  destruct (fromHex_long 32 s Hge) as [Hlen Hhex].
  change (2 * 32)%nat with 64%nat in *.
  destruct H as [H|H]; [lia|congruence].
Qed.

(** In [src/server.js] a request without [hmac] makes [verifyHmac] throw. *)
Lemma Server_verifyHmac_absent rt cfg q :
  Server.messageConverts q = true ->
  q !! "hmac" = None ->
  Server.verifyHmac rt cfg q = Throw "TypeError" (Server.invalidArg VUndef).
Proof.
  intros Hm H. unfold Server.verifyHmac, Server.verifyHmacWith, getParam.
  rewrite Hm, H. reflexivity.
Qed.

Lemma hexdigit_code n : (n < 16)%N -> (code (hexdigit n) < 128)%N.
Proof. revert n. apply nibble_cases; reflexivity. Qed.

Lemma utf8_toHex_length b :
  Forall (fun x => (x < 256)%N) b -> length (utf8 (toHex b)) = (2 * length b)%nat.
Proof.
  induction 1 as [|x b Hx _ IH]; [reflexivity|].
  cbn [toHex utf8]. unfold utf8_unit.
  assert (H1 : (code (hexdigit (x / 16)) <? 128)%N = true).
  { apply N.ltb_lt, hexdigit_code, N.Div0.div_lt_upper_bound. lia. }
  assert (H2 : (code (hexdigit (x mod 16)) <? 128)%N = true).
  { apply N.ltb_lt, hexdigit_code, N.mod_lt. lia. }
  rewrite H1, H2. cbn [app length]. lia.
Qed.

(** ... and so does a string signature that is not 64 bytes long. *)
Lemma Server_verifyHmac_wrong_length rt cfg q s :
  Server.messageConverts q = true ->
  q !! "hmac" = Some (PStr s) ->
  length (utf8 s) <> 64%nat ->
  Server.verifyHmac rt cfg q =
  Throw "RangeError" "Input buffers must have the same byte length".
Proof.
  intros Hm H Hlen. unfold Server.verifyHmac, Server.verifyHmacWith, getParam.
  rewrite Hm, H.
  cbn [from_option val Server.Buffer_from_utf8 createHmacKey mbind Completion_bind].
  unfold timingSafeEqual, createHmac_sha256_hex.
  rewrite utf8_toHex_length by apply hmac_sha256_small.
  rewrite hmac_sha256_length.
  destruct (Nat.eqb_spec (2 * 32) (length (utf8 s))) as [E|E]; [|reflexivity].
  exfalso. apply Hlen. rewrite <- E. reflexivity.
Qed.

End VerifyFacts.

(** ** The token map *)

Section MapFacts.
Import Js.

Lemma sameKey_eq a b : sameKey a b = true -> a = b.
Proof.
  destruct a, b; cbn; try discriminate; try reflexivity.
  - intros H. apply Bool.eqb_prop in H. now subst.
  - intros H. apply String.eqb_eq in H. now subst.
  - intros H. apply String.eqb_eq in H. now subst.
Qed.

Lemma sameKey_str s : sameKey (VStr s) (VStr s) = true.
Proof. apply String.eqb_refl. Qed.

(** [set] adds or replaces one entry and keeps the others. *)
Lemma Map_set_elem m k v k' v' :
  In (k', v') (Map_set m k v) -> In (k', v') m \/ (k' = k /\ v' = v).
Proof.
  induction m as [|[k0 v0] m IH]; cbn.
  - intros [[= <- <-]|[]]. now right.
  - destruct (sameKey k0 k) eqn:E; cbn.
    + apply sameKey_eq in E. subst k0. intros [[= <- <-]|H]; auto.
    + intros [H|H]; auto. destruct (IH H); auto.
Qed.

Lemma Map_get_set_eq m s v : Map_get (Map_set m (VStr s) v) (VStr s) = v.
Proof.
  induction m as [|[k0 v0] m IH]; cbn [Map_set Map_get].
  - now rewrite sameKey_str.
  - destruct (sameKey k0 (VStr s)) eqn:E; cbn [Map_get]; now rewrite E.
Qed.

Lemma Map_get_set_ne m k v k' :
  sameKey k k' = false -> Map_get (Map_set m k v) k' = Map_get m k'.
Proof.
  intros Hne. induction m as [|[k0 v0] m IH]; cbn [Map_set Map_get].
  - now rewrite Hne.
  - destruct (sameKey k0 k) eqn:E; cbn [Map_get].
    + apply sameKey_eq in E. subst k0. now rewrite Hne.
    + now rewrite IH.
Qed.

Lemma Map_get_absent m k : Map_has m k = false -> Map_get m k = VUndef.
Proof.
  induction m as [|[k0 v0] m IH]; cbn; [reflexivity|].
  destruct (sameKey k0 k); cbn; [discriminate|exact IH].
Qed.

(** An invariant of the entries is kept along any history of calls whose
    handler adds only justified entries. *)
Lemma serve_invariant {C : Type} (step : Map -> C -> Map) (J : C -> value -> value -> Prop) :
  (forall c m k v, In (k, v) (step m c) -> In (k, v) m \/ J c k v) ->
  forall history m0 k v,
    In (k, v) (fold_left step history m0) ->
    In (k, v) m0 \/ exists c, In c history /\ J c k v.
Proof.
  intros Hstep history. induction history as [|c history IH]; intros m0 k v; cbn.
  - auto.
  - intros H. destruct (IH _ _ _ H) as [H0|[c' [Hin HJ]]].
    + destruct (Hstep _ _ _ _ H0) as [|HJ]; eauto.
    + eauto.
Qed.

End MapFacts.

(** ** The callback handlers *)

Section CallbackFacts.
Import Node Js Http.

Ltac no_fetch :=
  match goal with
  | H : exists _ _ _, In _ [] |- _ => destruct H as (? & ? & ? & [])
  end.

(** The exchange is behind both checks. *)
Lemma App_callback_gate cfg remote req tokens :
  Spec.exchangeIssued (App.callback cfg remote req tokens) ->
  Spec.stateValid req = true /\ App.verifyHmac cfg (query req) = Return true.
Proof.
  unfold Spec.exchangeIssued, Spec.stateValid. unfold_callback.
  repeat branch; cbn [effects]; intros H; try no_fetch; auto.
Qed.

Lemma Server_callback_gate rt cfg remote req tokens :
  Spec.exchangeIssued (Server.callback rt cfg remote req tokens) ->
  Spec.stateValid req = true /\ Server.verifyHmac rt cfg (query req) = Return true.
Proof.
  unfold Spec.exchangeIssued, Spec.stateValid, Server.callback.
  repeat branch; cbn [effects]; intros H; try no_fetch; auto.
Qed.

Lemma clientError_400 headers body : Spec.clientError (Send 400 headers body).
Proof. exists 400%N, headers, body. repeat split; lia. Qed.

(** A failed state check ends the request with 400, nothing done. *)
Lemma App_callback_bad_state cfg remote req tokens :
  Spec.stateValid req = false ->
  let r := App.callback cfg remote req tokens in
  effects r = [] /\ Spec.clientError (reply r) /\ TOKENS r = tokens.
Proof.
  unfold Spec.stateValid. unfold_callback. intros H.
  branch; cbn; [auto using clientError_400|].
  apply negb_false_iff in H. rewrite H. cbn. auto using clientError_400.
Qed.

Lemma Server_callback_bad_state rt cfg remote req tokens :
  Spec.stateValid req = false ->
  let r := Server.callback rt cfg remote req tokens in
  effects r = [] /\ Spec.clientError (reply r) /\ TOKENS r = tokens.
Proof.
  unfold Spec.stateValid, Server.callback. intros H.
  branch; cbn; [auto using clientError_400|].
  apply negb_false_iff in H. rewrite H. cbn. auto using clientError_400.
Qed.

(** A signature that does not verify ends the request with 400. *)
Lemma App_callback_bad_hmac cfg remote req tokens :
  App.verifyHmac cfg (query req) = Return false ->
  let r := App.callback cfg remote req tokens in
  effects r = [] /\ Spec.clientError (reply r) /\ TOKENS r = tokens.
Proof.
  unfold_callback. intros H. rewrite H.
  repeat branch; cbn; auto using clientError_400.
Qed.

(** Where the map changes, the exchange brought a credential. *)
Lemma App_callback_tokens cfg remote req tokens :
  let r := App.callback cfg remote req tokens in
  TOKENS r = tokens \/
  exists t, Spec.credential remote = Some t /\
            Spec.exchangeIssued r /\
            TOKENS r = Map_set tokens (getParam (query req) "shop") t.
Proof.
  unfold Spec.credential. unfold_callback.
  repeat branch; cbn [TOKENS]; auto; try discriminate.
  right. eexists. split; [reflexivity|]. split; [|reflexivity].
  do 3 eexists. left. reflexivity.
Qed.

Lemma Server_callback_tokens rt cfg remote req tokens :
  let r := Server.callback rt cfg remote req tokens in
  TOKENS r = tokens \/
  exists t, Spec.credential remote = Some t /\
            Spec.exchangeIssued r /\
            TOKENS r = Map_set tokens (getParam (query req) "shop") t.
Proof.
  unfold Server.callback, Spec.credential.
  repeat branch; cbn [TOKENS]; auto; try discriminate.
  right. eexists. split; [reflexivity|]. split; [|reflexivity].
  do 3 eexists. left. reflexivity.
Qed.

(** Without a credential from the token endpoint the map stays as it is. *)
Lemma App_callback_no_credential cfg remote req tokens :
  Spec.credential remote = None ->
  TOKENS (App.callback cfg remote req tokens) = tokens.
Proof.
  intros H. destruct (App_callback_tokens cfg remote req tokens) as [E|(t & Ht & _)];
    [exact E|congruence].
Qed.

Lemma Server_callback_no_credential rt cfg remote req tokens :
  Spec.credential remote = None ->
  TOKENS (Server.callback rt cfg remote req tokens) = tokens.
Proof.
  intros H. destruct (Server_callback_tokens rt cfg remote req tokens) as [E|(t & Ht & _)];
    [exact E|congruence].
Qed.

(** When the exchange is issued and brings a credential, it is stored under
    the shop of the request, and the dashboard (the confirmation page in
    [src/server.js]) follows. *)
Lemma App_callback_completes cfg remote req tokens t :
  let r := App.callback cfg remote req tokens in
  Spec.exchangeIssued r ->
  Spec.credential remote = Some t ->
  TOKENS r = Map_set tokens (getParam (query req) "shop") t /\
  reply r = Redirect ("/?shop=" +:+ encodeURIComponent (toString (getParam (query req) "shop"))).
Proof.
  unfold Spec.credential, Spec.exchangeIssued. unfold_callback.
  repeat branch; cbn [effects TOKENS reply negb] in *; try discriminate;
    intros H; try no_fetch; intros [=]; subst; auto.
Qed.


Lemma credential_Some remote t :
  Spec.credential remote = Some t ->
  exists status tokenJson,
    remote = Responds status (Return tokenJson) /\
    ok status = true /\
    getProp tokenJson "access_token" = Return t.
Proof.
  unfold Spec.credential.
  destruct remote as [|status [tokenJson|]]; try discriminate.
  destruct (ok status) eqn:Hok; try discriminate.
  destruct (getProp tokenJson "access_token") eqn:E; try discriminate.
  intros [= <-]. exists status, tokenJson. auto.
Qed.

(** Where the callback stores an entry, its exchange completed with a
    success response for that tenant. *)
Lemma App_callback_justified cfg remote req tokens k v :
  In (k, v) (TOKENS (App.callback cfg remote req tokens)) ->
  In (k, v) tokens \/ Spec.exchangedFor (App.verifyHmac cfg) remote req k v.
Proof.
  destruct (App_callback_tokens cfg remote req tokens) as [E|(t & Hc & Hissued & E)];
    rewrite E; [auto|].
  intros H. apply Map_set_elem in H as [H|[-> ->]]; [auto|]. right.
  destruct (credential_Some _ _ Hc) as (status & tokenJson & -> & Hok & Ht).
  destruct (App_callback_gate _ _ _ _ Hissued) as [Hstate Hhmac].
  exists status, tokenJson. auto 6.
Qed.

Lemma Server_callback_justified rt cfg remote req tokens k v :
  In (k, v) (TOKENS (Server.callback rt cfg remote req tokens)) ->
  In (k, v) tokens \/ Spec.exchangedFor (Server.verifyHmac rt cfg) remote req k v.
Proof.
  destruct (Server_callback_tokens rt cfg remote req tokens) as [E|(t & Hc & Hissued & E)];
    rewrite E; [auto|].
  intros H. apply Map_set_elem in H as [H|[-> ->]]; [auto|]. right.
  destruct (credential_Some _ _ Hc) as (status & tokenJson & -> & Hok & Ht).
  destruct (Server_callback_gate _ _ _ _ _ Hissued) as [Hstate Hhmac].
  exists status, tokenJson. auto 6.
Qed.

Lemma failedExchange_no_credential remote :
  Spec.failedExchange remote -> Spec.credential remote = None.
Proof.
  destruct remote as [|status [tokenJson|]]; cbn; try reflexivity.
  intros [->|(n & m & [=])]. reflexivity.
Qed.

(** The other handlers leave the map as it is. *)
Lemma App_auth_tokens cfg random16 req tokens :
  TOKENS (App.auth cfg random16 req tokens) = tokens.
Proof. unfold App.auth. repeat branch; reflexivity. Qed.

Lemma App_customers_tokens remote req tokens :
  TOKENS (App.customers remote req tokens) = tokens.
Proof. unfold App.customers. repeat branch; reflexivity. Qed.

Lemma App_customersCsv_tokens remote req tokens :
  TOKENS (App.customersCsv remote req tokens) = tokens.
Proof. unfold App.customersCsv. repeat branch; reflexivity. Qed.

Lemma Server_auth_tokens cfg random16 req tokens :
  TOKENS (Server.auth cfg random16 req tokens) = tokens.
Proof. unfold Server.auth. repeat branch; reflexivity. Qed.

Lemma Server_customers_tokens remote req tokens :
  TOKENS (Server.customers remote req tokens) = tokens.
Proof. unfold Server.customers. repeat branch; reflexivity. Qed.

End CallbackFacts.

(** ** Texts: character classes, trimming, encoding *)

Section EncodingFacts.
Import Node Js Http.

Lemma includes_app c (a b : string) :
  includes c (a +:+ b) = includes c a || includes c b.
Proof.
  induction a as [|d a IH]; [reflexivity|].
  rewrite append_cons. cbn [includes]. now rewrite IH, orb_assoc.
Qed.

Lemma allChars_app p (a b : string) :
  Spec.allChars p (a +:+ b) = Spec.allChars p a && Spec.allChars p b.
Proof.
  induction a as [|c a IH]; [reflexivity|].
  rewrite append_cons. cbn [Spec.allChars]. now rewrite IH, andb_assoc.
Qed.

Lemma allChars_weaken (p q : ascii -> bool) s :
  (forall c, p c = true -> q c = true) ->
  Spec.allChars p s = true -> Spec.allChars q s = true.
Proof.
  intros Hpq. induction s as [|c s IH]; [reflexivity|].
  cbn [Spec.allChars]. rewrite !andb_true_iff. intros [Hc Hs]. auto.
Qed.

Lemma allChars_excludes p s c :
  p c = false -> Spec.allChars p s = true -> includes c s = false.
Proof.
  intros Hc. induction s as [|d s IH]; [reflexivity|].
  cbn [Spec.allChars includes]. rewrite andb_true_iff. intros [Hd Hs].
  rewrite (IH Hs), orb_false_r. apply Ascii.eqb_neq. intros ->. congruence.
Qed.

Lemma allChars_Forall p s :
  Forall (fun d => p d = true) (String.list_ascii_of_string s) ->
  Spec.allChars p s = true.
Proof.
  induction s as [|c s IH]; [reflexivity|].
  cbn [String.list_ascii_of_string Spec.allChars]. intros H.
  apply Forall_cons in H as [Hc Hs]. now rewrite Hc, IH.
Qed.

Lemma code_small c : (code c < 256)%N.
Proof. apply N_ascii_bounded. Qed.

Lemma HEXDIGIT_unreserved n : (n < 16)%N -> unreserved (HEXDIGIT n) = true.
Proof. revert n. apply nibble_cases; reflexivity. Qed.

Lemma percent_safe b : (b < 256)%N -> Spec.allChars Spec.uriSafe (percent b) = true.
Proof.
  intros Hb. unfold percent. cbn [Spec.allChars]. unfold Spec.uriSafe at 2 3.
  rewrite !HEXDIGIT_unreserved.
  - reflexivity.
  - apply N.mod_lt. lia.
  - apply N.Div0.div_lt_upper_bound. lia.
Qed.

Lemma utf8_unit_small c : Forall (fun b => (b < 256)%N) (utf8_unit c).
Proof.
  unfold utf8_unit. pose proof (code_small c) as Hc.
  destruct (code c <? 128)%N eqn:E.
  - repeat constructor. exact Hc.
  - repeat constructor.
    + assert (code c / 64 < 4)%N by (apply N.Div0.div_lt_upper_bound; lia). lia.
    + assert (code c mod 64 < 64)%N by (apply N.mod_lt; lia). lia.
Qed.

(** What [encodeURIComponent] returns is made of unreserved characters and
    percent escapes only. *)
Lemma encodeURIComponent_safe s :
  Spec.allChars Spec.uriSafe (encodeURIComponent s) = true.
Proof.
  induction s as [|c s IH]; [reflexivity|].
  cbn [encodeURIComponent]. rewrite allChars_app, IH, andb_true_r.
  destruct (unreserved c) eqn:E.
  - cbn [Spec.allChars]. unfold Spec.uriSafe. now rewrite E.
  - pose proof (utf8_unit_small c) as Hb.
    induction Hb as [|b bs Hb _ IHb]; [reflexivity|].
    cbn [fold_right]. now rewrite allChars_app, percent_safe, IHb.
Qed.

(** A text of unreserved characters is encoded as itself. *)
Lemma encodeURIComponent_unreserved s :
  Spec.allChars unreserved s = true -> encodeURIComponent s = s.
Proof.
  induction s as [|c s IH]; [reflexivity|].
  cbn [Spec.allChars encodeURIComponent]. rewrite andb_true_iff. intros [Hc Hs].
  rewrite Hc, (IH Hs). reflexivity.
Qed.

(** *** trim *)

Lemma trimEnd_app_fixed s t :
  t <> "" -> trimEnd t = t -> trimEnd (s +:+ t) = s +:+ t.
Proof.
  intros Hne Ht. induction s as [|c s IH]; [exact Ht|].
  rewrite append_cons. cbn [trimEnd]. rewrite IH.
  destruct (s +:+ t) eqn:E; [|reflexivity].
  destruct s; [rewrite append_nil_l in E; congruence|rewrite append_cons in E; discriminate E].
Qed.

Lemma trimEnd_cons c s :
  trimEnd (String c s) =
  match trimEnd s with
  | EmptyString => if isSpace c then "" else String c ""
  | t => String c t
  end.
Proof. reflexivity. Qed.

Lemma trimEnd_idem s : trimEnd (trimEnd s) = trimEnd s.
Proof.
  induction s as [|c s IH]; [reflexivity|].
  rewrite trimEnd_cons. destruct (trimEnd s) as [|d t] eqn:E.
  - destruct (isSpace c) eqn:Hc; [reflexivity|].
    rewrite trimEnd_cons. cbn [trimEnd]. now rewrite Hc.
  - rewrite trimEnd_cons, IH. reflexivity.
Qed.

(** A text that starts with a character that is no white space keeps that
    start under [trimEnd]. *)
Lemma trimEnd_head c s :
  isSpace c = false -> exists t, trimEnd (String c s) = String c t.
Proof.
  intros Hc. cbn [trimEnd]. destruct (trimEnd s); [rewrite Hc|]; eauto.
Qed.

Lemma trimStart_head c s : isSpace c = false -> trimStart (String c s) = String c s.
Proof. intros Hc. cbn [trimStart]. now rewrite Hc. Qed.

Lemma trimStart_shape s :
  trimStart s = "" \/ exists c t, trimStart s = String c t /\ isSpace c = false.
Proof.
  induction s as [|c s IH]; [now left|].
  cbn [trimStart]. destruct (isSpace c) eqn:Hc; [exact IH|]. right. eauto.
Qed.

(** [trim] is idempotent: what it returns has no white space left to trim. *)
Lemma trim_idem s : trim (trim s) = trim s.
Proof.
  unfold trim. destruct (trimStart_shape s) as [E|(c & t & E & Hc)]; rewrite E.
  - reflexivity.
  - destruct (trimEnd_head c t Hc) as [u Hu].
    rewrite Hu, trimStart_head by exact Hc. rewrite <- Hu. apply trimEnd_idem.
Qed.


(** *** The character classes of the shop pattern *)

Ltac bool_to_prop :=
  repeat rewrite ?andb_true_iff, ?orb_true_iff, ?N.leb_le, ?N.eqb_eq, ?N.ltb_lt in *.

Lemma alnum_unreserved c : App.alnum c = true -> unreserved c = true.
Proof.
  unfold App.alnum, unreserved. intros H. apply orb_true_iff. left.
  bool_to_prop. tauto.
Qed.

Lemma alnum_not_space c : App.alnum c = true -> isSpace c = false.
Proof.
  unfold App.alnum, isSpace. intros H. apply not_true_iff_false. intros Hs.
  bool_to_prop. lia.
Qed.

Lemma code_inj c n : code c = n -> c = ascii_of_N n.
Proof. intros <-. unfold code. now rewrite ascii_N_embedding. Qed.

Lemma alnumDash_unreserved c : App.alnumDash c = true -> unreserved c = true.
Proof.
  unfold App.alnumDash. intros H. apply orb_true_iff in H as [H|H].
  - now apply alnum_unreserved.
  - apply N.eqb_eq, code_inj in H. subst c. reflexivity.
Qed.

End EncodingFacts.

(** ** Conversions to string *)

Section ConversionFacts.
Import Node Js Http.

(** Induction on values, through the elements of arrays. *)
Lemma value_nested_ind (P : value -> Prop) :
  P VUndef -> P VNull -> (forall b, P (VBool b)) -> (forall r, P (VNum r)) ->
  (forall s, P (VStr s)) ->
  (forall xs, Forall P xs -> P (VArr xs)) ->
  (forall fields, P (VObj fields)) ->
  forall v, P v.
Proof.
  intros Hu Hn Hb Hr Hs Ha Ho. fix IH 1.
  intros [| |b|r|s|xs|fields];
    [exact Hu|exact Hn|apply Hb|apply Hr|apply Hs| |apply Ho].
  apply Ha. induction xs as [|x xs IHxs]; constructor; [apply IH|exact IHxs].
Qed.

Lemma ToString_Return v : converts v = true -> ToString v = Return (toString v).
Proof. intros H. unfold ToString. now rewrite H. Qed.

Lemma ToString_Throw v : converts v = false -> ToString v = Throw "TypeError" noPrimitive.
Proof. intros H. unfold ToString. now rewrite H. Qed.

(** The method call agrees with the conversion on when it returns and on
    what. *)
Lemma callToString_Return what v :
  v <> VUndef -> v <> VNull -> converts v = true ->
  callToString what v = Return (toString v).
Proof.
  intros Hu Hn Hc. destruct v; try congruence; try reflexivity.
  - now apply ToString_Return.
  - cbn [callToString]. cbn [converts] in Hc. apply negb_true_iff in Hc. now rewrite Hc.
Qed.

Lemma callToString_Throw what v :
  converts v = false -> exists m, callToString what v = Throw "TypeError" m.
Proof.
  intros Hc. destruct v; try discriminate Hc.
  - cbn [callToString]. rewrite ToString_Throw by exact Hc. eauto.
  - cbn [callToString]. cbn [converts] in Hc. apply negb_false_iff in Hc. rewrite Hc. eauto.
Qed.

Lemma callToString_inv what v text :
  callToString what v = Return text -> converts v = true /\ text = toString v.
Proof.
  destruct (converts v) eqn:Hc.
  - destruct v; try discriminate; cbn [callToString];
      rewrite ?ToString_Return by exact Hc; try (intros [= <-]; auto).
    cbn [converts] in Hc. apply negb_true_iff in Hc. rewrite Hc. intros [= <-]. auto.
  - destruct (callToString_Throw what v Hc) as [m ->]. discriminate.
Qed.

Lemma includes_join c sep l x :
  In x l -> includes c x = true -> includes c (join sep l) = true.
Proof.
  intros Hin Hx. induction l as [|y l IH]; [destruct Hin|].
  destruct l as [|z l].
  - destruct Hin as [->|[]]. exact Hx.
  - change (join sep (y :: z :: l)) with (y +:+ sep +:+ join sep (z :: l)).
    rewrite !includes_app. destruct Hin as [->|Hin].
    + now rewrite Hx.
    + rewrite (IH Hin). now rewrite !orb_true_r.
Qed.

Lemma forallb_false {A} (f : A -> bool) l :
  forallb f l = false -> exists x, In x l /\ f x = false.
Proof.
  induction l as [|y l IH]; [discriminate|]. cbn [forallb].
  destruct (f y) eqn:E; cbn [andb].
  - intros H. destruct (IH H) as (x & Hin & Hx). exists x. split; [now right|exact Hx].
  - intros _. exists y. split; [now left|exact E].
Qed.

(** The text of a value that does not convert holds a bracket, that of
    [[object Object]]. *)
Lemma inconvertible_bracket v : converts v = false -> includes "[" (toString v) = true.
Proof.
  induction v as [| | | | |xs IH|fields] using value_nested_ind; try discriminate.
  - cbn [converts]. intros H. rewrite toString_array. unfold joinValues.
    apply forallb_false in H as (x & Hin & Hx).
    rewrite List.Forall_forall in IH. pose proof (IH x Hin Hx) as Hb.
    apply includes_join with (x := elemString x).
    + apply in_map, Hin.
    + destruct x; try discriminate Hx; exact Hb.
  - reflexivity.
Qed.

Lemma includes_trimStart c s : isSpace c = false -> includes c (trimStart s) = includes c s.
Proof.
  intros Hc. induction s as [|d s IH]; [reflexivity|].
  cbn [trimStart]. destruct (isSpace d) eqn:Hd; [|reflexivity].
  rewrite IH. cbn [includes]. destruct (Ascii.eqb_spec d c) as [->|]; [congruence|reflexivity].
Qed.

Lemma includes_trimEnd c s : isSpace c = false -> includes c (trimEnd s) = includes c s.
Proof.
  intros Hc. induction s as [|d s IH]; [reflexivity|].
  rewrite trimEnd_cons. cbn [includes]. rewrite <- IH.
  destruct (trimEnd s) as [|e t].
  - destruct (isSpace d) eqn:Hd; cbn [includes]; [|reflexivity].
    destruct (Ascii.eqb_spec d c) as [->|]; [congruence|reflexivity].
  - reflexivity.
Qed.

Lemma includes_trim c s : isSpace c = false -> includes c (trim s) = includes c s.
Proof.
  intros Hc. unfold trim. now rewrite includes_trimEnd, includes_trimStart.
Qed.

(** A text without a bracket, even once trimmed, is that of a value that
    converts. *)
Lemma plain_text_converts v :
  includes "[" (trim (toString v)) = false -> converts v = true.
Proof.
  intros H. rewrite includes_trim in H by reflexivity.
  destruct (converts v) eqn:Hc; [reflexivity|].
  rewrite (inconvertible_bracket v Hc) in H. discriminate.
Qed.

(** *** Sequences of calls *)

Lemma mapM_Return {A B} (f : A -> Completion B) l rows :
  mapM f l = Return rows -> Forall2 (fun x r => f x = Return r) l rows.
Proof.
  revert rows. induction l as [|x l IH]; intros rows.
  - intros [= <-]. constructor.
  - cbn [mapM].
    destruct (f x) as [r|] eqn:E; cbn [mbind Completion_bind]; [|discriminate].
    fold (mapM f l). destruct (mapM f l) as [rs|] eqn:E'; cbn; [|discriminate].
    intros [= <-]. constructor; auto.
Qed.

Lemma mapM_Forall2 {A B} (f : A -> Completion B) l rows :
  Forall2 (fun x r => f x = Return r) l rows -> mapM f l = Return rows.
Proof.
  induction 1 as [|x r l rows Hx _ IH]; [reflexivity|].
  cbn [mapM]. rewrite Hx. cbn [mbind Completion_bind]. fold (mapM f l).
  rewrite IH. reflexivity.
Qed.

Lemma mapM_total {A B} (f : A -> Completion B) (g : A -> B) l :
  Forall (fun x => f x = Return (g x)) l -> mapM f l = Return (map g l).
Proof.
  intros H. apply mapM_Forall2. induction H; constructor; auto.
Qed.

Lemma mapM_Throw {A B} (f : A -> Completion B) l x :
  In x l -> (exists n m, f x = Throw n m) -> exists n m, mapM f l = Throw n m.
Proof.
  intros Hin Hx. induction l as [|y l IH]; [destruct Hin|].
  cbn [mapM]. destruct (f y) as [r|n m] eqn:E; cbn [mbind Completion_bind]; [|eauto].
  fold (mapM f l). destruct Hin as [->|Hin].
  - destruct Hx as (n & m & Hx). congruence.
  - destruct (IH Hin) as (n & m & ->). cbn. eauto.
Qed.

(** Where every failure is one and the same exception, so is that of the
    sequence. *)
Lemma mapM_Throw_same {A B} (f : A -> Completion B) l n m :
  (forall x n' m', In x l -> f x = Throw n' m' -> n' = n /\ m' = m) ->
  forall n' m', mapM f l = Throw n' m' -> n' = n /\ m' = m.
Proof.
  intros Hf. induction l as [|y l IH]; intros n' m'; [discriminate|].
  cbn [mapM]. destruct (f y) as [r|n0 m0] eqn:E; cbn [mbind Completion_bind].
  - fold (mapM f l). destruct (mapM f l) as [rs|n1 m1] eqn:E'; cbn; [discriminate|].
    intros [= <- <-]. apply IH; [|reflexivity]. intros x n2 m2 Hin. apply Hf. now right.
  - intros [= <- <-]. apply (Hf y); [now left|exact E].
Qed.

End ConversionFacts.

(** ** The CSV text and its reader *)

Section CsvFacts.
Import Node Js Http.

Lemma fmap_compose {A B C} (f : A -> B) (g : B -> C) (x : option A) :
  g <$> (f <$> x) = (fun a => g (f a)) <$> x.
Proof. destruct x; reflexivity. Qed.

Lemma fmap_ext {A B} (f g : A -> B) (x : option A) :
  (forall a, f a = g a) -> f <$> x = g <$> x.
Proof. intros H. destruct x; cbn; [f_equal; apply H|reflexivity]. Qed.

Lemma pushText_nil records : Spec.pushText "" records = records.
Proof. destruct records as [|[|f fs] rs]; reflexivity. Qed.

Lemma pushChar_pushText c t records :
  Spec.pushChar c (Spec.pushText t records) = Spec.pushText (String c t) records.
Proof. destruct records as [|[|f fs] rs]; reflexivity. Qed.

(** After a field the reader goes on the same way from each of its modes
    outside quotes. *)
Lemma readCsvFrom_delimited rest :
  Spec.delimited rest = true ->
  Spec.readCsvFrom Spec.InPlain rest = Spec.readCsvFrom Spec.AtStart rest /\
  Spec.readCsvFrom Spec.AfterQuote rest = Spec.readCsvFrom Spec.AtStart rest.
Proof.
  destruct rest as [|c rest]; [split; reflexivity|].
  cbn [Spec.delimited Spec.readCsvFrom]. intros H.
  destruct (Ascii.eqb c dquote) eqn:Eq.
  - apply Ascii.eqb_eq in Eq. subst c. discriminate H.
  - destruct (Ascii.eqb c ","); [split; reflexivity|].
    destruct (Ascii.eqb c LF); [split; reflexivity|discriminate H].
Qed.

Lemma plainText_cons c t :
  Spec.plainText (String c t) = true ->
  Ascii.eqb c dquote = false /\ Ascii.eqb c "," = false /\ Ascii.eqb c LF = false /\
  Spec.plainText t = true.
Proof.
  unfold Spec.plainText. cbn [includes].
  destruct (Ascii.eqb c ","), (Ascii.eqb c dquote), (Ascii.eqb c LF); cbn;
    rewrite ?orb_true_r; try discriminate; auto.
Qed.

(** A text with nothing to quote reads back as itself. *)
Lemma readCsvFrom_plain t rest :
  Spec.plainText t = true -> Spec.delimited rest = true ->
  Spec.readCsvFrom Spec.InPlain (t +:+ rest) =
    Spec.pushText t <$> Spec.readCsvFrom Spec.AtStart rest.
Proof.
  intros Ht Hrest. induction t as [|c t IH].
  - rewrite append_nil_l, (proj1 (readCsvFrom_delimited rest Hrest)).
    symmetry. erewrite fmap_ext; [|apply pushText_nil].
    destruct (Spec.readCsvFrom _ _); reflexivity.
  - apply plainText_cons in Ht. destruct Ht as (E1 & E2 & E3 & Ht).
    rewrite append_cons. cbn [Spec.readCsvFrom]. rewrite E1, E2, E3, (IH Ht).
    rewrite fmap_compose. apply fmap_ext. intros r. apply pushChar_pushText.
Qed.

(** A quoted text reads back as what was quoted. *)
Lemma readCsvFrom_quoted t rest :
  Spec.readCsvFrom Spec.InQuoted
    (Spec.doubled t +:+ String dquote rest) =
  Spec.pushText t <$> Spec.readCsvFrom Spec.AfterQuote rest.
Proof.
  induction t as [|c t IH].
  - cbn [Spec.doubled]. rewrite append_nil_l. cbn [Spec.readCsvFrom].
    rewrite Ascii.eqb_refl. symmetry. erewrite fmap_ext; [|apply pushText_nil].
    destruct (Spec.readCsvFrom _ _); reflexivity.
  - cbn [Spec.doubled]. destruct (Ascii.eqb c dquote) eqn:E.
    + apply Ascii.eqb_eq in E. subst c. rewrite !append_cons.
      cbn [Spec.readCsvFrom]. rewrite !Ascii.eqb_refl, IH.
      rewrite fmap_compose. apply fmap_ext. intros r. apply pushChar_pushText.
    + rewrite append_cons. cbn [Spec.readCsvFrom]. rewrite E, IH.
      rewrite fmap_compose. apply fmap_ext. intros r. apply pushChar_pushText.
Qed.

(** A field reads back as the text of its value. *)
Lemma readCsvFrom_csvField v rest :
  Spec.delimited rest = true ->
  Spec.readCsvFrom Spec.AtStart (Spec.csvField v +:+ rest) =
    Spec.pushText (Spec.fieldText v) <$> Spec.readCsvFrom Spec.AtStart rest.
Proof.
  intros Hrest. unfold Spec.csvField. cbv zeta.
  generalize (Spec.fieldText v). intros t.
  destruct (Spec.plainText t) eqn:Ht.
  - destruct t as [|c t].
    + rewrite append_nil_l. symmetry. erewrite fmap_ext; [|apply pushText_nil].
      destruct (Spec.readCsvFrom _ _); reflexivity.
    + destruct (plainText_cons _ _ Ht) as (E1 & E2 & E3 & Ht').
      rewrite append_cons. cbn [Spec.readCsvFrom]. rewrite E1, E2, E3.
      rewrite (readCsvFrom_plain _ _ Ht' Hrest), fmap_compose.
      apply fmap_ext. intros r. apply pushChar_pushText.
  - rewrite append_cons, append_assoc, append_cons, append_nil_l.
    cbn [Spec.readCsvFrom]. rewrite Ascii.eqb_refl, readCsvFrom_quoted.
    rewrite (proj2 (readCsvFrom_delimited rest Hrest)). reflexivity.
Qed.

Lemma delimited_comma rest : Spec.delimited (String "," rest) = true.
Proof. reflexivity. Qed.

Lemma delimited_LF rest : Spec.delimited (String LF rest) = true.
Proof. reflexivity. Qed.

(** A line of fields reads back as the texts of its
    values, before what the rest of the text reads as. *)
Lemma readCsvFrom_line vs rest :
  vs <> [] -> Spec.delimited rest = true ->
  Spec.readCsvFrom Spec.AtStart (join "," (map Spec.csvField vs) +:+ rest) =
    Spec.addLine (map Spec.fieldText vs) <$> Spec.readCsvFrom Spec.AtStart rest.
Proof.
  intros Hvs Hrest. induction vs as [|v vs IH]; [congruence|].
  destruct vs as [|v' vs].
  - cbn [map join Spec.addLine]. apply readCsvFrom_csvField, Hrest.
  - change (join "," (map Spec.csvField (v :: v' :: vs)))
      with (Spec.csvField v +:+ "," +:+ join "," (map Spec.csvField (v' :: vs))).
    rewrite !append_assoc, append_cons, append_nil_l.
    rewrite readCsvFrom_csvField by apply delimited_comma.
    cbn [Spec.readCsvFrom]. 
    replace (Ascii.eqb "," dquote) with false by reflexivity.
    rewrite Ascii.eqb_refl, IH by discriminate.
    rewrite !fmap_compose. apply fmap_ext. intros r. reflexivity.
Qed.

Lemma addLine_fresh ts fs rs :
  ts <> [] -> Spec.addLine ts (("" :: fs) :: rs) = (ts ++ fs) :: rs.
Proof.
  intros Hts. induction ts as [|t ts IH]; [congruence|].
  destruct ts as [|t' ts].
  - cbn. rewrite append_nil_r. reflexivity.
  - change (Spec.addLine (t :: t' :: ts) (("" :: fs) :: rs))
      with (Spec.pushText t (Spec.newField (Spec.addLine (t' :: ts) (("" :: fs) :: rs)))).
    rewrite IH by discriminate. cbn. rewrite append_nil_r. reflexivity.
Qed.

(** The lines of a text read back as the texts of
    their values. *)
Lemma readCsv_lines (lines : list (list value)) :
  lines <> [] -> Forall (fun vs => vs <> []) lines ->
  Spec.readCsv (join (String LF "") (map (fun vs => join "," (map Spec.csvField vs)) lines)) =
    Some (map (map Spec.fieldText) lines).
Proof.
  unfold Spec.readCsv. intros Hl Hne. induction lines as [|vs lines IH]; [congruence|].
  inversion Hne as [|? ? Hvs Hne']; subst. destruct lines as [|vs' lines].
  - cbn [map join]. rewrite <- (append_nil_r (join "," _)).
    rewrite readCsvFrom_line by auto. cbn.
    rewrite addLine_fresh by (destruct vs; [congruence|discriminate]).
    rewrite app_nil_r. reflexivity.
  - change (join (String LF "") (map _ (vs :: vs' :: lines)))
      with (join "," (map Spec.csvField vs) +:+ String LF "" +:+
            join (String LF "") (map (fun vs => join "," (map Spec.csvField vs)) (vs' :: lines))).
    rewrite append_cons, append_nil_l.
    rewrite readCsvFrom_line by auto. cbn [Spec.readCsvFrom].
    replace (Ascii.eqb LF dquote) with false by reflexivity.
    replace (Ascii.eqb LF ",") with false by reflexivity.
    rewrite Ascii.eqb_refl, IH by (auto; discriminate).
    unfold fmap, option_fmap, option_map, Spec.newRecord.
    rewrite addLine_fresh by (destruct vs; [congruence|discriminate]).
    rewrite app_nil_r. reflexivity.
Qed.

Lemma csvField_plain h : Spec.plainText h = true -> Spec.csvField (VStr h) = h.
Proof. unfold Spec.csvField. cbn [Spec.fieldText toString]. now intros ->. Qed.

(** The text of rows reads back: the names, then for each row the texts of
    the values it holds under the names. *)
Lemma csvText_reads_back row0 (rows : list App.Row) :
  row0.*1 <> [] ->
  Forall (fun h => Spec.plainText h = true) row0.*1 ->
  Spec.readCsv (Spec.csvText (row0 :: rows)) =
    Some (row0.*1 ::
          map (fun row => map (fun h => Spec.fieldText (member h row)) row0.*1)
              (row0 :: rows)).
Proof.
  intros Hh Hplain. unfold Spec.csvText, Spec.csvLine.
  set (hs := row0.*1) in *.
  assert (E : join "," hs ::
              map (fun row : App.Row =>
                     join "," (map (fun h => Spec.csvField (member h row)) hs))
                  (row0 :: rows) =
              map (fun vs => join "," (map Spec.csvField vs))
                  (map VStr hs :: map (fun row => map (fun h => member h row) hs)
                                      (row0 :: rows))).
  { cbn [map]. f_equal.
    - f_equal. clear Hh. induction Hplain as [|h l Hp _ IH]; [reflexivity|].
      cbn [map]. rewrite csvField_plain by exact Hp. f_equal. exact IH.
    - rewrite !map_map. f_equal.
      apply map_ext. intros row. rewrite map_map. reflexivity. }
  rewrite E, readCsv_lines.
  - f_equal. cbn [map]. f_equal.
    + rewrite map_map. cbn [Spec.fieldText toString]. apply map_id.
    + rewrite !map_map. f_equal.
      apply map_ext. intros row. rewrite map_map. reflexivity.
  - discriminate.
  - constructor; [destruct hs; [congruence|discriminate]|].
    apply List.Forall_forall. intros vs Hin. apply in_map_iff in Hin.
    destruct Hin as (row & <- & _). destruct hs; [congruence|discriminate].
Qed.

(** *** What [toCSV] writes *)

Lemma doubled_replaceAll s :
  replaceAll dquote (String dquote (String dquote "")) s = Spec.doubled s.
Proof.
  induction s as [|c s IH]; [reflexivity|].
  cbn [replaceAll Spec.doubled]. destruct (Ascii.eqb c dquote); rewrite IH; reflexivity.
Qed.

Lemma quoted_text s :
  App.quoted s =
  if Spec.plainText s then s else String dquote (Spec.doubled s +:+ String dquote "").
Proof.
  unfold App.quoted, Spec.plainText. rewrite doubled_replaceAll.
  destruct (includes "," s || includes dquote s || includes LF s); reflexivity.
Qed.

Lemma escape_Return v : converts v = true -> App.escape v = Return (Spec.csvField v).
Proof.
  intros Hc. unfold Spec.csvField. cbv zeta.
  destruct v; try reflexivity; cbn [App.escape Spec.fieldText];
    rewrite ToString_Return by exact Hc; cbn [mbind Completion_bind];
    now rewrite quoted_text.
Qed.

Lemma escape_Throw v : converts v = false -> App.escape v = Throw "TypeError" noPrimitive.
Proof.
  intros Hc. destruct v; try discriminate Hc; cbn [App.escape];
    now rewrite ToString_Throw by exact Hc.
Qed.

Lemma lookupField_absent h row : hasOwn h row = false -> lookupField h row = VUndef.
Proof.
  unfold hasOwn. induction row as [|[k v] row IH]; [reflexivity|].
  cbn [existsb lookupField fst]. destruct (String.eqb k h); [discriminate|exact IH].
Qed.

(** What a row gives under a name: its own property where it has one, and
    nothing where the name is not that of a member of [Object.prototype]. *)
Lemma member_own h row : hasOwn h row = true -> member h row = lookupField h row.
Proof. unfold member. now intros ->. Qed.

Lemma member_lookupField h row : inheritedText h = None -> member h row = lookupField h row.
Proof.
  intros Hh. unfold member. rewrite Hh.
  destruct (hasOwn h row) eqn:Hown; [reflexivity|].
  now rewrite (lookupField_absent _ _ Hown).
Qed.

Lemma toCSV_line_Return names row :
  forallb (fun h => converts (member h row)) names = true ->
  (cells ← mapM (fun h => App.escape (member h row)) names; Return (join "," cells)) =
  Return (Spec.csvLine names row).
Proof.
  intros Hc. unfold Spec.csvLine.
  rewrite (mapM_total _ (fun h => Spec.csvField (member h row))); [reflexivity|].
  apply List.Forall_forall. intros h Hin.
  rewrite forallb_forall in Hc. apply escape_Return. now apply Hc.
Qed.

(** Where every cell converts, [toCSV] writes the text of the rows. *)
Lemma toCSV_Return (rows : list App.Row) :
  Spec.cellsConvert (match rows with [] => [] | row0 :: _ => row0.*1 end) rows = true ->
  App.toCSV rows = Return (Spec.csvText rows).
Proof.
  destruct rows as [|row0 rows]; [reflexivity|]. intros Hc.
  unfold App.toCSV, Spec.csvText.
  rewrite (mapM_total _ (Spec.csvLine row0.*1)); [reflexivity|].
  apply List.Forall_forall. intros row Hin. apply toCSV_line_Return.
  unfold Spec.cellsConvert in Hc. rewrite forallb_forall in Hc. now apply Hc.
Qed.

(** [toCSV] returns exactly when every cell converts, and fails with one
    TypeError otherwise. *)
Lemma toCSV_cases (rows : list App.Row) :
  let names := match rows with [] => [] | row0 :: _ => row0.*1 end in
  (exists text, App.toCSV rows = Return text) /\ Spec.cellsConvert names rows = true \/
  App.toCSV rows = Throw "TypeError" noPrimitive /\ Spec.cellsConvert names rows = false.
Proof.
  cbv zeta. destruct rows as [|row0 rows]; [left; split; [eexists|]; reflexivity|].
  set (names := row0.*1).
  assert (Hline : forall row,
            (exists line, (cells ← mapM (fun h => App.escape (member h row)) names;
                           Return (join "," cells)) = Return line) /\
            forallb (fun h => converts (member h row)) names = true \/
            (cells ← mapM (fun h => App.escape (member h row)) names;
             Return (join "," cells)) =
              Throw "TypeError" noPrimitive /\
            forallb (fun h => converts (member h row)) names = false).
  { intros row. induction names as [|h names IH].
    - left. split; [eexists|]; reflexivity.
    - cbn [mapM forallb].
      destruct (converts (member h row)) eqn:Hc; cbn [andb].
      + rewrite (escape_Return _ Hc). cbn [mbind Completion_bind].
        fold (mapM (fun h => App.escape (member h row)) names).
        destruct IH as [[(line & E) ->]|[E ->]].
        * left. split; [|reflexivity].
          destruct (mapM (fun h => App.escape (member h row)) names); [|discriminate E].
          eexists. reflexivity.
        * right. split; [|reflexivity].
          destruct (mapM (fun h => App.escape (member h row)) names); [discriminate E|].
          cbn in E |- *. exact E.
      + rewrite (escape_Throw _ Hc). right. split; reflexivity. }
  unfold App.toCSV. fold names. unfold Spec.cellsConvert.
  induction (row0 :: rows) as [|row l IH].
  - left. split; [eexists|]; reflexivity.
  - cbn [mapM forallb].
    destruct (Hline row) as [[(line & ->) ->]|[-> ->]];
      cbn [mbind Completion_bind andb]; [|right; split; reflexivity].
    fold (mapM (fun row => cells ← mapM (fun h => App.escape (member h row)) names;
                           Return (join "," cells)) l).
    destruct IH as [[(text & E) ->]|[E ->]].
    + left. split; [|reflexivity].
      destruct (mapM _ l); [|discriminate E]. eexists. reflexivity.
    + right. split; [|reflexivity].
      destruct (mapM _ l); [discriminate E|]. cbn in E |- *. exact E.
Qed.

End CsvFacts.

(** ** The projection of the data routes *)

Section ProjectionFacts.
Import Node Js Http.

Lemma falsy_str s : negb (truthy (VStr s)) = false <-> s <> "".
Proof. cbn [truthy]. rewrite negb_involutive. apply String.eqb_neq. Qed.

Lemma projectCsv_projectJson : App.projectCsv = App.projectJson.
Proof. reflexivity. Qed.

(** The projection of a record that is there: fourteen properties copied,
    then the summary of the addresses. *)
Lemma projectJson_defined c :
  c <> VNull -> c <> VUndef ->
  App.projectJson c =
  (addresses ← App.formatAddresses (field c "addresses");
   Return (Spec.projection c addresses)).
Proof. intros Hn Hu. destruct c; try congruence; reflexivity. Qed.

Lemma projectJson_null c :
  c = VNull \/ c = VUndef -> exists m, App.projectJson c = Throw "TypeError" m.
Proof. intros [->| ->]; eexists; reflexivity. Qed.

Lemma projectJson_Return c row :
  App.projectJson c = Return row ->
  c <> VNull /\ c <> VUndef /\
  exists addresses,
    App.formatAddresses (field c "addresses") = Return addresses /\
    row = Spec.projection c addresses.
Proof.
  intros H.
  assert (Hn : c <> VNull) by (intros ->; discriminate H).
  assert (Hu : c <> VUndef) by (intros ->; discriminate H).
  split; [exact Hn|]. split; [exact Hu|].
  rewrite (projectJson_defined c Hn Hu) in H.
  destruct (App.formatAddresses (field c "addresses")) as [addresses|];
    cbn [mbind Completion_bind] in H; [|discriminate].
  exists addresses. split; [reflexivity|]. now apply Return_inj in H.
Qed.

Lemma projectJson_keys c row :
  App.projectJson c = Return row -> row.*1 = Spec.customerKeys.
Proof.
  intros H. apply projectJson_Return in H.
  destruct H as (_ & _ & addresses & _ & ->). reflexivity.
Qed.

(** Addresses that are truthy and no array have no [map]. *)
Lemma formatAddresses_not_array a :
  truthy a = true -> (forall xs, a <> VArr xs) ->
  App.formatAddresses a = Throw "TypeError" (App.notAFunction "(addresses || []).map").
Proof.
  intros Ht Ha. unfold App.formatAddresses, or.
  destruct a as [| |b|r|s|xs|fs]; try discriminate Ht.
  - now rewrite Ht.
  - now rewrite Ht.
  - now rewrite Ht.
  - now destruct (Ha xs).
  - reflexivity.
Qed.

Lemma projectJson_Throw c :
  c = VNull \/ c = VUndef \/
  (truthy (field c "addresses") = true /\ forall xs, field c "addresses" <> VArr xs) ->
  exists n m, App.projectJson c = Throw n m.
Proof.
  intros [->|[->|[Ht Ha]]]; [cbn; eauto..|].
  assert (Hn : c <> VNull) by (intros ->; discriminate Ht).
  assert (Hu : c <> VUndef) by (intros ->; discriminate Ht).
  rewrite (projectJson_defined c Hn Hu), (formatAddresses_not_array _ Ht Ha).
  cbn. eauto.
Qed.

(** The rows of a reply are the projections of its records, one by one. *)
Lemma mapCustomers_Return data rows :
  App.mapCustomers App.projectJson data = Return rows ->
  exists cs,
    Spec.records data = Return (VArr cs) /\
    Forall2 (fun c row => App.projectJson c = Return row) cs rows.
Proof.
  unfold App.mapCustomers, Spec.records.
  destruct (getProp data "customers") as [customers|]; cbn [mbind Completion_bind];
    [|discriminate].
  destruct (or customers (VArr [])) as [| | | | |cs|]; try discriminate.
  intros H. exists cs. split; [reflexivity|]. now apply mapM_Return.
Qed.

Lemma mapCustomers_records data cs :
  Spec.records data = Return (VArr cs) ->
  App.mapCustomers App.projectJson data = mapM App.projectJson cs.
Proof.
  unfold App.mapCustomers, Spec.records.
  destruct (getProp data "customers") as [customers|]; cbn [mbind Completion_bind];
    [|discriminate].
  intros H. apply Return_inj in H. now rewrite H.
Qed.

Lemma mapCustomers_keys data rows :
  App.mapCustomers App.projectJson data = Return rows ->
  Forall (fun row : App.Row => row.*1 = Spec.customerKeys) rows.
Proof.
  intros H. apply mapCustomers_Return in H. destruct H as (cs & _ & H).
  induction H as [|c row cs' rows' Hc HF IH]; constructor; auto.
  now apply projectJson_keys in Hc.
Qed.

Lemma map_VObj_inj (rows rows' : list App.Row) : map VObj rows = map VObj rows' -> rows = rows'.
Proof.
  revert rows'. induction rows as [|r rows IH]; intros [|r' rows']; cbn; try discriminate; auto.
  intros [= -> E]. f_equal; auto.
Qed.

(** What [/customers.csv] does where [/customers] serves rows. *)
Lemma customers_served remote req tokens rows :
  let shop := trim (toString (or (getParam (query req) "shop") (VStr ""))) in
  reply (App.customers remote req tokens) =
    Send 200 [] (Json (VObj [("customers", VArr (map VObj rows))])) ->
  exists status json,
    remote = Responds status json /\ ok status = true /\
    shop <> "" /\ truthy (Map_get tokens (VStr shop)) = true /\
    App.mapCustomers App.projectJson (App.jsonOrEmpty json) = Return rows /\
    reply (App.customersCsv remote req tokens) =
      match App.toCSV rows with
      | Throw n m => Rejected n m
      | Return csv =>
          if validHeaderValue (Spec.disposition shop)
          then Send 200 (Spec.csvHeaders shop) (Text csv)
          else Rejected "TypeError" (invalidHeader "Content-Disposition")
      end.
Proof.
  cbv zeta. unfold App.customers, App.customersCsv. rewrite projectCsv_projectJson.
  set (shop := trim (toString (or (getParam (query req) "shop") (VStr "")))).
  destruct (negb (truthy (VStr shop))) eqn:Hshop; [discriminate|].
  destruct (negb (truthy (Map_get tokens (VStr shop)))) eqn:Htok; [discriminate|].
  destruct remote as [n m|status json]; [discriminate|].
  destruct (ok status) eqn:Hok; cbn [negb].
  2: { cbn [reply]. discriminate. }
  destruct (App.mapCustomers App.projectJson (App.jsonOrEmpty json)) as [served|] eqn:Hm;
    cbn [reply]; [|discriminate].
  intros [= E]. apply map_VObj_inj in E. subst served.
  exists status, json. split; [reflexivity|]. split; [exact Hok|].
  split; [now apply falsy_str|]. split; [now apply negb_false_iff in Htok|].
  split; [exact Hm|].
  fold (Spec.disposition shop).
  destruct (App.toCSV rows); [|reflexivity].
  destruct (validHeaderValue (Spec.disposition shop)); reflexivity.
Qed.

(** The other way round: a CSV text served is that of rows [/customers]
    serves. *)
Lemma csv_served remote req tokens headers csv :
  reply (App.customersCsv remote req tokens) = Send 200 headers (Text csv) ->
  exists rows,
    reply (App.customers remote req tokens) =
      Send 200 [] (Json (VObj [("customers", VArr (map VObj rows))])) /\
    App.toCSV rows = Return csv.
Proof.
  unfold App.customers, App.customersCsv. rewrite projectCsv_projectJson.
  set (shop := trim (toString (or (getParam (query req) "shop") (VStr "")))).
  destruct (negb (truthy (VStr shop))) eqn:Hshop; [discriminate|].
  destruct (negb (truthy (Map_get tokens (VStr shop)))) eqn:Htok; [discriminate|].
  destruct remote as [n m|status json]; [discriminate|].
  destruct (ok status) eqn:Hok; cbn [negb].
  2: { cbn [reply]. intros [= -> _ _]. discriminate Hok. }
  destruct (App.mapCustomers App.projectJson (App.jsonOrEmpty json)) as [served|] eqn:Hm;
    cbn [reply]; [|discriminate].
  destruct (App.toCSV served) as [text|] eqn:Ht; cbn [reply]; [|discriminate].
  destruct (validHeaderValue _); cbn [negb reply]; [|discriminate].
  intros [= _ <-]. exists served. split; [reflexivity|exact Ht].
Qed.

(** The two routes end by the same exception. *)
Lemma customers_rejected remote req tokens n m :
  reply (App.customers remote req tokens) = Rejected n m ->
  reply (App.customersCsv remote req tokens) = Rejected n m.
Proof.
  unfold App.customers, App.customersCsv. rewrite projectCsv_projectJson.
  repeat branch; cbn [reply]; try discriminate; auto.
Qed.

End ProjectionFacts.

(* ===================================================================== *)
(** * The claims                                                          *)
(* ===================================================================== *)

Section Claims.
Import Node Js Http.

(** ** C1: the exchange is gated by both checks *)

(** In the validating server the exchange is issued only after both checks,
    and a check that fails (the state check, or [verifyHmac] returning
    false) gives a 400-class response without the exchange. *)
Lemma App_callback_checks cfg remote req tokens :
  let r := App.callback cfg remote req tokens in
  (Spec.exchangeIssued r ->
   Spec.stateValid req = true /\ App.verifyHmac cfg (query req) = Return true) /\
  (Spec.stateValid req = false \/ App.verifyHmac cfg (query req) = Return false ->
   Spec.clientError (reply r) /\ ~ Spec.exchangeIssued r /\ TOKENS r = tokens).
Proof.
  split; [apply App_callback_gate|].
  intros H.
  assert (Hres : effects (App.callback cfg remote req tokens) = [] /\
                 Spec.clientError (reply (App.callback cfg remote req tokens)) /\
                 TOKENS (App.callback cfg remote req tokens) = tokens).
  { destruct H as [H|H].
    - now apply App_callback_bad_state.
    - now apply App_callback_bad_hmac. }
  destruct Hres as (He & Hc & Ht). repeat split; auto.
  unfold Spec.exchangeIssued. rewrite He. intros (? & ? & ? & []).
Qed.

(** C1, src/server.js: a callback whose state matches its cookie but which
    carries no [hmac] parameter, or one of the wrong length, makes [verifyHmac]
    throw; the handler then ends by that exception and writes no 400-class
    response (nor issues the exchange), where the validating server answers
    400 to the same request. *)
Theorem C1_server_callback_throws_on_bad_signature rt remote tokens :
  let unsigned := Spec.callbackRequest None in
  let short := Spec.callbackRequest (Some (PStr "abc")) in
  Spec.stateValid unsigned = true /\
  Server.callback rt Spec.cfg remote unsigned tokens =
    mkResult [] (Rejected "TypeError" (Server.invalidArg VUndef)) tokens /\
  Server.callback rt Spec.cfg remote short tokens =
    mkResult [] (Rejected "RangeError" "Input buffers must have the same byte length") tokens /\
  App.callback Spec.cfg remote unsigned tokens =
    mkResult [] (Send 400 [] (Text "HMAC verification failed.")) tokens /\
  App.callback Spec.cfg remote short tokens =
    mkResult [] (Send 400 [] (Text "HMAC verification failed.")) tokens.
Proof.
  cbv zeta. split; [reflexivity|].
  split.
  { unfold Server.callback.
    rewrite (Server_verifyHmac_absent rt Spec.cfg (query (Spec.callbackRequest None)))
      by (vm_compute; reflexivity).
    reflexivity. }
  split.
  { unfold Server.callback.
    rewrite (Server_verifyHmac_wrong_length
               rt Spec.cfg (query (Spec.callbackRequest (Some (PStr "abc")))) "abc")
      by first [vm_compute; reflexivity | vm_compute; lia].
    reflexivity. }
  split; vm_compute; reflexivity.
Qed.

(** ** C2: the canonical message *)

(** In [src/server.js], [verifyHmac] removes [hmac] only, so a [signature]
    parameter is signed with the rest: for [{a: "1", signature: "x"}] the
    message is [a=1&signature=x], and the digest of [a=1] is refused, where
    the validating server accepts it. *)
Lemma Server_hmacMessage_keeps_signature rt :
  Server.hmacMessage Spec.withSignature = "a=1&signature=x" /\
  Server.verifyHmac rt Spec.cfg Spec.withSignature = Return false /\
  App.hmacMessage Spec.withSignature = "a=1" /\
  App.verifyHmac Spec.cfg Spec.withSignature = Return true.
Proof. split; [|split; [|split]]; vm_compute; reflexivity. Qed.

Lemma messageConverts_golden h : App.messageConverts (Spec.golden h) = true.
Proof.
  unfold App.messageConverts, Spec.golden. rewrite delete_insert_eq. reflexivity.
Qed.

(** C2 as stated fails: [verifyHmac] returns true for a signature that is
    not the digest, the digest followed by other characters; the decoding
    reads the 64 digits and drops the rest. *)
Lemma C2_counterexample_suffix_accepted :
  Spec.goldenDigest +:+ "-tampered" <> createHmac_sha256_hex "shhh" "a=1&b=2" /\
  App.verifyHmac Spec.cfg (Spec.golden (PStr (Spec.goldenDigest +:+ "-tampered"))) = Return true.
Proof.
  split; [|vm_compute; reflexivity].
  intros H. vm_compute in H. discriminate H.
Qed.

(** C2, amended: for every query, the message that [verifyHmac] of the
    validating server signs is made of the parameters other than [hmac] and
    [signature], in strictly ascending key order, each as [key=value] with an
    array joined by commas, joined by [&] with nothing after the last pair;
    for the golden vector (secret [shhh], parameters [{a: "1", b: "2"}]) the
    message is [a=1&b=2], and [verifyHmac] returns true exactly when the
    [hmac] parameter is non-empty, converts to a string and decodes, as
    hexadecimal read from the left, to the HMAC-SHA256 digest of that
    message (a non-empty [hmac] that does not convert makes it throw a
    TypeError); the digest written in hexadecimal is accepted. *)
Theorem C2_canonical_message (q : params) (h : param) :
  (exists keys : list string,
     (forall k, k ∈ keys <-> is_Some (q !! k) /\ k <> "hmac" /\ k <> "signature") /\
     StronglySorted str_lt keys /\
     App.hmacMessage q = join "&" (map (Spec.pairText q) keys) /\
     (forall xs k, q !! k = Some (PArr xs) ->
                   Spec.pairText q k = k +:+ "=" +:+ joinValues "," (map val xs)) /\
     (forall keys' k, keys = keys' ++ [k] ->
                      exists before, App.hmacMessage q = before +:+ Spec.pairText q k)) /\
  App.hmacMessage (Spec.golden h) = "a=1&b=2" /\
  (App.verifyHmac Spec.cfg (Spec.golden h) = Return true <->
   truthy (val h) = true /\
   converts (val h) = true /\
   fromHex (toString (val h)) = hmac_sha256 (utf8 "shhh") (utf8 "a=1&b=2")) /\
  (truthy (val h) = true -> converts (val h) = false ->
   App.verifyHmac Spec.cfg (Spec.golden h) = Throw "TypeError" noPrimitive) /\
  createHmac_sha256_hex "shhh" "a=1&b=2" = Spec.goldenDigest /\
  App.verifyHmac Spec.cfg (Spec.golden (PStr Spec.goldenDigest)) = Return true.
Proof.
  split.
  { set (rest := delete "signature" (delete "hmac" q)).
    assert (Hrest : forall k, k ∈ sortedKeys rest -> getParam rest k = getParam q k).
    { intros k Hk. apply sortedKeys_elem in Hk. unfold getParam, rest in *.
      rewrite lookup_delete_is_Some in Hk. destruct Hk as [Hs Hk].
      rewrite lookup_delete_is_Some in Hk. destruct Hk as [Hh _].
      now rewrite !lookup_delete_ne by congruence. }
    assert (Hmsg : App.hmacMessage q = join "&" (map (Spec.pairText q) (sortedKeys rest))).
    { unfold App.hmacMessage. fold rest. f_equal.
      apply map_ext_in. intros k Hk. apply list_elem_of_In in Hk.
      unfold Spec.pairText. rewrite (Hrest k Hk).
      destruct (getParam q k); reflexivity. }
    exists (sortedKeys rest). repeat split.
    - apply sortedKeys_elem in H. unfold rest in H.
      rewrite !lookup_delete_is_Some in H. tauto.
    - apply sortedKeys_elem in H. unfold rest in H.
      rewrite !lookup_delete_is_Some in H. intros ->. tauto.
    - apply sortedKeys_elem in H. unfold rest in H.
      rewrite !lookup_delete_is_Some in H. intros ->. tauto.
    - intros (Hs & Hh & Hg). apply sortedKeys_elem. unfold rest.
      rewrite !lookup_delete_is_Some. auto.
    - apply sortedKeys_sorted.
    - exact Hmsg.
    - intros xs k Hk. unfold Spec.pairText, getParam. rewrite Hk. cbn [from_option val].
      now rewrite toString_array.
    - intros keys' k Hkeys. rewrite Hmsg, Hkeys, map_app. cbn [map].
      rewrite join_snoc. destruct (map (Spec.pairText q) keys') as [|p ps].
      + exists "". reflexivity.
      + eexists. rewrite <- append_assoc. reflexivity. }
  split; [apply hmacMessage_golden|].
  assert (Hh : getParam (Spec.golden h) "hmac" = val h)
    by (unfold getParam, Spec.golden; now rewrite lookup_insert_eq).
  split; [|split; [|split; vm_compute; reflexivity]].
  - rewrite App_verifyHmac_true, hmacMessage_golden, messageConverts_golden, Hh.
    cbn [SHOPIFY_API_SECRET Spec.cfg]. tauto.
  - intros Ht Hc. unfold App.verifyHmac.
    rewrite App_verifyHmacWith_spec, messageConverts_golden, Hh, Ht, Hc. reflexivity.
Qed.

Lemma C2_canonical_message_witness :
  (exists keys : list string,
     ("a" ∈ keys) /\ ("signature" ∉ keys) /\ ("hmac" ∉ keys) /\
     App.hmacMessage Spec.withSignature =
       join "&" (map (Spec.pairText Spec.withSignature) keys)) /\
  Spec.pairText (Spec.golden (PArr [PStr "x"; PStr "y"])) "hmac" = "hmac=x,y" /\
  App.verifyHmac
    Spec.cfg
    (Spec.golden (PStr "6A963707870B020AC6CEA4E67EB7D14A9F19782416F38BB6333A6EAF6BE453C3"))
  = Return true /\
  App.verifyHmac Spec.cfg (Spec.golden (PObj [("toString", PStr "x")])) =
    Throw "TypeError" noPrimitive.
Proof.
  split; [|split; [|split]].
  - destruct (C2_canonical_message Spec.withSignature (PStr ""))
      as ((keys & Hkeys & _ & Hmsg & _) & _).
    exists keys. split; [|split; [|split]].
    + apply Hkeys. split; [vm_compute; eauto|split; discriminate].
    + intros H. apply Hkeys in H as (_ & _ & H). now apply H.
    + intros H. apply Hkeys in H as (_ & H & _). now apply H.
    + exact Hmsg.
  - destruct (C2_canonical_message (Spec.golden (PArr [PStr "x"; PStr "y"])) (PStr ""))
      as ((keys & _ & _ & _ & Harr & _) & _).
    apply (Harr [PStr "x"; PStr "y"] "hmac"). reflexivity.
  - destruct (C2_canonical_message
                ∅ (PStr "6A963707870B020AC6CEA4E67EB7D14A9F19782416F38BB6333A6EAF6BE453C3"))
      as (_ & _ & Hiff & _).
    apply Hiff. split; [|split]; vm_compute; reflexivity.
  - destruct (C2_canonical_message ∅ (PObj [("toString", PStr "x")]))
      as (_ & _ & _ & Hthrow & _).
    apply Hthrow; reflexivity.
Defined.

(** ** C3: when [verifyHmac] returns false and when it throws *)

(** C3 as stated fails: a signature made of the 64 digits of the right digest
    followed by characters that are no hexadecimal digits is malformed, yet
    it is accepted, because decoding stops at the first pair that is not
    hexadecimal and keeps what it has read. *)
Lemma C3_counterexample_trailing_characters :
  Spec.isHex (Spec.goldenDigest +:+ "zz") = false /\
  App.verifyHmac Spec.cfg (Spec.golden (PStr (Spec.goldenDigest +:+ "zz"))) = Return true.
Proof. split; vm_compute; reflexivity. Qed.

(** Nor is [verifyHmac] total: a signature, or another parameter, that is an
    object with a [toString] property of its own ([hmac[toString]=x]) makes
    the conversion throw, and so does a secret that is not set, for any
    signature that is not empty. *)
Lemma verifyHmac_throws :
  App.verifyHmac Spec.cfg (Spec.golden (PObj [("toString", PStr "x")])) =
    Throw "TypeError" noPrimitive /\
  App.verifyHmac Spec.cfg
    (<["c" := PObj [("toString", PStr "x")]]> (Spec.golden (PStr Spec.goldenDigest))) =
    Throw "TypeError" noPrimitive /\
  (exists m, App.verifyHmacWith None (Spec.golden (PStr Spec.goldenDigest)) =
             Throw "TypeError" m).
Proof.
  split; [|split]; [vm_compute; reflexivity..|].
  eexists. vm_compute. reflexivity.
Qed.

(** C3, amended: [verifyHmac] of the validating server returns false, before
    it computes anything, when the [hmac] parameter is absent or empty.  For
    any other signature it returns exactly when the secret is set and the
    signature and the parameters of the message convert to strings, and
    throws a TypeError otherwise; where it returns, it returns false when the
    signature is shorter than 64 characters or has a character that is no
    hexadecimal digit among its first 64, and whenever it decodes to a length
    other than the 32 bytes of the digest: the comparison never throws. *)
Theorem C3_verifyHmac_guards (secret : option string) (q : params) :
  let hmac := getParam q "hmac" in
  (q !! "hmac" = None -> App.verifyHmacWith secret q = Return false) /\
  (truthy hmac = false -> App.verifyHmacWith secret q = Return false) /\
  ((exists b, App.verifyHmacWith secret q = Return b) <->
   truthy hmac = false \/
   (App.messageConverts q = true /\ converts hmac = true /\ exists key, secret = Some key)) /\
  (forall n m, App.verifyHmacWith secret q = Throw n m -> n = "TypeError") /\
  (forall key,
     secret = Some key -> App.messageConverts q = true -> converts hmac = true ->
     ((String.length (toString hmac) < 64)%nat \/
      Spec.isHex (String.substring 0 64 (toString hmac)) = false ->
      App.verifyHmacWith secret q = Return false) /\
     (length (fromHex (toString hmac)) <>
      length (hmac_sha256 (utf8 key) (utf8 (App.hmacMessage q))) ->
      App.verifyHmacWith secret q = Return false)).
Proof.
  cbv zeta. split; [|split; [|split; [|split]]].
  - intros H. apply App_verifyHmacWith_falsy. unfold getParam. now rewrite H.
  - apply App_verifyHmacWith_falsy.
  - rewrite App_verifyHmacWith_spec.
    destruct (truthy (getParam q "hmac")); cbn [negb]; [|split; eauto].
    destruct (App.messageConverts q); cbn [negb].
    + destruct secret as [key|]; cbn [createHmacKey mbind Completion_bind].
      * destruct (converts (getParam q "hmac")); cbn [negb].
        -- split; eauto 6.
        -- split; [intros [b [=]]|intros [[=]|(_ & [=] & _)]].
      * split; [intros [b [=]]|intros [[=]|(_ & _ & key & [=])]].
    + split; [intros [b [=]]|intros [[=]|([=] & _)]].
  - intros n m. rewrite App_verifyHmacWith_spec.
    destruct (truthy (getParam q "hmac")); cbn [negb]; [|discriminate].
    destruct (App.messageConverts q); cbn [negb]; [|now intros [= <- _]].
    destruct secret as [key|]; cbn [createHmacKey mbind Completion_bind];
      [|now intros [= <- _]].
    destruct (converts (getParam q "hmac")); cbn [negb]; [discriminate|now intros [= <- _]].
  - intros key -> Hm Hh.
    assert (Hlen : length (fromHex (toString (getParam q "hmac"))) <> 32%nat ->
                   App.verifyHmacWith (Some key) q = Return false).
    { intros H. rewrite App_verifyHmacWith_spec, Hm, Hh.
      cbn [negb createHmacKey mbind Completion_bind].
      destruct (truthy (getParam q "hmac")); cbn [negb]; [|reflexivity].
      f_equal. apply bool_decide_eq_false. intros E. apply H.
      rewrite E. apply hmac_sha256_length. }
    split.
    + intros H. apply fromHex_malformed in H. apply Hlen. lia.
    + rewrite hmac_sha256_length. exact Hlen.
Qed.

Lemma C3_verifyHmac_guards_witness :
  App.verifyHmac Spec.cfg (query (Spec.callbackRequest None)) = Return false /\
  App.verifyHmacWith None (Spec.golden (PStr "")) = Return false /\
  (exists b, App.verifyHmac Spec.cfg (Spec.golden (PArr [PStr "6a96"; PObj []])) = Return b) /\
  App.verifyHmac Spec.cfg (Spec.golden (PStr "6a96zz07")) = Return false /\
  App.verifyHmac Spec.cfg (Spec.golden (PStr "6a963707")) = Return false.
Proof.
  split; [|split; [|split; [|split]]].
  - destruct (C3_verifyHmac_guards (Some "shhh") (query (Spec.callbackRequest None)))
      as (Habsent & _).
    apply Habsent. reflexivity.
  - destruct (C3_verifyHmac_guards None (Spec.golden (PStr "")))
      as (_ & Hempty & _).
    apply Hempty. reflexivity.
  - destruct (C3_verifyHmac_guards (Some "shhh") (Spec.golden (PArr [PStr "6a96"; PObj []])))
      as (_ & _ & Hiff & _).
    apply Hiff. right. split; [apply messageConverts_golden|]. split; [reflexivity|eauto].
  - destruct (C3_verifyHmac_guards (Some "shhh") (Spec.golden (PStr "6a96zz07")))
      as (_ & _ & _ & _ & H).
    destruct (H "shhh" eq_refl (messageConverts_golden _) eq_refl) as [Hmalformed _].
    apply Hmalformed. right. reflexivity.
  - destruct (C3_verifyHmac_guards (Some "shhh") (Spec.golden (PStr "6a963707")))
      as (_ & _ & _ & _ & H).
    destruct (H "shhh" eq_refl (messageConverts_golden _) eq_refl) as [_ Hlength].
    apply Hlength. rewrite hmac_sha256_length. vm_compute. lia.
Defined.

(** ** C4: the shop is validated before the cookie and the redirect *)

Lemma skipClass_split s :
  exists p, s = p +:+ App.skipClass s /\
            Forall (fun d => App.alnumDash d = true) (String.list_ascii_of_string p).
Proof.
  induction s as [|c s (p & Hs & Hp)].
  - exists "". split; [reflexivity|constructor].
  - cbn [App.skipClass]. destruct (App.alnumDash c) eqn:Hc.
    + exists (String c p). split.
      * rewrite append_cons. now f_equal.
      * cbn [String.list_ascii_of_string]. now constructor.
    + exists "". split; [reflexivity|constructor].
Qed.

Lemma skipClass_app p rest :
  Forall (fun d => App.alnumDash d = true) (String.list_ascii_of_string p) ->
  App.skipClass rest = rest ->
  App.skipClass (p +:+ rest) = rest.
Proof.
  intros Hp Hrest. induction p as [|c p IH]; [exact Hrest|].
  cbn [String.list_ascii_of_string] in Hp. apply Forall_cons in Hp as [Hc Hp].
  rewrite append_cons. cbn [App.skipClass]. rewrite Hc. auto.
Qed.

(** The scanner [shopPattern] decides the language of the regular
    expression. *)
Lemma shopPattern_spec s : App.shopPattern s = true <-> Spec.matchesShop s.
Proof.
  unfold Spec.matchesShop. split.
  - destruct s as [|c s]; [discriminate|]. cbn [App.shopPattern].
    intros H. apply andb_true_iff in H as [Hc Hs]. apply String.eqb_eq in Hs.
    destruct (skipClass_split s) as (p & Hsplit & Hp).
    exists c, p. rewrite Hs in Hsplit. split; [now f_equal|split; assumption].
  - intros (c & p & -> & Hc & Hp). cbn [App.shopPattern]. rewrite Hc. cbn [andb].
    apply String.eqb_eq. now apply skipClass_app.
Qed.

(** C4 as stated fails: white space around the shop parameter is trimmed
    before the test, so a parameter that does not match the pattern itself,
    such as [" foo.myshopify.com"], gets its cookie and its redirect. *)
Lemma C4_counterexample_padded_shop :
  ~ Spec.matchesShop " foo.myshopify.com" /\
  App.auth Spec.cfg Spec.random16 (Spec.authRequest " foo.myshopify.com") [] =
  mkResult
    [SetCookie "shopify_oauth_state" "000102030405060708090a0b0c0d0e0f" true true (Some "none")]
    (Redirect "https://foo.myshopify.com/admin/oauth/authorize?client_id=key&scope=read_customers&redirect_uri=https%3A%2F%2Fagent.example%2Fauth%2Fcallback&state=000102030405060708090a0b0c0d0e0f")
    [].
Proof.
  split; [|vm_compute; reflexivity].
  intros H. apply shopPattern_spec in H. vm_compute in H. discriminate H.
Qed.

(** In [src/server.js] the shop is not validated at all: any non-empty shop
    gets the cookie and the redirect. *)
Lemma Server_auth_no_validation :
  Server.auth Spec.cfg Spec.random16 (Spec.authRequest "not-a-shop") [] =
  mkResult
    [SetCookie "shopify_oauth_state" "000102030405060708090a0b0c0d0e0f" true false None]
    (Redirect "https://not-a-shop/admin/oauth/authorize?client_id=key&scope=read_customers&redirect_uri=https%3A%2F%2Fagent.example%2Fauth%2Fcallback&state=000102030405060708090a0b0c0d0e0f")
    [].
Proof. vm_compute. reflexivity. Qed.

(** [x || ""] is neither [undefined] nor [null]. *)
Lemma or_defined v s : or v (VStr s) <> VUndef /\ or v (VStr s) <> VNull.
Proof.
  unfold or. destruct (truthy v) eqn:E; [|split; discriminate].
  destruct v; try discriminate E; split; discriminate.
Qed.

(** C4, amended: in the validating server, a [GET /auth] whose shop
    parameter converts to a string that, trimmed of surrounding white space,
    does not match [^[A-Za-z0-9][A-Za-z0-9-]*\.myshopify\.com$] (an absent or
    empty one included) is answered with 400, and neither a cookie is set nor
    a redirect built or issued; a shop parameter that does not convert (an
    object with a [toString] property of its own) makes the handler throw a
    TypeError, before any cookie or redirect as well; so a cookie is set or a
    redirect issued only for a shop that converts and, once trimmed, matches
    the pattern. *)
Theorem C4_auth_rejects_invalid_shop cfg random16 req tokens :
  let p := or (getParam (query req) "shop") (VStr "") in
  let r := App.auth cfg random16 req tokens in
  (converts p = true -> ~ Spec.matchesShop (trim (toString p)) ->
   effects r = [] /\
   (exists message, reply r = Send 400 [] (Text message)) /\
   TOKENS r = tokens) /\
  (converts p = false ->
   effects r = [] /\
   (exists message, reply r = Rejected "TypeError" message) /\
   TOKENS r = tokens) /\
  (effects r <> [] \/ (exists location, reply r = Redirect location) ->
   converts p = true /\ Spec.matchesShop (trim (toString p))).
Proof.
  cbv zeta.
  assert (Hp : or (getParam (query req) "shop") (VStr "") <> VUndef /\
               or (getParam (query req) "shop") (VStr "") <> VNull).
  { apply or_defined. }
  destruct Hp as [Hu Hn]. unfold App.auth.
  destruct (converts (or (getParam (query req) "shop") (VStr ""))) eqn:Hc.
  - rewrite (callToString_Return _ _ Hu Hn Hc).
    split; [|split; [discriminate|]].
    + intros _ H.
      destruct (negb (truthy (VStr _))); cbn; [eauto|].
      destruct (App.shopPattern _) eqn:E; cbn; [|eauto].
      apply shopPattern_spec in E. contradiction.
    + intros H. split; [reflexivity|].
      destruct (negb (truthy (VStr _))); cbn in H;
        [destruct H as [H|[l [=]]]; congruence|].
      destruct (App.shopPattern _) eqn:E; cbn in H;
        [now apply shopPattern_spec|destruct H as [H|[l [=]]]; congruence].
  - destruct (callToString_Throw App.shopOrEmpty _ Hc) as [m ->].
    split; [discriminate|]. split; [cbn; eauto|].
    cbn. intros [H|[l [=]]]. congruence.
Qed.

Lemma C4_auth_rejects_invalid_shop_witness :
  (let r := App.auth Spec.cfg Spec.random16 (Spec.authRequest "not-a-shop") [] in
   effects r = [] /\
   (exists message, reply r = Send 400 [] (Text message)) /\
   TOKENS r = []) /\
  (let r := App.auth Spec.cfg Spec.random16
                     (mkRequest {[ "shop" := PObj [("toString", PStr "x")] ]} ∅) [] in
   effects r = [] /\
   (exists message, reply r = Rejected "TypeError" message) /\
   TOKENS r = []).
Proof.
  split.
  - apply (C4_auth_rejects_invalid_shop Spec.cfg Spec.random16 (Spec.authRequest "not-a-shop") []).
    + reflexivity.
    + intros H. apply shopPattern_spec in H. vm_compute in H. discriminate H.
  - apply (C4_auth_rejects_invalid_shop
             Spec.cfg Spec.random16
             (mkRequest {[ "shop" := PObj [("toString", PStr "x")] ]} ∅) []).
    reflexivity.
Defined.

(** ** C5: state validation *)

Lemma strictEq_eq a b : strictEq a b = true -> a = b.
Proof.
  destruct a, b; cbn; try discriminate; try reflexivity.
  - intros H. apply Bool.eqb_prop in H. now subst.
  - intros H. apply andb_true_iff in H as [H _]. apply String.eqb_eq in H. now subst.
  - intros H. apply String.eqb_eq in H. now subst.
Qed.

(** C5: the state check of the callback passes only when the cookie and the
    [state] parameter are both present and are one and the same non-empty
    string; when the cookie is absent or the two differ the check fails, and
    a failed check is answered with 400 (in both servers), nothing else
    done. *)
Theorem C5_state_validation :
  (forall req,
     Spec.stateValid req = true <->
     exists s, s <> "" /\
               cookies req !! "shopify_oauth_state" = Some (VStr s) /\
               query req !! "state" = Some (PStr s)) /\
  (forall req, cookies req !! "shopify_oauth_state" = None -> Spec.stateValid req = false) /\
  (forall req,
     get (cookies req) "shopify_oauth_state" <> getParam (query req) "state" ->
     Spec.stateValid req = false) /\
  (forall cfg remote req tokens,
     Spec.stateValid req = false ->
     let r := App.callback cfg remote req tokens in
     effects r = [] /\ Spec.clientError (reply r) /\ TOKENS r = tokens) /\
  (forall rt cfg remote req tokens,
     Spec.stateValid req = false ->
     let r := Server.callback rt cfg remote req tokens in
     effects r = [] /\ Spec.clientError (reply r) /\ TOKENS r = tokens).
Proof.
  split; [|split; [|split; [|split]]].
  - intros req. unfold Spec.stateValid, get, getParam.
    destruct (cookies req !! "shopify_oauth_state") as [c|];
      destruct (query req !! "state") as [p|]; cbn [default from_option].
    + split.
      * intros H. apply negb_true_iff, orb_false_iff in H as [Ht He].
        apply negb_false_iff in Ht, He.
        destruct c, p; cbn in He; try discriminate.
        apply String.eqb_eq in He. subst s0. exists s. repeat split.
        intros ->. discriminate Ht.
      * intros (s & Hs & [= ->] & [= ->]). cbn.
        rewrite String.eqb_refl. destruct (String.eqb_spec s ""); [contradiction|reflexivity].
    + split; [|intros (s & _ & _ & [=])].
      intros H. exfalso. revert H. unfold id.
      destruct c; cbn; rewrite ?orb_true_r; discriminate.
    + split; [discriminate|intros (s & _ & [=] & _)].
    + split; [discriminate|intros (s & _ & [=] & _)].
  - intros req H. unfold Spec.stateValid, get. rewrite H. reflexivity.
  - intros req H. unfold Spec.stateValid.
    destruct (strictEq _ _) eqn:E; [apply strictEq_eq in E; contradiction|].
    now rewrite orb_true_r.
  - intros. now apply App_callback_bad_state.
  - intros. now apply Server_callback_bad_state.
Qed.

Lemma C5_state_validation_witness :
  Spec.stateValid Spec.signedCallback = true /\
  Spec.stateValid (mkRequest (query Spec.signedCallback) ∅) = false /\
  Spec.clientError
    (reply (App.callback Spec.cfg (Spec.grants "shpat_1")
                         (mkRequest (query Spec.signedCallback) ∅) [])) /\
  Spec.clientError
    (reply (Server.callback Spec.noObjects Spec.cfg (Spec.grants "shpat_1")
                            (mkRequest (query Spec.signedCallback) ∅) [])).
Proof.
  destruct C5_state_validation as (Hiff & Habsent & _ & Happ & Hserver).
  split; [|split; [|split]].
  - apply Hiff. exists "5ca1ab1e". split; [discriminate|]. split; reflexivity.
  - apply Habsent. reflexivity.
  - apply Happ. reflexivity.
  - apply Hserver. reflexivity.
Defined.

(** ** C6: the map holds only exchanged credentials *)

(** C6: in every state the servers reach from the empty map, an entry of
    [TOKENS] for a tenant comes from a callback of the history for that
    tenant that passed the signature check and whose token exchange was
    answered with a 2xx status and a readable body holding the stored
    credential; an exchange that fails (the call throws, the status is not
    2xx, or the body cannot be read) leaves the map of that request as it
    was. *)
Theorem C6_tokens_only_after_exchange cfg :
  (forall history k v,
     In (k, v) (App.serve cfg history) ->
     exists remote req,
       In (App.GetAuthCallback remote req) history /\
       Spec.exchangedFor (App.verifyHmac cfg) remote req k v) /\
  (forall rt history k v,
     In (k, v) (Server.serve rt cfg history) ->
     exists remote req,
       In (Server.GetAuthCallback remote req) history /\
       Spec.exchangedFor (Server.verifyHmac rt cfg) remote req k v) /\
  (forall remote req tokens,
     Spec.failedExchange remote ->
     TOKENS (App.callback cfg remote req tokens) = tokens) /\
  (forall rt remote req tokens,
     Spec.failedExchange remote ->
     TOKENS (Server.callback rt cfg remote req tokens) = tokens).
Proof.
  split; [|split; [|split]].
  - intros history k v H. unfold App.serve in H.
    apply (serve_invariant
             (fun tokens c => TOKENS (App.handle cfg c tokens))
             (fun c k v => match c with
                           | App.GetAuthCallback remote req =>
                               Spec.exchangedFor (App.verifyHmac cfg) remote req k v
                           | _ => False
                           end)) in H.
    + destruct H as [[]|(c & Hin & HJ)]. destruct c; try contradiction. eauto.
    + intros c m k' v'. destruct c; cbn [App.handle].
      * rewrite App_auth_tokens. auto.
      * apply App_callback_justified.
      * rewrite App_customers_tokens. auto.
      * rewrite App_customersCsv_tokens. auto.
  - intros rt history k v H. unfold Server.serve in H.
    apply (serve_invariant
             (fun tokens c => TOKENS (Server.handle rt cfg c tokens))
             (fun c k v => match c with
                           | Server.GetAuthCallback remote req =>
                               Spec.exchangedFor (Server.verifyHmac rt cfg) remote req k v
                           | _ => False
                           end)) in H.
    + destruct H as [[]|(c & Hin & HJ)]. destruct c; try contradiction. eauto.
    + intros c m k' v'. destruct c; cbn [Server.handle].
      * rewrite Server_auth_tokens. auto.
      * apply Server_callback_justified.
      * rewrite Server_customers_tokens. auto.
  - intros remote req tokens H.
    apply App_callback_no_credential, failedExchange_no_credential, H.
  - intros rt remote req tokens H.
    apply Server_callback_no_credential, failedExchange_no_credential, H.
Qed.

Lemma C6_tokens_only_after_exchange_witness :
  let history := [App.GetAuth Spec.random16 (Spec.authRequest "foo.myshopify.com");
                  App.GetAuthCallback (Spec.grants "shpat_1") Spec.signedCallback] in
  App.serve Spec.cfg history = [(VStr "foo.myshopify.com", VStr "shpat_1")] /\
  (exists remote req,
     In (App.GetAuthCallback remote req) history /\
     Spec.exchangedFor (App.verifyHmac Spec.cfg) remote req
                       (VStr "foo.myshopify.com") (VStr "shpat_1")) /\
  TOKENS (App.callback Spec.cfg (Responds 403 (Return (VObj []))) Spec.signedCallback
                       [(VStr "bar.myshopify.com", VStr "shpat_0")])
  = [(VStr "bar.myshopify.com", VStr "shpat_0")] /\
  TOKENS (Server.callback Spec.noObjects Spec.cfg (FetchFails "TypeError" "fetch failed")
                          Spec.signedCallback [(VStr "bar.myshopify.com", VStr "shpat_0")])
  = [(VStr "bar.myshopify.com", VStr "shpat_0")].
Proof.
  cbv zeta.
  destruct (C6_tokens_only_after_exchange Spec.cfg) as (Happ & _ & Hfail & Hfail').
  split; [vm_compute; reflexivity|]. split; [|split].
  - apply Happ. vm_compute. left. reflexivity.
  - apply Hfail. left. reflexivity.
  - apply Hfail'. exact I.
Defined.

(** ** C7: the latest credential wins *)






(** ** C8: no credential, no call *)

(** C8: a resource request that names a tenant without an entry in [TOKENS]
    is answered with 401 by both routes, without any outbound call and with
    the map unchanged; and that reply is given in no other case: whoever
    receives it named a tenant (so it is not the 400 reply for a missing
    parameter) for which no usable credential is stored, and no call to the
    resource API was made (so it is not an upstream reply, whatever status
    the upstream answers with). *)
Theorem C8_no_credential_is_401 remote req tokens :
  let shop := trim (toString (or (getParam (query req) "shop") (VStr ""))) in
  (shop <> "" ->
   Map_has tokens (VStr shop) = false ->
   App.customers remote req tokens = mkResult [] Spec.authRequiredJson tokens /\
   App.customersCsv remote req tokens = mkResult [] Spec.authRequiredCsv tokens) /\
  (reply (App.customers remote req tokens) = Spec.authRequiredJson ->
   shop <> "" /\ truthy (Map_get tokens (VStr shop)) = false /\
   effects (App.customers remote req tokens) = []) /\
  (reply (App.customersCsv remote req tokens) = Spec.authRequiredCsv ->
   shop <> "" /\ truthy (Map_get tokens (VStr shop)) = false /\
   effects (App.customersCsv remote req tokens) = []).
Proof.
  cbv zeta.
  set (shop := trim (toString (or (getParam (query req) "shop") (VStr "")))).
  split; [|split].
  - intros Hne Habs. unfold App.customers, App.customersCsv. fold shop.
    apply falsy_str in Hne. rewrite Hne, (Map_get_absent _ _ Habs). split; reflexivity.
  - unfold App.customers, Spec.authRequiredJson. fold shop.
    destruct (negb (truthy (VStr shop))) eqn:E1; cbn [reply]; [discriminate|].
    destruct (negb (truthy (Map_get tokens (VStr shop)))) eqn:E2; cbn [reply effects].
    + intros _. apply falsy_str in E1. now apply negb_true_iff in E2.
    + repeat branch; cbn [reply]; intros [=].
  - unfold App.customersCsv, Spec.authRequiredCsv. fold shop.
    destruct (negb (truthy (VStr shop))) eqn:E1; cbn [reply]; [discriminate|].
    destruct (negb (truthy (Map_get tokens (VStr shop)))) eqn:E2; cbn [reply effects].
    + intros _. apply falsy_str in E1. now apply negb_true_iff in E2.
    + repeat branch; cbn [reply]; intros [=].
Qed.

Lemma C8_no_credential_is_401_witness :
  let req := Spec.customersRequest "foo.myshopify.com" in
  let tokens := [(VStr "bar.myshopify.com", VStr "shpat_0")] in
  App.customers (Responds 200 (Return (VObj []))) req tokens =
    mkResult [] Spec.authRequiredJson tokens /\
  App.customersCsv (Responds 200 (Return (VObj []))) req tokens =
    mkResult [] Spec.authRequiredCsv tokens.
Proof.
  cbv zeta.
  destruct (C8_no_credential_is_401
              (Responds 200 (Return (VObj [])))
              (Spec.customersRequest "foo.myshopify.com")
              [(VStr "bar.myshopify.com", VStr "shpat_0")]) as [H _].
  apply H; [discriminate|reflexivity].
Defined.


(** The [/customers] route of [src/server.js] answers in the same way. *)
Lemma Server_customers_no_credential remote req tokens :
  truthy (getParam (query req) "shop") = true ->
  Map_has tokens (getParam (query req) "shop") = false ->
  Server.customers remote req tokens =
  mkResult []
    (Send 401 [] (Json (VObj [("error", VStr "No token found for this shop. Go to /auth?shop=...")])))
    tokens.
Proof.
  intros Hshop Habs. unfold Server.customers.
  rewrite Hshop, (Map_get_absent _ _ Habs). reflexivity.
Qed.

(** ** C9: one projection for both routes *)

(** C9: the JSON route and the CSV route project a customer record in the
    same way: fourteen properties copied from the record under their own
    names ([Spec.copiedFields]) and [addresses] through [formatAddresses],
    and no row for a record that is [null] or [undefined].  So where
    [/customers] serves rows for a success reply of the resource API, the
    rows are the projections of the records of that reply, one by one and in
    order, and [/customers.csv] renders exactly those rows: it sends their
    CSV text as a download, unless [toCSV] fails on a value of the rows or
    the header naming the file is refused, in which case it ends by that
    exception.  A CSV text served is the text of rows [/customers] serves,
    and where [/customers] ends by an exception so does [/customers.csv], by
    the same one. *)
Theorem C9_same_projection :
  (forall c, App.projectJson c = App.projectCsv c) /\
  (forall c,
     c <> VNull -> c <> VUndef ->
     App.projectJson c =
     (addresses ← App.formatAddresses (field c "addresses");
      Return (Spec.projection c addresses))) /\
  (forall c, c = VNull \/ c = VUndef ->
             exists m, App.projectJson c = Throw "TypeError" m) /\
  (forall remote req tokens rows,
     let shop := trim (toString (or (getParam (query req) "shop") (VStr ""))) in
     reply (App.customers remote req tokens) =
       Send 200 [] (Json (VObj [("customers", VArr (map VObj rows))])) ->
     exists status json cs,
       remote = Responds status json /\ ok status = true /\
       Spec.records (App.jsonOrEmpty json) = Return (VArr cs) /\
       Forall2 (fun c row =>
                  exists addresses,
                    App.formatAddresses (field c "addresses") = Return addresses /\
                    row = Spec.projection c addresses) cs rows /\
       reply (App.customersCsv remote req tokens) =
         match App.toCSV rows with
         | Throw n m => Rejected n m
         | Return csv =>
             if validHeaderValue (Spec.disposition shop)
             then Send 200 (Spec.csvHeaders shop) (Text csv)
             else Rejected "TypeError" (invalidHeader "Content-Disposition")
         end) /\
  (forall remote req tokens headers csv,
     reply (App.customersCsv remote req tokens) = Send 200 headers (Text csv) ->
     exists rows,
       reply (App.customers remote req tokens) =
         Send 200 [] (Json (VObj [("customers", VArr (map VObj rows))])) /\
       App.toCSV rows = Return csv) /\
  (forall remote req tokens n m,
     reply (App.customers remote req tokens) = Rejected n m ->
     reply (App.customersCsv remote req tokens) = Rejected n m).
Proof.
  split; [reflexivity|]. split; [exact projectJson_defined|].
  split; [exact projectJson_null|]. split; [|split].
  - intros remote req tokens rows. cbv zeta. intros H.
    destruct (customers_served remote req tokens rows H)
      as (status & json & -> & Hok & _ & _ & Hm & Hcsv).
    destruct (mapCustomers_Return _ _ Hm) as (cs & Hcs & Hrows).
    exists status, json, cs.
    split; [reflexivity|]. split; [exact Hok|]. split; [exact Hcs|].
    split; [|exact Hcsv].
    clear -Hrows. induction Hrows as [|c row cs rows Hc _ IH]; constructor; [|exact IH].
    apply projectJson_Return in Hc. tauto.
  - exact csv_served.
  - exact customers_rejected.
Qed.

Lemma C9_same_projection_witness :
  let req := Spec.customersRequest "foo.myshopify.com" in
  let tokens := [(VStr "foo.myshopify.com", VStr "shpat_1")] in
  let remote :=
    Responds 200 (Return (VObj [("customers", VArr [Spec.customer1; Spec.customer2])])) in
  let rows :=
    [Spec.projection Spec.customer1
       "Chestnut Street 92, Louisville, Kentucky, 40202, United States";
     Spec.projection Spec.customer2 ""] in
  reply (App.customers remote req tokens) =
    Send 200 [] (Json (VObj [("customers", VArr (map VObj rows))])) /\
  reply (App.customersCsv remote req tokens) =
    Send 200 (Spec.csvHeaders "foo.myshopify.com") (Text (Spec.csvText rows)) /\
  Spec.readCsv (Spec.csvText rows) =
    Some (Spec.customerKeys ::
          map (fun row => map (fun h => Spec.fieldText (lookupField h row))
                              Spec.customerKeys) rows).
Proof.
  cbv zeta.
  assert (Hjson :
    reply (App.customers
             (Responds 200 (Return (VObj [("customers",
                                           VArr [Spec.customer1; Spec.customer2])])))
             (Spec.customersRequest "foo.myshopify.com")
             [(VStr "foo.myshopify.com", VStr "shpat_1")]) =
    Send 200 []
      (Json (VObj [("customers",
                    VArr (map VObj
                            [Spec.projection Spec.customer1
                               "Chestnut Street 92, Louisville, Kentucky, 40202, United States";
                             Spec.projection Spec.customer2 ""]))])))
    by (vm_compute; reflexivity).
  split; [exact Hjson|].
  destruct C9_same_projection as (_ & _ & _ & H & _).
  destruct (H _ _ _ _ Hjson) as (status & json & cs & _ & _ & _ & _ & Hcsv).
  split; [rewrite Hcsv; vm_compute; reflexivity|].
  vm_compute. reflexivity.
Defined.

(** ** C10: the CSV text *)

Lemma unquote_doubled s :
  Spec.unquote (Spec.doubled s +:+ String dquote "") = Some s.
Proof.
  induction s as [|c s IH]; [reflexivity|].
  cbn [Spec.doubled]. destruct (Ascii.eqb c dquote) eqn:E.
  - apply Ascii.eqb_eq in E. subst c.
    rewrite !append_cons. cbn [Spec.unquote].
    rewrite Ascii.eqb_refl, IH. reflexivity.
  - rewrite append_cons. cbn [Spec.unquote]. rewrite E, IH. reflexivity.
Qed.

(** C10: [toCSV] gives the empty text for no rows.  For rows it returns
    exactly when every value the rows give under the names of the first row
    converts to a string, and ends by a TypeError otherwise.  Where it
    returns, the text is the names of the first row joined by commas, then
    one line for each row, the first included, lines separated by line
    feeds, each line holding one field for each name in the order of the
    names, joined by commas; the field of a [null] or [undefined] value (a
    property the row does not have included, unless the name is that of a
    member of [Object.prototype], which the row then inherits) is empty, a
    field whose text holds a comma, a double quote or a line feed is the
    text between double quotes with each of its double quotes written
    twice, and any other field is the text itself.  Read back as CSV, the
    text gives the names and, row by row, the texts of the values, whatever
    characters they hold. *)
Theorem C10_toCSV_format :
  App.toCSV [] = Return "" /\
  (forall (row : App.Row) (rows : list App.Row),
     let names := row.*1 in
     ((exists text, App.toCSV (row :: rows) = Return text) <->
      Spec.cellsConvert names (row :: rows) = true) /\
     (Spec.cellsConvert names (row :: rows) = false ->
      App.toCSV (row :: rows) = Throw "TypeError" noPrimitive) /\
     (forall text,
        App.toCSV (row :: rows) = Return text ->
        text = join "," names +:+ String LF "" +:+
               join (String LF "")
                    (map (fun r => join "," (map (fun h => Spec.csvField (member h r)) names))
                         (row :: rows)) /\
        (names <> [] ->
         Forall (fun h => Spec.plainText h = true) names ->
         Spec.readCsv text =
           Some (names ::
                 map (fun r => map (fun h => Spec.fieldText (member h r)) names)
                     (row :: rows))))) /\
  (forall h (row : App.Row),
     (hasOwn h row = true -> member h row = lookupField h row) /\
     (inheritedText h = None -> member h row = lookupField h row) /\
     (hasOwn h row = false -> inheritedText h = None -> member h row = VUndef)) /\
  Spec.csvField VNull = "" /\
  Spec.csvField VUndef = "" /\
  (forall v,
     v <> VNull -> v <> VUndef ->
     let s := toString v in
     (includes "," s = true \/ includes dquote s = true \/ includes LF s = true ->
      Spec.csvField v = String dquote "" +:+ Spec.doubled s +:+ String dquote "") /\
     (includes "," s = false /\ includes dquote s = false /\ includes LF s = false ->
      Spec.csvField v = s)) /\
  (forall s, Spec.doubled s = replaceAll dquote (String dquote (String dquote "")) s) /\
  (forall s, Spec.readField (String dquote "" +:+ Spec.doubled s +:+ String dquote "") = Some s).
Proof.
  split; [reflexivity|].
  split; [|split; [|split; [reflexivity|split; [reflexivity|split; [|split]]]]].
  - intros row rows. cbv zeta.
    pose proof (toCSV_cases (row :: rows)) as Hcases. cbv zeta in Hcases.
    split; [|split].
    + destruct Hcases as [[Hret Hc]|[Hthrow Hc]].
      * split; auto.
      * split; [|congruence]. intros (text & E). congruence.
    + intros Hc. destruct Hcases as [[_ Hc']|[Hthrow _]]; [congruence|exact Hthrow].
    + intros text Htext.
      assert (Hc : Spec.cellsConvert row.*1 (row :: rows) = true)
        by (destruct Hcases as [[_ Hc]|[Hthrow _]]; [exact Hc|congruence]).
      pose proof (toCSV_Return (row :: rows) Hc) as E.
      rewrite Htext in E. apply Return_inj in E. subst text.
      split.
      * unfold Spec.csvText, Spec.csvLine. cbn [join map].
        reflexivity.
      * intros Hne Hplain. now apply csvText_reads_back.
  - intros h row. split; [apply member_own|]. split; [apply member_lookupField|].
    intros Hown Hh. rewrite (member_lookupField _ _ Hh). now apply lookupField_absent.
  - intros v Hn Hu. cbv zeta. unfold Spec.csvField, Spec.plainText.
    replace (Spec.fieldText v) with (toString v) by (destruct v; congruence || reflexivity).
    split.
    + intros H. replace (includes "," (toString v) || includes dquote (toString v)
                         || includes LF (toString v)) with true; [reflexivity|].
      symmetry. destruct H as [ -> | [ -> | -> ] ]; now rewrite ?orb_true_r.
    + intros (-> & -> & ->). reflexivity.
  - intros s. symmetry. apply doubled_replaceAll.
  - intros s. rewrite append_cons, append_nil_l. cbn [Spec.readField].
    rewrite Ascii.eqb_refl. apply unquote_doubled.
Qed.

Lemma C10_toCSV_format_witness :
  let note := "said " +:+ String dquote "hi" +:+ String dquote ", left" +:+ String LF "twice" in
  let rows : list App.Row :=
    [[("name", VStr "Ann"); ("note", VStr note); ("tags", VNull)];
     [("name", VStr "Bob"); ("tags", VStr "loyal, vip")]] in
  App.toCSV rows =
    Return ("name,note,tags" +:+ String LF "" +:+
            "Ann," +:+ String dquote "said " +:+ String dquote (String dquote "hi") +:+
              String dquote (String dquote ", left") +:+ String LF "twice" +:+
              String dquote "," +:+ String LF "" +:+
            "Bob,," +:+ String dquote "loyal, vip" +:+ String dquote "") /\
  (forall text,
     App.toCSV rows = Return text ->
     Spec.readCsv text =
       Some [["name"; "note"; "tags"]; ["Ann"; note; ""]; ["Bob"; ""; "loyal, vip"]]) /\
  (forall text,
     App.toCSV [[("constructor", VStr "x")]; []] = Return text ->
     text = "constructor" +:+ String LF "x" +:+
            String LF "function Object() { [native code] }") /\
  App.toCSV [[("name", VObj [("toString", VStr "x")])]] = Throw "TypeError" noPrimitive.
Proof.
  cbv zeta.
  destruct C10_toCSV_format as (_ & H & _).
  split; [vm_compute; reflexivity|]. split; [|split].
  - intros text Htext.
    destruct (H [("name", VStr "Ann");
                 ("note", VStr ("said " +:+ String dquote "hi" +:+ String dquote ", left" +:+
                                String LF "twice"));
                 ("tags", VNull)]
                [[("name", VStr "Bob"); ("tags", VStr "loyal, vip")]])
      as (_ & _ & Hformat).
    destruct (Hformat text Htext) as [_ Hread].
    rewrite Hread.
    + vm_compute. reflexivity.
    + discriminate.
    + repeat constructor.
  - intros text Htext.
    destruct (H [("constructor", VStr "x")] [[]]) as (_ & _ & Hformat).
    destruct (Hformat text Htext) as [-> _]. vm_compute. reflexivity.
  - destruct (H [("name", VObj [("toString", VStr "x")])] []) as (_ & Hthrow & _).
    apply Hthrow. vm_compute. reflexivity.
Defined.

End Claims.

(* ===================================================================== *)
(** * Further properties of the servers                                   *)
(* ===================================================================== *)

Section TenantFacts.
Import Node Js Http.

(** ** The shop pattern *)

(** A text of the language of the shop pattern is made of letters, digits,
    dashes and dots. *)
Lemma matchesShop_allChars s :
  Spec.matchesShop s ->
  Spec.allChars (fun c => App.alnumDash c || Ascii.eqb c ".") s = true.
Proof.
  intros (c & p & -> & Hc & Hp).
  cbn [Spec.allChars]. unfold App.alnumDash at 1. rewrite Hc. cbn [orb andb].
  rewrite allChars_app. apply andb_true_iff. split; [|reflexivity].
  apply allChars_Forall. eapply Forall_impl; [exact Hp|].
  cbn. intros d ->. reflexivity.
Qed.

(** A shop parameter whose trimmed text matches the pattern is no object
    with a [toString] of its own: its method call returns its text. *)
Lemma matching_shop_converts (v : value) :
  Spec.matchesShop (trim (toString (or v (VStr "")))) ->
  callToString App.shopOrEmpty (or v (VStr "")) = Return (toString (or v (VStr ""))).
Proof.
  intros H. destruct (or_defined v "") as [Hu Hn].
  apply callToString_Return; [exact Hu|exact Hn|].
  apply plain_text_converts.
  eapply allChars_excludes; [|apply matchesShop_allChars; exact H]. reflexivity.
Qed.

(** X1: a shop that [isValidShop] accepts is made of letters, digits, dashes and
    dots only: it is its own trimmed and its own URI-encoded form, and holds
    no slash, colon, at sign or question mark, so that [https://<shop>/...]
    names that host and nothing else. *)
Theorem valid_shop_is_a_plain_host s :
  App.isValidShop (VStr s) = true ->
  Spec.allChars (fun c => App.alnumDash c || Ascii.eqb c ".") s = true /\
  trim s = s /\
  encodeURIComponent s = s /\
  includes "/" s = false /\ includes ":" s = false /\
  includes "@" s = false /\ includes "?" s = false /\ includes "#" s = false.
Proof.
  cbn [App.isValidShop]. intros H. apply shopPattern_spec in H.
  pose proof (matchesShop_allChars s H) as Hall.
  destruct H as (c & p & -> & Hc & Hp).
  assert (Hunres : Spec.allChars unreserved (String c (p +:+ ".myshopify.com")) = true).
  { eapply allChars_weaken; [|exact Hall]. intros d Hd.
    apply orb_true_iff in Hd as [Hd|Hd]; [now apply alnumDash_unreserved|].
    apply Ascii.eqb_eq in Hd. subst d. reflexivity. }
  split; [exact Hall|]. split; [|split].
  - unfold trim. rewrite trimStart_head by now apply alnum_not_space.
    change (String c (p +:+ ".myshopify.com")) with (String c p +:+ ".myshopify.com").
    apply trimEnd_app_fixed; [discriminate|reflexivity].
  - now apply encodeURIComponent_unreserved.
  - repeat split; eapply allChars_excludes; try exact Hall; reflexivity.
Qed.

Lemma valid_shop_is_a_plain_host_witness :
  trim "foo-1.myshopify.com" = "foo-1.myshopify.com" /\
  encodeURIComponent "foo-1.myshopify.com" = "foo-1.myshopify.com".
Proof.
  destruct (valid_shop_is_a_plain_host "foo-1.myshopify.com") as (_ & Ht & He & _);
    [reflexivity|].
  split; assumption.
Defined.

(** ** The start of the authorization *)

Lemma isHex_toHex b : Forall (fun x => (x < 256)%N) b -> Spec.isHex (toHex b) = true.
Proof.
  induction 1 as [|x b Hx _ IH]; [reflexivity|].
  cbn [toHex Spec.isHex]. rewrite IH, !unhex_hexdigit.
  - rewrite !bool_decide_eq_true_2 by eauto. reflexivity.
  - apply N.mod_lt. lia.
  - apply N.Div0.div_lt_upper_bound. lia.
Qed.

(** X2: for a shop that matches the pattern once trimmed, [/auth] sets one
    cookie, [shopify_oauth_state], HTTP-only, secure and cross-site exactly
    when the application URL is an https one, and redirects to the authorize
    page of that shop with the same state as the last query parameter; the
    state is the 32 hexadecimal digits of the 16 random bytes; the token map
    is not touched. *)
Theorem auth_sets_state_cookie_then_redirects cfg random16 req tokens :
  let shop := trim (toString (or (getParam (query req) "shop") (VStr ""))) in
  let state := toHex random16 in
  Spec.matchesShop shop ->
  length random16 = 16%nat ->
  Forall (fun x => (x < 256)%N) random16 ->
  App.auth cfg random16 req tokens =
    mkResult
      [SetCookie "shopify_oauth_state" state true (App.IS_HTTPS cfg)
                 (Some (if App.IS_HTTPS cfg then "none" else "lax"))]
      (Redirect ("https://" +:+ shop +:+ "/admin/oauth/authorize" +:+
                 "?client_id=" +:+ SHOPIFY_API_KEY cfg +:+
                 "&scope=" +:+ encodeURIComponent (SHOPIFY_SCOPES cfg) +:+
                 "&redirect_uri=" +:+
                   encodeURIComponent (App.APP_URL cfg +:+ "/auth/callback") +:+
                 "&state=" +:+ state))
      tokens /\
  String.length state = 32%nat /\
  Spec.isHex state = true.
Proof.
  cbv zeta. intros Hshop Hlen Hbytes.
  split; [|split].
  - unfold App.auth. rewrite (matching_shop_converts _ Hshop).
    apply shopPattern_spec in Hshop.
    cbn [App.isValidShop]. rewrite Hshop. cbn [negb].
    destruct (negb (truthy (VStr _))) eqn:E; [|reflexivity].
    exfalso. apply negb_true_iff in E. cbn [truthy] in E.
    apply negb_false_iff, String.eqb_eq in E. rewrite E in Hshop. discriminate Hshop.
  - rewrite toHex_length, Hlen. reflexivity.
  - now apply isHex_toHex.
Qed.

Lemma auth_sets_state_cookie_then_redirects_witness :
  App.auth Spec.cfg Spec.random16 (Spec.authRequest "  foo.myshopify.com ") [] =
    mkResult
      [SetCookie "shopify_oauth_state" "000102030405060708090a0b0c0d0e0f" true true (Some "none")]
      (Redirect "https://foo.myshopify.com/admin/oauth/authorize?client_id=key&scope=read_customers&redirect_uri=https%3A%2F%2Fagent.example%2Fauth%2Fcallback&state=000102030405060708090a0b0c0d0e0f")
      [].
Proof.
  assert (Hshop : Spec.matchesShop "foo.myshopify.com")
    by (apply shopPattern_spec; reflexivity).
  assert (Hbytes : Forall (fun x => (x < 256)%N) Spec.random16)
    by (apply Forall_forall; intros x Hx; vm_compute in Hx;
        repeat (apply elem_of_cons in Hx as [->|Hx]; [reflexivity|]); inversion Hx).
  exact (proj1 (auth_sets_state_cookie_then_redirects
                  Spec.cfg Spec.random16 (Spec.authRequest "  foo.myshopify.com ") []
                  Hshop eq_refl Hbytes)).
Defined.

Lemma issued_state_stateValid cfg random16 req0 tokens name v httpOnly secure sameSite req :
  effects (App.auth cfg random16 req0 tokens) = [SetCookie name v httpOnly secure sameSite] ->
  random16 <> [] ->
  cookies req !! name = Some (VStr v) ->
  (query req !! "state" = Some (PStr v) -> Spec.stateValid req = true) /\
  (forall other, other <> v -> query req !! "state" = Some (PStr other) ->
                 Spec.stateValid req = false).
Proof.
  unfold App.auth. intros Heff Hne Hcookie.
  assert (Hv : name = "shopify_oauth_state" /\ v = toHex random16).
  { revert Heff. repeat branch; cbn [effects]; intros [=]; auto. }
  destruct Hv as [-> ->]. clear Heff.
  assert (Hnonempty : String.eqb (toHex random16) "" = false).
  { destruct random16; [congruence|reflexivity]. }
  unfold Spec.stateValid, get, getParam. rewrite Hcookie. cbn [default]. unfold id.
  split.
  - intros ->. cbn [from_option val truthy strictEq].
    now rewrite Hnonempty, String.eqb_refl.
  - intros other Hother ->. cbn [from_option val truthy strictEq].
    rewrite Hnonempty. apply not_eq_sym, String.eqb_neq in Hother.
    now rewrite Hother.
Qed.

(** X3: the state that [/auth] hands out validates when it comes back: a
    callback that carries the cookie [/auth] set is never answered with the
    invalid-state reply when its [state] parameter has the same value, and is
    answered with 400, nothing done, when its [state] is any other text. *)
Theorem issued_state_validates
        cfg random16 req0 tokens0 name v httpOnly secure sameSite remote req tokens :
  effects (App.auth cfg random16 req0 tokens0) = [SetCookie name v httpOnly secure sameSite] ->
  random16 <> [] ->
  cookies req !! name = Some (VStr v) ->
  (query req !! "state" = Some (PStr v) ->
   reply (App.callback cfg remote req tokens) <>
     Send 400 [] (Text "Invalid state. Try /auth again.")) /\
  (forall other, other <> v -> query req !! "state" = Some (PStr other) ->
     exists message,
       App.callback cfg remote req tokens = mkResult [] (Send 400 [] (Text message)) tokens).
Proof.
  intros Heff Hne Hcookie.
  destruct (issued_state_stateValid _ _ _ _ _ _ _ _ _ req Heff Hne Hcookie) as [Hsame Hother].
  unfold Spec.stateValid in Hsame, Hother. split.
  - intros Hstate. specialize (Hsame Hstate). apply negb_true_iff in Hsame.
    unfold_callback.
    destruct (negb (truthy (getParam (query req) "shop")) || _ || _);
      [cbn [reply]; discriminate|].
    rewrite Hsame. repeat branch; cbn [reply]; discriminate.
  - intros other Hne' Hstate. specialize (Hother other Hne' Hstate).
    apply negb_false_iff in Hother. unfold_callback.
    destruct (negb (truthy (getParam (query req) "shop")) || _ || _);
      [eexists; reflexivity|].
    rewrite Hother. eexists; reflexivity.
Qed.

Lemma issued_state_validates_witness :
  reply (App.callback Spec.cfg (Spec.grants "shpat_1")
           (mkRequest {[ "shop" := PStr "foo.myshopify.com"; "code" := PStr "c0de";
                         "state" := PStr "000102030405060708090a0b0c0d0e0f" ]}
                      {[ "shopify_oauth_state" := VStr "000102030405060708090a0b0c0d0e0f" ]})
           []) <>
  Send 400 [] (Text "Invalid state. Try /auth again.").
Proof.
  assert (Heff : effects (App.auth Spec.cfg Spec.random16
                                   (Spec.authRequest "foo.myshopify.com") []) =
                 [SetCookie "shopify_oauth_state" "000102030405060708090a0b0c0d0e0f"
                            true true (Some "none")])
    by (vm_compute; reflexivity).
  assert (Hne : Spec.random16 <> []) by discriminate.
  refine (proj1 (issued_state_validates
                   Spec.cfg Spec.random16 (Spec.authRequest "foo.myshopify.com") []
                   "shopify_oauth_state" "000102030405060708090a0b0c0d0e0f"
                   true true (Some "none") (Spec.grants "shpat_1")
                   (mkRequest {[ "shop" := PStr "foo.myshopify.com"; "code" := PStr "c0de";
                                 "state" := PStr "000102030405060708090a0b0c0d0e0f" ]}
                              {[ "shopify_oauth_state" :=
                                   VStr "000102030405060708090a0b0c0d0e0f" ]})
                   [] Heff Hne _) _); reflexivity.
Defined.

End TenantFacts.

Section InstallFacts.
Import Node Js Http.

(** ** The redirect URI *)

Lemma dropTrailingSlash_slash u : dropTrailingSlash (u +:+ "/") = u.
Proof.
  induction u as [|c u IH]; [reflexivity|].
  rewrite append_cons. destruct u as [|d u].
  - reflexivity.
  - rewrite append_cons in *. cbn [dropTrailingSlash] in *. now rewrite IH.
Qed.

Lemma dropTrailingSlash_none u :
  (forall v, u <> v +:+ "/") -> dropTrailingSlash u = u.
Proof.
  induction u as [|c u IH]; [reflexivity|]. intros H.
  destruct u as [|d u].
  - cbn [dropTrailingSlash]. destruct (Ascii.eqb_spec c "/") as [->|]; [|reflexivity].
    exfalso. apply (H ""). reflexivity.
  - cbn [dropTrailingSlash] in *. rewrite IH; [reflexivity|].
    intros v Hv. apply (H (String c v)). rewrite append_cons. now f_equal.
Qed.

(** X4: one slash at the end of [SHOPIFY_APP_URL] makes no difference: with or
    without it the redirect URI is the URL followed by [/auth/callback], with
    a single slash between, and the install URL is the same. *)
Theorem redirect_uri_ignores_trailing_slash key secret scopes u req :
  (forall v, u <> v +:+ "/") ->
  let slashed := mkConfig key secret scopes (u +:+ "/") in
  let bare := mkConfig key secret scopes u in
  App.getRedirectUri slashed req = u +:+ "/auth/callback" /\
  App.getRedirectUri bare req = u +:+ "/auth/callback" /\
  App.IS_HTTPS slashed = App.IS_HTTPS bare /\
  forall shop state,
    App.buildInstallUrl slashed req shop state = App.buildInstallUrl bare req shop state.
Proof.
  intros Hu. cbv zeta.
  assert (E1 : App.APP_URL (mkConfig key secret scopes (u +:+ "/")) = u)
    by apply dropTrailingSlash_slash.
  assert (E2 : App.APP_URL (mkConfig key secret scopes u) = u)
    by now apply dropTrailingSlash_none.
  unfold App.buildInstallUrl, App.getRedirectUri, App.IS_HTTPS.
  rewrite E1, E2. auto.
Qed.

Lemma redirect_uri_ignores_trailing_slash_witness :
  App.getRedirectUri (mkConfig "key" "shhh" "read_customers" "https://agent.example/")
                     (Spec.authRequest "foo.myshopify.com")
  = "https://agent.example/auth/callback".
Proof.
  refine (proj1 (redirect_uri_ignores_trailing_slash
                   "key" "shhh" "read_customers" "https://agent.example"
                   (Spec.authRequest "foo.myshopify.com") _)).
  intros v Hv.
  assert (H : dropTrailingSlash "https://agent.example" = dropTrailingSlash (v +:+ "/"))
    by now rewrite <- Hv.
  rewrite dropTrailingSlash_slash in H. subst v. vm_compute in Hv. discriminate Hv.
Defined.

(** ** The signature check *)

(** X5: a [signature] parameter has no part in the check of the validating
    server: adding one, changing it or removing it changes nothing. *)
Theorem verifyHmac_ignores_signature cfg (q : params) (x : param) :
  App.verifyHmac cfg (<["signature" := x]> q) = App.verifyHmac cfg q /\
  App.verifyHmac cfg (delete "signature" q) = App.verifyHmac cfg q.
Proof.
  unfold App.verifyHmac, App.verifyHmacWith, App.hmacMessage, App.messageConverts, getParam.
  split.
  - rewrite lookup_insert_ne by discriminate.
    rewrite delete_insert_ne by discriminate. now rewrite delete_insert_eq.
  - rewrite lookup_delete_ne by discriminate.
    rewrite (delete_delete q "hmac" "signature"). now rewrite delete_delete_eq.
Qed.

End InstallFacts.

Section ReplyFacts.
Import Node Js Http.

(** ** The callback of the validating server *)

(** X6: the callback of the validating server ends in one of four ways,
    whatever the request, whatever the token endpoint does and whether the
    secret is set or not: 400 with nothing done; 500 after an exchange that
    gave no credential, the map as it was; the redirect to the dashboard
    after the credential is stored; or, nothing done and no response
    written, by the TypeError of [verifyHmac], which is called before the
    [try] of the handler.  The last happens exactly when the three
    parameters are there, the state is valid, the signature is not empty and
    either a query parameter (the signature included) does not convert to a
    string or the secret is not set; no other exception ends the handler.
    Without the secret no callback is ever redirected. *)
Theorem callback_responds_unless_verifyHmac_throws secret cfg remote req tokens :
  let r := App.callbackWith secret cfg remote req tokens in
  let q := query req in
  ((exists message,
      reply r = Send 400 [] (Text message) /\ effects r = [] /\ TOKENS r = tokens) \/
   (exists message,
      reply r = Send 500 [] (Text message) /\ Spec.exchangeIssued r /\ TOKENS r = tokens /\
      Spec.credential remote = None) \/
   (exists t,
      reply r = Redirect ("/?shop=" +:+ encodeURIComponent (toString (getParam q "shop"))) /\
      Spec.exchangeIssued r /\
      Spec.credential remote = Some t /\
      TOKENS r = Map_set tokens (getParam q "shop") t) \/
   (exists m,
      reply r = Rejected "TypeError" m /\ effects r = [] /\ TOKENS r = tokens /\
      App.verifyHmacWith secret q = Throw "TypeError" m)) /\
  ((exists n m, reply r = Rejected n m) <->
   truthy (getParam q "shop") = true /\ truthy (getParam q "code") = true /\
   truthy (getParam q "state") = true /\
   Spec.stateValid req = true /\
   truthy (getParam q "hmac") = true /\
   (App.messageConverts q = false \/ secret = None \/
    converts (getParam q "hmac") = false)) /\
  (secret = None -> forall location, reply r <> Redirect location).
Proof.
  cbv zeta. unfold App.callbackWith, Spec.credential, Spec.exchangeIssued, Spec.stateValid.
  rewrite App_verifyHmacWith_spec.
  destruct (truthy (getParam (query req) "shop")) eqn:Hshop; cbn [negb orb];
    [|split; [left; eexists; cbn; eauto|
       split; [split; [intros (n & m & [=])|intros ([=] & _)]|discriminate]]].
  destruct (truthy (getParam (query req) "code")) eqn:Hcode; cbn [negb orb];
    [|split; [left; eexists; cbn; eauto|
       split; [split; [intros (n & m & [=])|intros (_ & [=] & _)]|discriminate]]].
  destruct (truthy (getParam (query req) "state")) eqn:Hstate; cbn [negb orb];
    [|split; [left; eexists; cbn; eauto|
       split; [split; [intros (n & m & [=])|intros (_ & _ & [=] & _)]|discriminate]]].
  destruct (negb (truthy (get (cookies req) "shopify_oauth_state")) || _); cbn [negb];
    [split; [left; eexists; cbn; eauto|
       split; [split; [intros (n & m & [=])|intros (_ & _ & _ & [=] & _)]|discriminate]]|].
  destruct (truthy (getParam (query req) "hmac")) eqn:Hhmac; cbn [negb];
    [|split; [left; eexists; cbn; eauto|
       split; [split; [intros (n & m & [=])|intros (_ & _ & _ & _ & [=] & _)]|discriminate]]].
  destruct (App.messageConverts (query req)) eqn:Hm; cbn [negb];
    [|split; [right; right; right; cbn; eauto|
       split; [split; [cbn; auto 8|cbn; eauto]|discriminate]]].
  destruct secret as [key|]; cbn [createHmacKey mbind Completion_bind];
    [|split; [right; right; right; cbn; eauto|
       split; [split; [cbn; auto 8|cbn; eauto]|discriminate]]].
  destruct (converts (getParam (query req) "hmac")) eqn:Hconv; cbn [negb];
    [|split; [right; right; right; cbn; eauto|
       split; [split; [cbn; auto 8|cbn; eauto]|discriminate]]].
  assert (Hno : ~ (true = true /\ true = true /\ true = true /\ true = true /\ true = true /\
                   (true = false \/ Some key = None \/ true = false)))
    by (intros (_ & _ & _ & _ & _ & [[=]|[[=]|[=]]])).
  destruct (bool_decide _);
    [|split; [left; eexists; cbn; eauto|
       split; [split; [intros (n & m & [=])|intros H; destruct (Hno H)]|discriminate]]].
  assert (Hissued : forall e : Effect,
            e = Fetch "POST"
                  ("https://" +:+ toString (getParam (query req) "shop") +:+
                   "/admin/oauth/access_token")
                  [("Content-Type", "application/json")]
                  (Some (stringifyText
                           (VObj [("client_id", VStr (SHOPIFY_API_KEY cfg));
                                  ("client_secret", VStr key);
                                  ("code", getParam (query req) "code")]))) ->
            exists url headers body, In (Fetch "POST" url headers body) [e]).
  { intros e ->. do 3 eexists. left. reflexivity. }
  split; [|split; [|discriminate]].
  - right.
    destruct remote as [n m|status [tokenJson|n m]]; cbn [reply effects TOKENS].
    + left. eexists. eauto 6.
    + destruct (ok status); cbn [negb reply effects TOKENS].
      * destruct (getProp tokenJson "access_token") as [t|n m];
          cbn [reply effects TOKENS].
        -- right. left. exists t. eauto 6.
        -- left. eexists. eauto 6.
      * left. eexists. eauto 6.
    + left. eexists. eauto 6.
  - split; [|intros H; destruct (Hno H)].
    intros (n0 & m0 & H). revert H.
    destruct remote as [n m|status [tokenJson|n m]]; cbn [reply]; try discriminate.
    destruct (ok status); cbn [negb reply]; [|discriminate].
    destruct (getProp tokenJson "access_token"); cbn [reply]; discriminate.
Qed.

Lemma callback_responds_unless_verifyHmac_throws_witness :
  (exists m, reply (App.callbackWith None Spec.cfg (Spec.grants "shpat_1")
                                     Spec.signedCallback []) = Rejected "TypeError" m) /\
  forall location,
    reply (App.callbackWith None Spec.cfg (Spec.grants "shpat_1") Spec.signedCallback [])
    <> Redirect location.
Proof.
  destruct (callback_responds_unless_verifyHmac_throws
              None Spec.cfg (Spec.grants "shpat_1") Spec.signedCallback [])
    as (_ & _ & Hnone).
  split; [eexists; vm_compute; reflexivity|].
  apply Hnone. reflexivity.
Defined.

(** X7: the page a completed callback redirects to is [/?shop=] followed by the
    URI-encoded shop: unreserved characters and percent escapes only, so the
    shop parameter cannot add a query parameter, a fragment or a path to the
    location. *)
Theorem callback_redirect_is_encoded cfg remote req tokens location :
  reply (App.callback cfg remote req tokens) = Redirect location ->
  exists encoded,
    location = "/?shop=" +:+ encoded /\
    Spec.allChars Spec.uriSafe encoded = true /\
    includes "&" encoded = false /\ includes "=" encoded = false /\
    includes "#" encoded = false /\ includes "/" encoded = false /\
    includes "?" encoded = false /\ includes " " encoded = false.
Proof.
  intros H.
  assert (E : location = "/?shop=" +:+
                         encodeURIComponent (toString (getParam (query req) "shop"))).
  { revert H. unfold_callback. repeat branch; cbn [reply]; intros [=]. auto. }
  subst location. eexists. split; [reflexivity|].
  pose proof (encodeURIComponent_safe (toString (getParam (query req) "shop"))) as Hs.
  split; [exact Hs|].
  repeat split; eapply allChars_excludes; try exact Hs; reflexivity.
Qed.

Lemma callback_redirect_is_encoded_witness :
  exists encoded,
    "/?shop=foo.myshopify.com" = "/?shop=" +:+ encoded /\
    Spec.allChars Spec.uriSafe encoded = true /\
    includes "&" encoded = false /\ includes "=" encoded = false /\
    includes "#" encoded = false /\ includes "/" encoded = false /\
    includes "?" encoded = false /\ includes " " encoded = false.
Proof.
  apply (callback_redirect_is_encoded Spec.cfg (Spec.grants "shpat_1") Spec.signedCallback []).
  vm_compute. reflexivity.
Defined.

(** ** Pages *)

(** X8: for a shop parameter that converts to a string, [/exitiframe]
    answers 400 when the shop, once trimmed, is empty; otherwise it sends a
    page whose script holds the target [/auth?shop=<encoded shop>] between
    double quotes, the encoded shop being free of double quotes,
    backslashes, line feeds and angle brackets, so that it cannot end the
    string or the script.  A shop parameter that does not convert (an object
    with a [toString] property of its own) makes the handler end by a
    TypeError, no response written.  The token map is not touched. *)
Theorem exitiframe_target_is_encoded req tokens :
  let p := or (getParam (query req) "shop") (VStr "") in
  let shop := trim (toString p) in
  (converts p = true -> shop = "" ->
   App.exitiframe req tokens = mkResult [] (Send 400 [] (Text "Missing shop")) tokens) /\
  (converts p = true -> shop <> "" ->
   exists encoded before after,
     encoded = encodeURIComponent shop /\
     App.exitiframe req tokens =
       mkResult []
         (Send 200 [("Content-Type", "text/html")]
               (Text (join (String LF "")
                        (before ++
                         ["      var target = " +:+ String dquote "" +:+ "/auth?shop=" +:+
                          encoded +:+ String dquote "" +:+ ";"] ++
                         after))))
         tokens /\
     includes dquote encoded = false /\ includes "\" encoded = false /\
     includes LF encoded = false /\ includes "<" encoded = false /\
     includes ">" encoded = false) /\
  (converts p = false ->
   exists m, App.exitiframe req tokens = mkResult [] (Rejected "TypeError" m) tokens) /\
  TOKENS (App.exitiframe req tokens) = tokens.
Proof.
  cbv zeta. unfold App.exitiframe.
  destruct (or_defined (getParam (query req) "shop") "") as [Hu Hn].
  split; [|split; [|split]].
  - intros Hc. rewrite (callToString_Return _ _ Hu Hn Hc). intros ->. reflexivity.
  - intros Hc. rewrite (callToString_Return _ _ Hu Hn Hc).
    intros Hne. apply falsy_str in Hne. rewrite Hne.
    set (shop := trim (toString (or (getParam (query req) "shop") (VStr "")))).
    pose proof (encodeURIComponent_safe shop) as Hs.
    exists (encodeURIComponent shop), [""; "    <script>"].
    eexists. split; [reflexivity|]. split; [reflexivity|].
    repeat split; eapply allChars_excludes; try exact Hs; reflexivity.
  - intros Hc. destruct (callToString_Throw App.shopOrEmpty _ Hc) as [m ->]. eauto.
  - destruct (callToString _ _); [|reflexivity].
    destruct (negb _); reflexivity.
Qed.

Lemma exitiframe_target_is_encoded_witness :
  App.exitiframe (mkRequest ∅ ∅) [] = mkResult [] (Send 400 [] (Text "Missing shop")) [] /\
  (exists encoded before after,
    encoded = "a%3Cb.myshopify.com" /\
    App.exitiframe (Spec.authRequest " a<b.myshopify.com") [] =
      mkResult []
        (Send 200 [("Content-Type", "text/html")]
              (Text (join (String LF "")
                       (before ++
                        ["      var target = " +:+ String dquote "" +:+ "/auth?shop=" +:+
                         encoded +:+ String dquote "" +:+ ";"] ++
                        after))))
        [] /\
    includes dquote encoded = false /\ includes "\" encoded = false /\
    includes LF encoded = false /\ includes "<" encoded = false /\
    includes ">" encoded = false) /\
  exists m,
    App.exitiframe (mkRequest {[ "shop" := PObj [("toString", PStr "x")] ]} ∅) [] =
    mkResult [] (Rejected "TypeError" m) [].
Proof.
  split; [|split].
  - apply (proj1 (exitiframe_target_is_encoded (mkRequest ∅ ∅) [])); reflexivity.
  - apply (proj1 (proj2 (exitiframe_target_is_encoded
                           (Spec.authRequest " a<b.myshopify.com") [])));
      [reflexivity|discriminate].
  - apply (proj1 (proj2 (proj2 (exitiframe_target_is_encoded
                                  (mkRequest {[ "shop" := PObj [("toString", PStr "x")] ]} ∅)
                                  [])))).
    reflexivity.
Defined.

(** X9: the text the dashboard puts in the [value] attribute of the shop input
    holds no double quote, whatever the shop parameter is, and is the shop
    itself when that holds none. *)
Theorem safeShop_has_no_quote (shopDefault : value) :
  includes dquote (App.safeShop shopDefault) = false /\
  (shopDefault <> VUndef ->
   includes dquote (toString shopDefault) = false ->
   App.safeShop shopDefault = toString shopDefault).
Proof.
  assert (Hno : forall s, includes dquote (replaceAll dquote "&quot;" s) = false).
  { induction s as [|c s IH]; [reflexivity|].
    cbn [replaceAll]. destruct (Ascii.eqb c dquote) eqn:E.
    - rewrite includes_app, IH. reflexivity.
    - cbn [includes]. now rewrite E, IH. }
  assert (Hid : forall s, includes dquote s = false -> replaceAll dquote "&quot;" s = s).
  { induction s as [|c s IH]; [reflexivity|].
    cbn [includes replaceAll]. intros H. apply orb_false_iff in H as [Hc Hs].
    now rewrite Hc, IH. }
  split; [apply Hno|].
  intros Hu Hq. unfold App.safeShop. destruct shopDefault; try congruence; now apply Hid.
Qed.

Lemma safeShop_has_no_quote_witness :
  App.safeShop (VStr "foo.myshopify.com") = "foo.myshopify.com".
Proof.
  apply (proj2 (safeShop_has_no_quote (VStr "foo.myshopify.com")));
    [discriminate|reflexivity].
Defined.

End ReplyFacts.
Section DataFacts.
Import Node Js Http.

(** ** The data routes *)

(** The values of projected rows convert where those of the first row's
    names do: the names are the fifteen of the projection. *)
Lemma cellsConvert_keys (rows : list App.Row) :
  Forall (fun row : App.Row => row.*1 = Spec.customerKeys) rows ->
  Spec.cellsConvert (match rows with [] => [] | row0 :: _ => row0.*1 end) rows =
  Spec.cellsConvert Spec.customerKeys rows.
Proof. intros H. destruct rows as [|row0 rows]; [reflexivity|]. inversion H; congruence. Qed.

(** X10: [/customers] and [/customers.csv] go the same way up to the
    rendering: on every request, whatever the map holds and whatever the
    resource API does, they make the same outbound call or none and leave
    the map as it is; where [/customers] ends by an exception so does
    [/customers.csv], by the same one; a status [/customers.csv] answers
    with is the status [/customers] answers with, and so the other way
    round for every status but 200.  Where [/customers] serves rows with
    200, [/customers.csv] answers 200 as well when every value of the rows
    converts to a string and the header naming the file is accepted;
    otherwise it ends by a TypeError, that of [toCSV] or that of
    [setHeader]. *)
Theorem data_routes_agree remote req tokens :
  let json := App.customers remote req tokens in
  let csv := App.customersCsv remote req tokens in
  let shop := trim (toString (or (getParam (query req) "shop") (VStr ""))) in
  effects json = effects csv /\
  TOKENS json = tokens /\ TOKENS csv = tokens /\
  (forall n m, reply json = Rejected n m -> reply csv = Rejected n m) /\
  (forall status, Spec.statusOf (reply csv) = Some status ->
                  Spec.statusOf (reply json) = Some status) /\
  (forall status, Spec.statusOf (reply json) = Some status -> status <> 200%N ->
                  Spec.statusOf (reply csv) = Some status) /\
  (forall rows,
     reply json = Send 200 [] (Json (VObj [("customers", VArr (map VObj rows))])) ->
     (Spec.cellsConvert Spec.customerKeys rows = true /\
      validHeaderValue (Spec.disposition shop) = true /\
      exists text, reply csv = Send 200 (Spec.csvHeaders shop) (Text text)) \/
     (Spec.cellsConvert Spec.customerKeys rows = false /\
      reply csv = Rejected "TypeError" noPrimitive) \/
     (Spec.cellsConvert Spec.customerKeys rows = true /\
      validHeaderValue (Spec.disposition shop) = false /\
      reply csv = Rejected "TypeError" (invalidHeader "Content-Disposition"))).
Proof.
  cbv zeta. split; [|split; [|split; [|split; [|split; [|split]]]]].
  - unfold App.customers, App.customersCsv. rewrite projectCsv_projectJson.
    repeat branch; reflexivity.
  - apply App_customers_tokens.
  - apply App_customersCsv_tokens.
  - apply customers_rejected.
  - unfold App.customers, App.customersCsv. rewrite projectCsv_projectJson.
    intros status. repeat branch; cbn [reply Spec.statusOf]; try discriminate; auto.
  - unfold App.customers, App.customersCsv. rewrite projectCsv_projectJson.
    intros status. repeat branch; cbn [reply Spec.statusOf]; try discriminate; auto;
      intros [= <-]; congruence.
  - intros rows H.
    destruct (customers_served remote req tokens rows H)
      as (status & json & _ & _ & _ & _ & Hm & Hcsv).
    rewrite Hcsv. rewrite <- (cellsConvert_keys rows (mapCustomers_keys _ _ Hm)).
    destruct (toCSV_cases rows) as [[(text & ->) ->]|[-> ->]]; [|right; left; auto].
    destruct (validHeaderValue _); [left; eauto|right; right; auto].
Qed.

Lemma data_routes_agree_witness :
  let shop := "a" +:+ String LF "b" in
  let req := Spec.customersRequest shop in
  let tokens := [(VStr shop, VStr "shpat_1")] in
  let remote := Responds 200 (Return (VObj [("customers", VArr [])])) in
  reply (App.customers remote req tokens) =
    Send 200 [] (Json (VObj [("customers", VArr [])])) /\
  reply (App.customersCsv remote req tokens) =
    Rejected "TypeError" (invalidHeader "Content-Disposition").
Proof.
  cbv zeta.
  assert (Hjson :
    reply (App.customers (Responds 200 (Return (VObj [("customers", VArr [])])))
                         (Spec.customersRequest ("a" +:+ String LF "b"))
                         [(VStr ("a" +:+ String LF "b"), VStr "shpat_1")]) =
    Send 200 [] (Json (VObj [("customers", VArr (map VObj []))])))
    by (vm_compute; reflexivity).
  split; [exact Hjson|].
  destruct (data_routes_agree
              (Responds 200 (Return (VObj [("customers", VArr [])])))
              (Spec.customersRequest ("a" +:+ String LF "b"))
              [(VStr ("a" +:+ String LF "b"), VStr "shpat_1")])
    as (_ & _ & _ & _ & _ & _ & H).
  destruct (H [] Hjson) as [(_ & Hv & _)|[(Hc & _)|(_ & _ & Hcsv)]].
  - vm_compute in Hv. discriminate Hv.
  - vm_compute in Hc. discriminate Hc.
  - exact Hcsv.
Defined.

(** X11: a 2xx reply of the resource API without customers (a body that is not
    JSON at all, or one whose [customers] is missing, falsy or an empty
    array) is served as an empty list by [/customers]; [/customers.csv]
    serves it as an empty CSV text, without even a header line, where the
    header naming the file after the shop is accepted, and ends by the
    TypeError of [setHeader] where the shop holds a character a header may
    not hold. *)
Theorem no_customers_is_an_empty_export req tokens status json :
  let shop := trim (toString (or (getParam (query req) "shop") (VStr ""))) in
  let data := App.jsonOrEmpty json in
  shop <> "" ->
  truthy (Map_get tokens (VStr shop)) = true ->
  ok status = true ->
  data <> VNull -> data <> VUndef ->
  truthy (field data "customers") = false \/ field data "customers" = VArr [] ->
  reply (App.customers (Responds status json) req tokens) =
    Send 200 [] (Json (VObj [("customers", VArr [])])) /\
  reply (App.customersCsv (Responds status json) req tokens) =
    (if validHeaderValue (Spec.disposition shop)
     then Send 200 (Spec.csvHeaders shop) (Text "")
     else Rejected "TypeError" (invalidHeader "Content-Disposition")).
Proof.
  cbv zeta. intros Hshop Htok Hok Hnull Hundef Hdata. apply falsy_str in Hshop.
  unfold App.customers, App.customersCsv. rewrite Hshop, Htok, Hok. cbn [negb].
  assert (E : forall f, App.mapCustomers f (App.jsonOrEmpty json) = Return []).
  { intros f. unfold App.mapCustomers.
    assert (G : getProp (App.jsonOrEmpty json) "customers" =
                Return (field (App.jsonOrEmpty json) "customers"))
      by (destruct (App.jsonOrEmpty json); cbn; congruence).
    rewrite G. cbn [mbind Completion_bind]. unfold or.
    destruct Hdata as [->| ->]; reflexivity. }
  rewrite !E. split; [reflexivity|]. cbn [App.toCSV].
  fold (Spec.disposition (trim (toString (or (getParam (query req) "shop") (VStr ""))))).
  destruct (validHeaderValue _); reflexivity.
Qed.

Lemma no_customers_is_an_empty_export_witness :
  reply (App.customersCsv (Responds 200 (Throw "SyntaxError" "Unexpected token"))
                          (Spec.customersRequest "foo.myshopify.com")
                          [(VStr "foo.myshopify.com", VStr "shpat_1")]) =
    Send 200 (Spec.csvHeaders "foo.myshopify.com") (Text "") /\
  reply (App.customersCsv (Responds 200 (Throw "SyntaxError" "Unexpected token"))
                          (Spec.customersRequest ("a" +:+ String LF "b"))
                          [(VStr ("a" +:+ String LF "b"), VStr "shpat_1")]) =
    Rejected "TypeError" (invalidHeader "Content-Disposition").
Proof.
  split.
  - refine (proj2 (no_customers_is_an_empty_export
                     (Spec.customersRequest "foo.myshopify.com")
                     [(VStr "foo.myshopify.com", VStr "shpat_1")] 200%N
                     (Throw "SyntaxError" "Unexpected token") _ _ _ _ _ _)).
    + discriminate.
    + reflexivity.
    + reflexivity.
    + discriminate.
    + discriminate.
    + left. reflexivity.
  - refine (proj2 (no_customers_is_an_empty_export
                     (Spec.customersRequest ("a" +:+ String LF "b"))
                     [(VStr ("a" +:+ String LF "b"), VStr "shpat_1")] 200%N
                     (Throw "SyntaxError" "Unexpected token") _ _ _ _ _ _)).
    + discriminate.
    + reflexivity.
    + reflexivity.
    + discriminate.
    + discriminate.
    + left. reflexivity.
Defined.

(** *** The projection *)

(** X12: every row served has the same fifteen properties in the same order, so a
    CSV export that is not empty opens with the same header line, whatever
    the resource API sent. *)
Theorem export_has_the_fixed_columns remote req tokens :
  (forall rows,
     reply (App.customers remote req tokens) =
       Send 200 [] (Json (VObj [("customers", VArr (map VObj rows))])) ->
     Forall (fun row : App.Row => row.*1 = Spec.customerKeys) rows) /\
  (forall hs body,
     reply (App.customersCsv remote req tokens) = Send 200 hs (Text body) ->
     body = "" \/
     exists rest, body = join "," Spec.customerKeys +:+ String LF "" +:+ rest).
Proof.
  split.
  - intros rows H.
    destruct (customers_served remote req tokens rows H)
      as (status & json & _ & _ & _ & _ & Hm & _).
    exact (mapCustomers_keys _ _ Hm).
  - intros hs body H.
    destruct (csv_served remote req tokens hs body H) as (rows & Hjson & Hcsv).
    destruct (customers_served remote req tokens rows Hjson)
      as (status & json & _ & _ & _ & _ & Hm & _).
    apply mapCustomers_keys in Hm.
    destruct rows as [|row0 rows].
    + left. now apply Return_inj in Hcsv.
    + right. inversion Hm as [|? ? K HF]; subst.
      unfold App.toCSV in Hcsv. rewrite K in Hcsv.
      destruct (mapM _ (row0 :: rows)) as [lines|] eqn:Hlines;
        cbn [mbind Completion_bind] in Hcsv; [|discriminate Hcsv].
      apply Return_inj in Hcsv. subst body.
      apply mapM_Return in Hlines. inversion Hlines as [|? line ? rest' _ _]; subst.
      cbn [join]. fold (join (String LF "")).
      eexists. reflexivity.
Qed.

Lemma export_has_the_fixed_columns_witness :
  exists hs rest,
    reply (App.customersCsv
             (Responds 200 (Return (VObj [("customers", VArr [Spec.customer1])])))
             (Spec.customersRequest "foo.myshopify.com")
             [(VStr "foo.myshopify.com", VStr "shpat_1")]) =
    Send 200 hs (Text (join "," Spec.customerKeys +:+ String LF "" +:+ rest)).
Proof.
  set (r := reply _).
  assert (E : exists hs body, r = Send 200 hs (Text body)) by (vm_compute; eauto).
  destruct E as (hs & body & E).
  destruct (proj2 (export_has_the_fixed_columns
                     (Responds 200 (Return (VObj [("customers", VArr [Spec.customer1])])))
                     (Spec.customersRequest "foo.myshopify.com")
                     [(VStr "foo.myshopify.com", VStr "shpat_1")])
                  hs body E) as [H|(rest & H)].
  - subst body. vm_compute in E. discriminate E.
  - exists hs, rest. rewrite E, H. reflexivity.
Defined.

(** X13: one record that cannot be projected ([null], or one whose [addresses]
    is truthy and no array) among those of a 2xx reply makes both data routes
    end by an exception after the outbound call: neither sends a reply. *)
Theorem unprojectable_record_rejects_both_routes req tokens status data cs c :
  let shop := trim (toString (or (getParam (query req) "shop") (VStr ""))) in
  shop <> "" ->
  truthy (Map_get tokens (VStr shop)) = true ->
  ok status = true ->
  getProp data "customers" = Return (VArr cs) ->
  In c cs ->
  c = VNull \/ c = VUndef \/
  (truthy (field c "addresses") = true /\ forall xs, field c "addresses" <> VArr xs) ->
  exists n m,
    reply (App.customers (Responds status (Return data)) req tokens) = Rejected n m /\
    reply (App.customersCsv (Responds status (Return data)) req tokens) = Rejected n m /\
    length (effects (App.customers (Responds status (Return data)) req tokens)) = 1.
Proof.
  cbv zeta. intros Hshop Htok Hok Hcs Hin Hc. apply falsy_str in Hshop.
  unfold App.customers, App.customersCsv. rewrite Hshop, Htok, Hok. cbn [negb].
  rewrite projectCsv_projectJson.
  assert (E : exists n m, App.mapCustomers App.projectJson (App.jsonOrEmpty (Return data)) =
                          Throw n m).
  { unfold App.mapCustomers. cbn [App.jsonOrEmpty]. rewrite Hcs.
    cbn [mbind Completion_bind or truthy].
    apply mapM_Throw with (x := c); [assumption|].
    now apply projectJson_Throw. }
  destruct E as (n & m & ->). exists n, m. cbn. auto.
Qed.

Lemma unprojectable_record_rejects_both_routes_witness :
  exists n m,
    reply (App.customersCsv
             (Responds 200 (Return (VObj [("customers", VArr [Spec.customer1; VNull])])))
             (Spec.customersRequest "foo.myshopify.com")
             [(VStr "foo.myshopify.com", VStr "shpat_1")]) = Rejected n m.
Proof.
  destruct (unprojectable_record_rejects_both_routes
              (Spec.customersRequest "foo.myshopify.com")
              [(VStr "foo.myshopify.com", VStr "shpat_1")] 200%N
              (VObj [("customers", VArr [Spec.customer1; VNull])])
              [Spec.customer1; VNull] VNull)
    as (n & m & _ & H & _).
  - discriminate.
  - reflexivity.
  - reflexivity.
  - reflexivity.
  - right. left. reflexivity.
  - left. reflexivity.
  - exists n, m. exact H.
Defined.

End DataFacts.

Section ExportFacts.
Import Node Js Http.

(** ** The export *)

(** X14: a CSV reader gets back from an export what went into it.  For rows
    whose values under the names of the first row convert to a string, and
    names that need no quoting (they are written as they are), [toCSV]
    returns a text that reads back as the names of the columns, then for
    each row the texts of the values it gives under those names, whatever
    commas, quotes and line feeds the values hold.  What a row gives under a
    name is its own property, or nothing; under the name of a member of
    [Object.prototype] that it does not have, the text of that member. *)
Theorem export_reads_back row0 (rows : list App.Row) :
  let headers := row0.*1 in
  headers <> [] ->
  Forall (fun h => Spec.plainText h = true) headers ->
  Spec.cellsConvert headers (row0 :: rows) = true ->
  exists text,
    App.toCSV (row0 :: rows) = Return text /\
    Spec.readCsv text =
      Some (headers ::
            map (fun row => map (fun h => Spec.fieldText (member h row)) headers)
                (row0 :: rows)) /\
    (forall h (row : App.Row),
       (hasOwn h row = true -> member h row = lookupField h row) /\
       (hasOwn h row = false ->
        Spec.fieldText (member h row) = default "" (inheritedText h))).
Proof.
  cbv zeta. intros Hne Hplain Hc.
  exists (Spec.csvText (row0 :: rows)). split; [|split].
  - now apply toCSV_Return.
  - now apply csvText_reads_back.
  - intros h row. split; [apply member_own|].
    intros Hown. unfold member. rewrite Hown.
    destruct (inheritedText h); reflexivity.
Qed.

Lemma export_reads_back_witness :
  exists text,
    App.toCSV [[("name", VStr "Bob, Jr."); ("valueOf", VNull)];
               [("note", VStr ("say " +:+ String dquote "hi")); ("name", VNum "7")]] =
      Return text /\
    Spec.readCsv text =
      Some [["name"; "valueOf"];
            ["Bob, Jr."; ""];
            ["7"; "function valueOf() { [native code] }"]].
Proof.
  destruct (export_reads_back [("name", VStr "Bob, Jr."); ("valueOf", VNull)]
              [[("note", VStr ("say " +:+ String dquote "hi")); ("name", VNum "7")]])
    as (text & Htext & Hread & _).
  - discriminate.
  - repeat constructor.
  - reflexivity.
  - exists text. split; [exact Htext|]. rewrite Hread. vm_compute. reflexivity.
Defined.

Lemma lookupField_own_keys (row : App.Row) :
  NoDup row.*1 -> map (fun h => lookupField h row) row.*1 = row.*2.
Proof.
  induction row as [|[k v] row IH]; [reflexivity|].
  cbn [fmap list_fmap fst snd]. intros Hnd. apply NoDup_cons in Hnd. destruct Hnd as [Hk Hnd].
  cbn [map lookupField]. rewrite String.eqb_refl. f_equal.
  rewrite <- (IH Hnd). apply map_ext_in. intros h Hin.
  destruct (String.eqb_spec k h) as [->|_]; [|reflexivity].
  exfalso. apply Hk. apply list_elem_of_In. exact Hin.
Qed.

Lemma customerKeys_NoDup : NoDup Spec.customerKeys.
Proof. apply (bool_decide_unpack _). vm_compute. exact I. Qed.

Lemma customerKeys_plain : Forall (fun h => Spec.plainText h = true) Spec.customerKeys.
Proof. repeat constructor. Qed.

(** None of the fifteen names is that of a member of [Object.prototype]. *)
Lemma customerKeys_own h row : In h Spec.customerKeys -> member h row = lookupField h row.
Proof.
  intros Hin. apply member_lookupField.
  repeat (destruct Hin as [<-|Hin]; [reflexivity|]). destruct Hin.
Qed.

(** X15: the two data routes serve the same data: where [/customers] answers
    with rows whose values convert to a string, for a shop the header naming
    the file accepts, [/customers.csv] answers with a text that a CSV reader
    reads back as the fifteen column names followed, row by row, by the
    texts of the values the JSON rows hold. *)
Theorem csv_route_serves_the_json_rows remote req tokens (rows : list App.Row) :
  let shop := trim (toString (or (getParam (query req) "shop") (VStr ""))) in
  reply (App.customers remote req tokens) =
    Send 200 [] (Json (VObj [("customers", VArr (map VObj rows))])) ->
  rows <> [] ->
  Spec.cellsConvert Spec.customerKeys rows = true ->
  validHeaderValue (Spec.disposition shop) = true ->
  exists body,
    reply (App.customersCsv remote req tokens) =
      Send 200 (Spec.csvHeaders shop) (Text body) /\
    Spec.readCsv body =
      Some (Spec.customerKeys :: map (fun row : App.Row => map Spec.fieldText row.*2) rows).
Proof.
  cbv zeta. intros H Hne Hc Hvalid.
  destruct (customers_served _ _ _ _ H) as (status & json & _ & _ & _ & _ & Hm & Hcsv).
  pose proof (mapCustomers_keys _ _ Hm) as Hkeys.
  destruct rows as [|row0 rows]; [congruence|].
  pose proof (Forall_inv Hkeys) as K0.
  rewrite (toCSV_Return (row0 :: rows)), Hvalid in Hcsv by (rewrite K0; exact Hc).
  exists (Spec.csvText (row0 :: rows)). split; [exact Hcsv|].
  rewrite csvText_reads_back
    by (rewrite K0; first [discriminate|apply customerKeys_plain]).
  rewrite K0. f_equal. f_equal.
  apply map_ext_in. intros row Hin.
  rewrite List.Forall_forall in Hkeys. specialize (Hkeys row Hin).
  rewrite <- (lookupField_own_keys row) by (rewrite Hkeys; apply customerKeys_NoDup).
  rewrite Hkeys, map_map. apply map_ext_in. intros h Hh.
  now rewrite customerKeys_own.
Qed.

Lemma csv_route_serves_the_json_rows_witness :
  exists body,
    reply (App.customersCsv
             (Responds 200 (Return (VObj [("customers", VArr [Spec.customer1])])))
             (Spec.customersRequest "foo.myshopify.com")
             [(VStr "foo.myshopify.com", VStr "shpat_1")]) =
      Send 200 (Spec.csvHeaders "foo.myshopify.com") (Text body) /\
    Spec.readCsv body =
      Some [Spec.customerKeys;
            ["207119551"; ""; ""; "Bob"; "Norman"; "1"; "disabled"; "199.65"; ""; "";
             "loyal, vip"; "bob@example.com"; ""; "USD";
             "Chestnut Street 92, Louisville, Kentucky, 40202, United States"]].
Proof.
  set (row := match App.projectJson Spec.customer1 with Return r => r | Throw _ _ => [] end).
  destruct (csv_route_serves_the_json_rows
              (Responds 200 (Return (VObj [("customers", VArr [Spec.customer1])])))
              (Spec.customersRequest "foo.myshopify.com")
              [(VStr "foo.myshopify.com", VStr "shpat_1")] [row])
    as (body & H1 & H2).
  - vm_compute. reflexivity.
  - discriminate.
  - vm_compute. reflexivity.
  - vm_compute. reflexivity.
  - exists body. split; [exact H1|]. rewrite H2. vm_compute. reflexivity.
Defined.

End ExportFacts.

Section SessionFacts.
Import Node Js Http.

(** ** From authorisation to data *)

(** What a callback that ended with its redirect did to the map. *)
Lemma App_callback_redirected cfg exchange req tokens location t s :
  reply (App.callback cfg exchange req tokens) = Redirect location ->
  Spec.credential exchange = Some t ->
  query req !! "shop" = Some (PStr s) ->
  s <> "" /\ TOKENS (App.callback cfg exchange req tokens) = Map_set tokens (VStr s) t.
Proof.
  unfold_callback. unfold Spec.credential, getParam. intros Hr Ht Hs. revert Hr Ht.
  rewrite Hs. cbn [from_option val].
  destruct (truthy (VStr s)) eqn:Es; cbn [negb orb].
  - apply (f_equal negb), falsy_str in Es.
    repeat branch; cbn [reply TOKENS]; try discriminate; intros _ [= <-]; auto.
  - discriminate.
Qed.



(** X17: a 2xx reply of the token endpoint without a usable [access_token] (the
    property missing, [null] or empty) still ends the callback with its
    redirect to the UI, but the tenant is not authorised: its data requests
    are answered with 401 and no call is made. *)
Theorem exchange_without_token_authorizes_nothing
        cfg exchange req tokens location t s remote creq :
  let after := TOKENS (App.callback cfg exchange req tokens) in
  reply (App.callback cfg exchange req tokens) = Redirect location ->
  Spec.credential exchange = Some t ->
  truthy t = false ->
  query req !! "shop" = Some (PStr s) ->
  trim (toString (or (getParam (query creq) "shop") (VStr ""))) = s ->
  App.customers remote creq after = mkResult [] Spec.authRequiredJson after /\
  App.customersCsv remote creq after = mkResult [] Spec.authRequiredCsv after.
Proof.
  cbv zeta. intros Hr Ht Hfalsy Hs Hc.
  destruct (App_callback_redirected _ _ _ _ _ _ _ Hr Ht Hs) as [Hne ->].
  apply falsy_str in Hne.
  unfold App.customers, App.customersCsv. rewrite Hc, Hne, Map_get_set_eq, Hfalsy.
  split; reflexivity.
Qed.

Lemma exchange_without_token_authorizes_nothing_witness :
  reply (App.customers (FetchFails "TypeError" "fetch failed")
                       (Spec.customersRequest "foo.myshopify.com")
                       (TOKENS (App.callback Spec.cfg
                                  (Responds 200 (Return (VObj [("scope", VStr "read_customers")])))
                                  Spec.signedCallback []))) =
  Spec.authRequiredJson.
Proof.
  assert (Hr : reply (App.callback Spec.cfg
                        (Responds 200 (Return (VObj [("scope", VStr "read_customers")])))
                        Spec.signedCallback []) =
               Redirect "/?shop=foo.myshopify.com") by (vm_compute; reflexivity).
  assert (Hs : query Spec.signedCallback !! "shop" = Some (PStr "foo.myshopify.com"))
    by reflexivity.
  destruct (exchange_without_token_authorizes_nothing
              Spec.cfg (Responds 200 (Return (VObj [("scope", VStr "read_customers")])))
              Spec.signedCallback []
              "/?shop=foo.myshopify.com" VUndef "foo.myshopify.com"
              (FetchFails "TypeError" "fetch failed")
              (Spec.customersRequest "foo.myshopify.com")
              Hr eq_refl eq_refl Hs eq_refl) as [H _].
  rewrite H. reflexivity.
Defined.

Lemma Map_get_set_other m k v s :
  k <> VStr s -> Map_get (Map_set m k v) (VStr s) = Map_get m (VStr s).
Proof.
  intros Hne. apply Map_get_set_ne.
  destruct (sameKey k (VStr s)) eqn:E; [|reflexivity].
  apply sameKey_eq in E. contradiction.
Qed.

Lemma App_callback_tokens_cases cfg exchange req tokens :
  TOKENS (App.callback cfg exchange req tokens) = tokens \/
  exists t, TOKENS (App.callback cfg exchange req tokens) =
            Map_set tokens (getParam (query req) "shop") t.
Proof. unfold_callback. repeat branch; cbn [TOKENS]; eauto. Qed.

(** X18: the callback stores the credential under the [shop] parameter as it came,
    while the data routes look a tenant up by its trimmed name: a callback
    whose [shop] is not a trimmed string (white space around it, or a
    repeated parameter) changes no answer of the data routes. *)
Theorem untrimmed_shop_authorizes_nothing cfg exchange req tokens remote creq :
  let after := TOKENS (App.callback cfg exchange req tokens) in
  (forall s, getParam (query req) "shop" = VStr s -> trim s <> s) ->
  effects (App.customers remote creq after) = effects (App.customers remote creq tokens) /\
  reply (App.customers remote creq after) = reply (App.customers remote creq tokens) /\
  effects (App.customersCsv remote creq after) = effects (App.customersCsv remote creq tokens) /\
  reply (App.customersCsv remote creq after) = reply (App.customersCsv remote creq tokens).
Proof.
  cbv zeta. intros Hs.
  destruct (App_callback_tokens_cases cfg exchange req tokens) as [->|[t ->]];
    [repeat split; reflexivity|].
  unfold App.customers, App.customersCsv.
  rewrite Map_get_set_other.
  - repeat split; repeat branch; reflexivity.
  - intros E. apply (Hs _ E). apply trim_idem.
Qed.

Lemma untrimmed_shop_authorizes_nothing_witness :
  let req :=
    mkRequest
      {[ "shop" := PStr "foo.myshopify.com "; "code" := PStr "c0de";
         "state" := PStr "5ca1ab1e";
         "hmac" := PStr (createHmac_sha256_hex
                           "shhh" "code=c0de&shop=foo.myshopify.com &state=5ca1ab1e") ]}
      {[ "shopify_oauth_state" := VStr "5ca1ab1e" ]} in
  let after := TOKENS (App.callback Spec.cfg (Spec.grants "shpat_1") req []) in
  after = [(VStr "foo.myshopify.com ", VStr "shpat_1")] /\
  reply (App.customers (FetchFails "TypeError" "fetch failed")
                       (Spec.customersRequest "foo.myshopify.com ") after) =
  Spec.authRequiredJson.
Proof.
  cbv zeta. split; [vm_compute; reflexivity|].
  match goal with
  | |- reply (App.customers ?remote ?creq (TOKENS (App.callback ?cfg ?exchange ?req ?tokens))) = _ =>
      destruct (untrimmed_shop_authorizes_nothing cfg exchange req tokens remote creq)
        as (_ & H & _)
  end.
  - intros s. change (getParam _ "shop") with (VStr "foo.myshopify.com ").
    intros [= <-]. discriminate.
  - rewrite H. reflexivity.
Defined.

End SessionFacts.

Section ComparisonFacts.
Import Node Js Http.

(** ** The comparison of [src/server.js] *)

Lemma code_eq c d : code c = code d -> c = d.
Proof.
  unfold code. intros H. rewrite <- (ascii_N_embedding c), <- (ascii_N_embedding d).
  now rewrite H.
Qed.

(** Two texts with the same UTF-8 bytes are the same text. *)
Lemma utf8_inj s1 s2 : utf8 s1 = utf8 s2 -> s1 = s2.
Proof.
  revert s2. induction s1 as [|c1 s1 IH]; intros [|c2 s2]; cbn [utf8]; unfold utf8_unit; cbv zeta.
  - reflexivity.
  - destruct (code c2 <? 128)%N; discriminate.
  - destruct (code c1 <? 128)%N; discriminate.
  - destruct (N.ltb_spec (code c1) 128) as [L1|L1],
             (N.ltb_spec (code c2) 128) as [L2|L2]; cbn [app].
    + intros [= Hc Hs]. f_equal; [apply code_eq, Hc|apply IH, Hs].
    + intros [= Hc _]. exfalso. revert L1 Hc.
      generalize (code c1), (code c2 / 64)%N. intros; lia.
    + intros [= Hc _]. exfalso. revert L2 Hc.
      generalize (code c2), (code c1 / 64)%N. intros; lia.
    + intros [= H1 H2 Hs]. f_equal; [|apply IH, Hs]. apply code_eq.
      rewrite (N.div_mod (code c1) 64), (N.div_mod (code c2) 64) by discriminate.
      apply N.add_cancel_l in H1, H2. rewrite H1, H2. reflexivity.
Qed.

(** What [verifyHmac] of [src/server.js] does with a string signature, the
    secret set and a query that converts: it compares the two texts as
    bytes. *)
Lemma Server_verifyHmacWith_string rt key q s :
  Server.messageConverts q = true ->
  q !! "hmac" = Some (PStr s) ->
  Server.verifyHmacWith rt (Some key) q =
  timingSafeEqual (utf8 (createHmac_sha256_hex key (Server.hmacMessage q))) (utf8 s).
Proof.
  intros Hm H. unfold Server.verifyHmacWith, getParam. rewrite Hm, H. reflexivity.
Qed.

Lemma digest_length key message : length (utf8 (createHmac_sha256_hex key message)) = 64%nat.
Proof.
  unfold createHmac_sha256_hex.
  rewrite utf8_toHex_length by apply hmac_sha256_small.
  rewrite hmac_sha256_length. reflexivity.
Qed.

(** X19: [src/server.js] compares the two signatures as texts.  With the
    secret set and query parameters that convert to strings, a string [hmac]
    is accepted exactly when it is the digest of the message, character for
    character (so the digest in upper case is not), refused when it is
    another text of 64 bytes, and the comparison throws a RangeError for any
    other length.  Whatever the signature, [verifyHmac] throws a TypeError
    when another parameter does not convert to a string (an object with a
    [toString] property of its own) and when the secret is not set. *)
Theorem first_server_accepts_only_the_digest rt secret q s :
  q !! "hmac" = Some (PStr s) ->
  (forall key,
     secret = Some key -> Server.messageConverts q = true ->
     let digest := createHmac_sha256_hex key (Server.hmacMessage q) in
     (Server.verifyHmacWith rt secret q = Return true <-> s = digest) /\
     (Server.verifyHmacWith rt secret q = Return false <->
      length (utf8 s) = 64%nat /\ s <> digest) /\
     ((exists n m, Server.verifyHmacWith rt secret q = Throw n m) <->
      length (utf8 s) <> 64%nat) /\
     (forall n m, Server.verifyHmacWith rt secret q = Throw n m -> n = "RangeError")) /\
  (Server.messageConverts q = false ->
   Server.verifyHmacWith rt secret q = Throw "TypeError" noPrimitive) /\
  (secret = None ->
   exists m, Server.verifyHmacWith rt secret q = Throw "TypeError" m) /\
  ((exists b, Server.verifyHmacWith rt secret q = Return b) <->
   Server.messageConverts q = true /\ (exists key, secret = Some key) /\
   length (utf8 s) = 64%nat).
Proof.
  intros H.
  assert (Hfirst : forall key,
            secret = Some key -> Server.messageConverts q = true ->
            Server.verifyHmacWith rt secret q =
            if (length (utf8 s) =? 64)%nat
            then Return (bool_decide
                           (utf8 (createHmac_sha256_hex key (Server.hmacMessage q)) = utf8 s))
            else Throw "RangeError" "Input buffers must have the same byte length").
  { intros key -> Hm. rewrite (Server_verifyHmacWith_string rt key q s Hm H).
    destruct (Nat.eqb_spec (length (utf8 s)) 64) as [Hlen|Hlen].
    - apply timingSafeEqual_same_length. rewrite digest_length. congruence.
    - unfold timingSafeEqual. rewrite digest_length.
      destruct (Nat.eqb_spec 64 (length (utf8 s))) as [E|E]; [congruence|reflexivity]. }
  assert (Hmsg : Server.messageConverts q = false ->
                 Server.verifyHmacWith rt secret q = Throw "TypeError" noPrimitive).
  { intros Hm. unfold Server.verifyHmacWith. rewrite Hm. reflexivity. }
  assert (Hkey : secret = None ->
                 exists m, Server.verifyHmacWith rt secret q = Throw "TypeError" m).
  { intros ->. unfold Server.verifyHmacWith.
    destruct (Server.messageConverts q); cbn; eauto. }
  split; [|split; [exact Hmsg|split; [exact Hkey|]]].
  - intros key Hs Hm. cbv zeta. rewrite (Hfirst key Hs Hm).
    set (digest := createHmac_sha256_hex key (Server.hmacMessage q)).
    destruct (Nat.eqb_spec (length (utf8 s)) 64) as [Hlen|Hlen].
    + destruct (bool_decide_reflect (utf8 digest = utf8 s)) as [Hb|Hb].
      * apply utf8_inj in Hb. subst s. split; [|split; [|split]].
        -- tauto.
        -- split; [discriminate|]. intros [_ Hne]. congruence.
        -- split; [intros (n & m & [=])|contradiction].
        -- discriminate.
      * assert (s <> digest) by (intros ->; apply Hb; reflexivity).
        split; [|split; [|split]].
        -- split; [discriminate|contradiction].
        -- tauto.
        -- split; [intros (n & m & [=])|contradiction].
        -- discriminate.
    + split; [|split; [|split]].
      * split; [discriminate|]. intros ->. exfalso. apply Hlen. apply digest_length.
      * split; [discriminate|]. intros [? _]. contradiction.
      * split; eauto.
      * intros n m [= <- _]. reflexivity.
  - split.
    + intros (b & Hb).
      destruct (Server.messageConverts q) eqn:Hm;
        [|rewrite (Hmsg eq_refl) in Hb; discriminate Hb].
      destruct secret as [key|];
        [|destruct (Hkey eq_refl) as (m & E); rewrite E in Hb; discriminate Hb].
      split; [reflexivity|]. split; [eauto|].
      rewrite (Hfirst key eq_refl eq_refl) in Hb.
      destruct (Nat.eqb_spec (length (utf8 s)) 64) as [Hlen|Hlen];
        [exact Hlen|discriminate Hb].
    + intros (Hm & (key & Hs) & Hlen). rewrite (Hfirst key Hs Hm).
      apply Nat.eqb_eq in Hlen. rewrite Hlen. eauto.
Qed.

Lemma first_server_accepts_only_the_digest_witness :
  let upper := "6A963707870B020AC6CEA4E67EB7D14A9F19782416F38BB6333A6EAF6BE453C3" in
  Server.verifyHmacWith Spec.noObjects (Some "shhh") (Spec.golden (PStr upper)) =
    Return false /\
  Server.verifyHmacWith Spec.noObjects (Some "shhh")
    (<["b" := PObj [("toString", PStr "x")]]> (Spec.golden (PStr Spec.goldenDigest))) =
    Throw "TypeError" noPrimitive /\
  exists m,
    Server.verifyHmacWith Spec.noObjects None (Spec.golden (PStr Spec.goldenDigest)) =
    Throw "TypeError" m.
Proof.
  cbv zeta. split; [|split].
  - destruct (first_server_accepts_only_the_digest
                Spec.noObjects (Some "shhh")
                (Spec.golden
                   (PStr "6A963707870B020AC6CEA4E67EB7D14A9F19782416F38BB6333A6EAF6BE453C3"))
                "6A963707870B020AC6CEA4E67EB7D14A9F19782416F38BB6333A6EAF6BE453C3")
      as (Hfirst & _); [reflexivity|].
    destruct (Hfirst "shhh" eq_refl) as (_ & [_ H] & _); [vm_compute; reflexivity|].
    apply H. split; [reflexivity|]. vm_compute. discriminate.
  - destruct (first_server_accepts_only_the_digest
                Spec.noObjects (Some "shhh")
                (<["b" := PObj [("toString", PStr "x")]]>
                   (Spec.golden (PStr Spec.goldenDigest)))
                Spec.goldenDigest)
      as (_ & Hmsg & _); [reflexivity|].
    apply Hmsg. vm_compute. reflexivity.
  - destruct (first_server_accepts_only_the_digest
                Spec.noObjects None (Spec.golden (PStr Spec.goldenDigest))
                Spec.goldenDigest)
      as (_ & _ & Hkey & _); [reflexivity|].
    apply Hkey. reflexivity.
Defined.

Lemma hmacMessage_without_signature q :
  q !! "signature" = None -> Server.hmacMessage q = App.hmacMessage q.
Proof.
  intros H. unfold Server.hmacMessage, App.hmacMessage.
  rewrite (delete_id (delete "hmac" q) "signature")
    by (rewrite lookup_delete_None; auto).
  f_equal. apply map_ext. intros key.
  destruct (getParam (delete "hmac" q) key); reflexivity.
Qed.

(** X20: whatever signature [src/server.js] accepts on a query without a
    [signature] parameter, the validating server accepts too. *)
Theorem validating_server_accepts_what_first_accepts rt cfg q s :
  q !! "hmac" = Some (PStr s) ->
  q !! "signature" = None ->
  Server.verifyHmac rt cfg q = Return true ->
  App.verifyHmac cfg q = Return true.
Proof.
  intros Hh Hs Hv.
  assert (Hm : Server.messageConverts q = true).
  { destruct (Server.messageConverts q) eqn:Hm; [reflexivity|].
    revert Hv. unfold Server.verifyHmac, Server.verifyHmacWith. rewrite Hm. discriminate. }
  assert (E : s = createHmac_sha256_hex (SHOPIFY_API_SECRET cfg) (Server.hmacMessage q)).
  { revert Hv. unfold Server.verifyHmac.
    rewrite (Server_verifyHmacWith_string rt _ q s Hm Hh).
    destruct (Nat.eq_dec (length (utf8 s)) 64) as [Hlen|Hlen].
    - rewrite timingSafeEqual_same_length by (rewrite digest_length; congruence).
      intros Hb. apply Return_inj, bool_decide_eq_true in Hb.
      symmetry. apply utf8_inj, Hb.
    - unfold timingSafeEqual. rewrite digest_length.
      destruct (Nat.eqb_spec 64 (length (utf8 s))) as [E|E]; [congruence|discriminate]. }
  apply App_verifyHmac_true. unfold getParam. rewrite Hh. cbn [from_option val toString].
  assert (Hne : s <> "").
  { intros ->. apply (f_equal String.length) in E. unfold createHmac_sha256_hex in E.
    rewrite toHex_length, hmac_sha256_length in E. discriminate. }
  split; [cbn [truthy]; apply negb_true_iff, String.eqb_neq, Hne|].
  split.
  { revert Hm. unfold Server.messageConverts, App.messageConverts.
    rewrite (delete_id (delete "hmac" q) "signature")
      by (rewrite lookup_delete_None; auto).
    auto. }
  split; [reflexivity|].
  rewrite E at 1. rewrite hmacMessage_without_signature by assumption.
  apply fromHex_digest.
Qed.

Lemma validating_server_accepts_what_first_accepts_witness :
  App.verifyHmac Spec.cfg (Spec.golden (PStr Spec.goldenDigest)) = Return true.
Proof.
  apply (validating_server_accepts_what_first_accepts
           Spec.noObjects Spec.cfg (Spec.golden (PStr Spec.goldenDigest)) Spec.goldenDigest).
  - reflexivity.
  - reflexivity.
  - vm_compute. reflexivity.
Defined.

End ComparisonFacts.

Section FirstServerFacts.
Import Node Js Http.




End FirstServerFacts.

